(** * Histogram: fixed-bin histograms, histogram intersection and text output

    A shallow embedding of [Histogram.hpp] (namespace [Histogram]) and the
    properties of its functions.

    - C++ [float] is IEEE-754 binary32, [double] is binary64; both are
      modelled with the Standard Library's executable specification
      [SpecFloat] (round to nearest, ties to even).
    - [unsigned int] and [int] are 32 bits wide and modelled in [Z].
    - [Histogram::HistogramType] is [std::vector<float>]: a [list] of
      binary32 numbers.
    - A C++ function that can throw returns an [outcome]. *)

From Stdlib Require Import String Ascii ZArith List Bool Lia.
From Stdlib Require Import Floats.SpecFloat.
From Stdlib Require Import Sorting.Permutation.
Import ListNotations.

Local Open Scope Z_scope.

(** ** Binary32 and binary64 arithmetic *)

Module F32.

Definition prec : Z := 24.
Definition emax : Z := 128.

Definition float : Type := spec_float.

Definition zero : float := S754_zero false.
Definition add : float -> float -> float := SFadd prec emax.
Definition sub : float -> float -> float := SFsub prec emax.
Definition div : float -> float -> float := SFdiv prec emax.
Definition abs : float -> float := SFabs.
Definition eqb : float -> float -> bool := SFeqb.
Definition ltb : float -> float -> bool := SFltb.
Definition leb : float -> float -> bool := SFleb.

(** Conversion of an integer ([int], [unsigned int]) to [float]. *)
Definition of_Z (z : Z) : float := binary_normalize prec emax z 0 false.

Definition one : float := Eval vm_compute in of_Z 1.

(** [x++] on a [float] lvalue. *)
Definition incr (x : float) : float := add x one.

(** The value of a finite float is [m * 2 ^ e]; its integer part,
    rounded toward zero. *)
Definition trunc (x : float) : option Z :=
  match x with
  | S754_zero _ => Some 0
  | S754_finite s m e =>
      let a := match e with
               | Zneg p => Z.shiftr (Zpos m) (Zpos p)
               | _ => Z.shiftl (Zpos m) e
               end in
      Some (if s then - a else a)
  | _ => None
  end.

(** Conversion of a [float] to [int]: the fractional part is discarded;
    the behaviour is undefined ([None]) when the integer part does not fit
    in 32 bits, and for infinities and NaN. *)
Definition to_int (x : float) : option Z :=
  match trunc x with
  | Some z => if (- 2 ^ 31 <=? z) && (z <? 2 ^ 31) then Some z else None
  | None => None
  end.

Definition is_finite (x : float) : bool :=
  match x with
  | S754_zero _ | S754_finite _ _ _ => true
  | _ => false
  end.

Definition is_nan (x : float) : bool :=
  match x with
  | S754_nan => true
  | _ => false
  end.

End F32.

Module F64.

Definition prec : Z := 53.
Definition emax : Z := 1024.

Definition of_Z (z : Z) : spec_float := binary_normalize prec emax z 0 false.

(** Promotion of a [float] to [double] (exact). *)
Definition of_float (x : F32.float) : spec_float :=
  match x with
  | S754_finite s m e => binary_round prec emax s m e
  | _ => x
  end.

(** The literal [1e-6]. *)
Definition lit_1em6 : spec_float :=
  Eval vm_compute in SFdiv prec emax (of_Z 1) (of_Z 1000000).

End F64.

Abbreviation float := F32.float.

(** [std::endl] writes a line feed. *)
Definition endl : string := String (ascii_of_nat 10) EmptyString.

(** ** Text output of a [float] *)

(** [std::ostream << float] with the stream's default format: the value is
    printed like [printf("%g")], with six significant decimal digits, in
    fixed notation when the decimal exponent [X] satisfies [-4 <= X < 6] and
    in scientific notation otherwise; trailing zeros of the fraction are
    removed. *)
Module Ostream.

Definition digit_char (d : Z) : ascii := ascii_of_nat (48 + Z.to_nat d).

(** The [width] lowest decimal digits of [n]. *)
Fixpoint fixed_digits (width : nat) (n : Z) (acc : string) : string :=
  match width with
  | O => acc
  | S w => fixed_digits w (n / 10) (String (digit_char (n mod 10)) acc)
  end.

(** Number of decimal digits of [n] (at least 1), for [n < 10 ^ fuel]. *)
Fixpoint dec_width (fuel : nat) (n : Z) : nat :=
  match fuel with
  | O => 1%nat
  | S f => if n <? 10 then 1%nat else S (dec_width f (n / 10))
  end.

Definition show_nat (n : Z) : string :=
  fixed_digits (dec_width 60 n) n "".

Definition show_int (z : Z) : string :=
  if z <? 0 then "-" ++ show_nat (- z) else show_nat z.

(** A fraction of [width] digits without its trailing zeros. *)
Fixpoint strip_zeros (width : nat) (n : Z) : nat * Z :=
  match width with
  | O => (O, n)
  | S w => if n mod 10 =? 0 then strip_zeros w (n / 10) else (width, n)
  end.

Definition show_fraction (width : nat) (n : Z) : string :=
  let '(w, f) := strip_zeros width n in
  match w with
  | O => ""
  | _ => "." ++ fixed_digits w f ""
  end.

(** [10 ^ x <= num / den]. *)
Definition pow10_le (x : Z) (num den : Z) : bool :=
  if 0 <=? x then 10 ^ x * den <=? num else den <=? num * 10 ^ (- x).

(** The decimal exponent of [num / den]: the largest [x], from [x0]
    upwards, with [10 ^ x <= num / den]. *)
Fixpoint dec_exponent (fuel : nat) (x0 : Z) (num den : Z) : Z :=
  match fuel with
  | O => x0
  | S f =>
      if pow10_le (x0 + 1) num den then dec_exponent f (x0 + 1) num den
      else x0
  end.

(** [num / den] rounded to the nearest integer, ties to even. *)
Definition round_half_even (num den : Z) : Z :=
  let q := num / den in
  let r := num mod den in
  if (den <? 2 * r) || ((den =? 2 * r) && Z.odd q) then q + 1 else q.

(** The six significant digits and the decimal exponent of a positive
    [num / den]. *)
Definition significand (num den : Z) : Z * Z :=
  let x := dec_exponent 100 (-50) num den in
  let r := if 0 <=? 5 - x
           then round_half_even (num * 10 ^ (5 - x)) den
           else round_half_even num (den * 10 ^ (x - 5)) in
  if r =? 1000000 then (100000, x + 1) else (r, x).

Definition show_exponent (x : Z) : string :=
  (if x <? 0 then "e-" else "e+") ++
  (if Z.abs x <? 10 then "0" else "") ++ show_nat (Z.abs x).

Definition show_positive (num den : Z) : string :=
  let '(r, x) := significand num den in
  if (x <? -4) || (6 <=? x) then
    show_nat (r / 100000) ++ show_fraction 5 (r mod 100000) ++ show_exponent x
  else if x <? 0 then
    "0" ++ show_fraction (Z.to_nat (5 - x)) r
  else
    let w := Z.to_nat (5 - x) in
    show_nat (r / 10 ^ (5 - x)) ++ show_fraction w (r mod 10 ^ (5 - x)).

Definition show_float (x : float) : string :=
  match x with
  | S754_zero s => if s then "-0" else "0"
  | S754_infinity s => if s then "-inf" else "inf"
  | S754_nan => "nan"
  | S754_finite s m e =>
      (if s then "-" else "") ++
      match e with
      | Zneg p => show_positive (Zpos m) (2 ^ Zpos p)
      | _ => show_positive (Zpos m * 2 ^ e) 1
      end
  end.

End Ostream.

(** ** Outcomes of a call *)

(** The text streamed into the [std::runtime_error] of [ScalarHistogram],
    field by field in the order of the source. *)
Record diagnostic : Type := {
  diag_bin : Z;              (* "Can't write to bin " << bin *)
  diag_count : nat;          (* "There are " << values.size() *)
  diag_rangeMin : float;     (* static_cast<float>(rangeMin) *)
  diag_rangeMax : float;     (* static_cast<float>(rangeMax) *)
  diag_index : nat;          (* "values[i] (i = " << i *)
  diag_value : float;        (* static_cast<float>(values[i]) *)
  diag_binWidth : float      (* "binWidth " << binWidth *)
}.

(** [ss.str()], the text of the exception. *)
Definition diagnostic_text (d : diagnostic) : string :=
  "Can't write to bin " ++ Ostream.show_int (diag_bin d) ++ "!" ++ endl ++
  "There are " ++ Ostream.show_nat (Z.of_nat (diag_count d)) ++ " values." ++ endl ++
  "Range min " ++ Ostream.show_float (diag_rangeMin d) ++ endl ++
  "Range max " ++ Ostream.show_float (diag_rangeMax d) ++ endl ++
  "values[i] (i = " ++ Ostream.show_nat (Z.of_nat (diag_index d)) ++ ") = " ++
  Ostream.show_float (diag_value d) ++ endl ++
  "binWidth " ++ Ostream.show_float (diag_binWidth d) ++ endl.

Inductive outcome (A : Type) : Type :=
| Ok (a : A)                      (* normal return *)
| Throw (d : diagnostic)          (* throw std::runtime_error *)
| Undefined.                      (* undefined behaviour *)

Arguments Ok {A} a.
Arguments Throw {A} d.
Arguments Undefined {A}.

(** Modelled from the spec: [Histogram::HistogramType] is declared in
    [Histogram.h], which is not among the sources.  The specification
    (section 3) and the comment at the head of [ScalarHistogram] say that the
    counts are stored as floats: it is [std::vector<float>]. *)
Definition HistogramType : Type := list float.

(** ** The sample type *)

(** [ScalarHistogram] is a template over the sample type [TValue].  It uses
    [==] on samples, the difference of two samples as the dividend of a
    [float] division, and the conversion of a sample to [float]. *)
Class Sample (TValue : Type) : Type := {
  sample_eqb : TValue -> TValue -> bool;      (* a == b *)
  sample_diff : TValue -> TValue -> float;    (* (a - b), converted to float *)
  sample_float : TValue -> float              (* static_cast<float>(a) *)
}.

(** [unsigned char], the pixel type the source names: both operands of [-]
    are promoted to [int], so the difference is exact and may be negative. *)
Abbreviation uchar := Z (only parsing).

Definition is_uchar (v : uchar) : Prop := 0 <= v <= 255.

#[export] Instance Sample_uchar : Sample uchar := {
  sample_eqb := Z.eqb;
  sample_diff := fun a b => F32.of_Z (a - b);
  sample_float := F32.of_Z
}.

(** [float] samples: [-] is the subtraction of binary32. *)
#[export] Instance Sample_float : Sample float := {
  sample_eqb := F32.eqb;
  sample_diff := F32.sub;
  sample_float := fun x => x
}.

(** ** ScalarHistogram *)

(** [bins[i]++], undefined when [i] is not an index of [bins]. *)
Fixpoint increment (bins : HistogramType) (i : nat) : option HistogramType :=
  match bins, i with
  | [], _ => None
  | b :: bs, O => Some (F32.incr b :: bs)
  | b :: bs, S j =>
      match increment bs j with
      | Some bs' => Some (b :: bs')
      | None => None
      end
  end.

(** [fabs(binWidth - 0.0f) < 1e-6], compared in [double]. *)
Definition degenerate (binWidth : float) : bool :=
  SFltb (F64.of_float (F32.abs (F32.sub binWidth F32.zero))) F64.lit_1em6.

Section ScalarHistogram.

Context {TValue : Type} `{Sample TValue}.

Variable numberOfBins : Z.
Variables rangeMin rangeMax : TValue.

Definition binWidth : float :=
  F32.div (sample_diff rangeMax rangeMin) (F32.of_Z numberOfBins).

Definition diagnose (bin : Z) (count i : nat) (v : TValue) : diagnostic :=
  {| diag_bin := bin; diag_count := count;
     diag_rangeMin := sample_float rangeMin;
     diag_rangeMax := sample_float rangeMax;
     diag_index := i; diag_value := sample_float v;
     diag_binWidth := binWidth |}.

(** One iteration of the loop over [values], for the sample [v = values[i]]. *)
Definition bin_sample (count i : nat) (v : TValue) (bins : HistogramType)
  : outcome HistogramType :=
  if sample_eqb v rangeMax then
    match increment bins (length bins - 1) with
    | Some bins' => Ok bins'
    | None => Undefined
    end
  else
    match F32.to_int (F32.div (sample_diff v rangeMin) binWidth) with
    | None => Undefined
    | Some bin =>
        if bin <? 0 then Throw (diagnose bin count i v)
        else if bin >=? numberOfBins then Throw (diagnose bin count i v)
        else
          match increment bins (Z.to_nat bin) with
          | Some bins' => Ok bins'
          | None => Undefined
          end
    end.

(** The loop [for(i = 0; i < values.size(); ++i)], from index [i] on. *)
Fixpoint bin_loop (count i : nat) (values : list TValue) (bins : HistogramType)
  : outcome HistogramType :=
  match values with
  | [] => Ok bins
  | v :: rest =>
      match bin_sample count i v bins with
      | Ok bins' => bin_loop count (S i) rest bins'
      | Throw d => Throw d
      | Undefined => Undefined
      end
  end.

Definition ScalarHistogram (values : list TValue) : outcome HistogramType :=
  let bins := repeat F32.zero (Z.to_nat numberOfBins) in
  if degenerate binWidth then Ok bins
  else bin_loop (length values) 0 values bins.

End ScalarHistogram.

Arguments ScalarHistogram {TValue _} numberOfBins rangeMin rangeMax values.

(** ** Compute1DConcatenatedHistogramOfMultiChannelImage *)

(** The image library (ITK, ITKHelpers) is outside the repository: the three
    operations the function calls are parameters. *)
Section MultiChannel.

Context {TValue : Type} `{Sample TValue}.

Variables Image ScalarImage Region : Type.
Variable GetNumberOfComponentsPerPixel : Image -> nat.
Variable ExtractChannel : Image -> nat -> ScalarImage.
Variable GetPixelValuesInRegion : ScalarImage -> Region -> list TValue.

Variable image : Image.
Variable region : Region.
Variable numberOfBinsPerDimensions : Z.
Variables rangeMin rangeMax : TValue.

(** The histogram of one channel, as computed in the body of the loop. *)
Definition channel_histogram (channel : nat) : outcome HistogramType :=
  let extractedChannel := ExtractChannel image channel in
  let pixelValues := GetPixelValuesInRegion extractedChannel region in
  ScalarHistogram numberOfBinsPerDimensions rangeMin rangeMax pixelValues.

(** The loop over the channels [channel, channel + remaining). *)
Fixpoint channel_loop (channel remaining : nat)
    (concatenatedHistograms : HistogramType) : outcome HistogramType :=
  match remaining with
  | O => Ok concatenatedHistograms
  | S remaining' =>
      match channel_histogram channel with
      | Ok histogram =>
          channel_loop (S channel) remaining'
            (concatenatedHistograms ++ histogram)
      | Throw d => Throw d
      | Undefined => Undefined
      end
  end.

Definition Compute1DConcatenatedHistogramOfMultiChannelImage
  : outcome HistogramType :=
  channel_loop 0 (GetNumberOfComponentsPerPixel image) [].

End MultiChannel.

(** ** HistogramIntersection *)

(** [std::min(a, b)] is [(b < a) ? b : a]. *)
Definition std_min (a b : float) : float := if F32.ltb b a then b else a.

(** [std::accumulate(first, last, 0.0f)]. *)
Definition accumulate (h : HistogramType) : float :=
  fold_left F32.add h F32.zero.

(** The loop over the bins, [totalIntersection] being the accumulator. *)
Fixpoint intersection_loop (histogram1 histogram2 : HistogramType)
    (totalIntersection : float) : float :=
  match histogram1, histogram2 with
  | frequency1 :: rest1, frequency2 :: rest2 =>
      let intersection := std_min frequency1 frequency2 in
      intersection_loop rest1 rest2 (F32.add totalIntersection intersection)
  | _, _ => totalIntersection
  end.

(** What a call leaves on [std::cerr], and what it returns. *)
Record reported (A : Type) : Type := {
  cerr : string;
  returned : A
}.

Arguments cerr {A} r.
Arguments returned {A} r.

Definition HistogramIntersection (histogram1 histogram2 : HistogramType)
  : reported float :=
  if negb (length histogram1 =? length histogram2)%nat then
    {| cerr := "Histograms must be the same size!" ++ endl;
       returned := F32.of_Z 0 |}
  else
    let totalIntersection := intersection_loop histogram1 histogram2 F32.zero in
    let totalFrequency := accumulate histogram1 in
    let normalizedIntersection := F32.div totalIntersection totalFrequency in
    {| cerr := ""; returned := normalizedIntersection |}.

(** ** WriteHistogram and OutputHistogram *)

(** What the loop streams: every bin followed by one space. *)
Fixpoint stream_histogram (histogram : HistogramType) : string :=
  match histogram with
  | [] => ""
  | x :: rest => Ostream.show_float x ++ " " ++ stream_histogram rest
  end.

(** A file system maps a file name to the content of the file, if any. *)
Definition files : Type := string -> option string.

Definition write_file (fs : files) (filename content : string) : files :=
  fun name => if String.eqb name filename then Some content else fs name.

(** [std::ofstream fout(filename)] creates or truncates the file; when the
    file cannot be opened ([can_open filename = false]) the stream is in a
    failed state, every [<<] is a no-op and no error is reported. *)
Definition WriteHistogram (can_open : string -> bool)
    (histogram : HistogramType) (filename : string) (fs : files) : files :=
  if can_open filename then write_file fs filename (stream_histogram histogram)
  else fs.

(** [OutputHistogram] appends the same text to [std::cout]. *)
Definition OutputHistogram (histogram : HistogramType) (cout : string) : string :=
  cout ++ stream_histogram histogram.

(** ** Reading a written histogram back *)

(** Modelled from the spec: the repository has no reader.  The round trip
    of a written histogram is stated against [std::istream >> float] applied
    until the text is exhausted: white space separates the numbers, and each
    number is a decimal literal converted to the nearest [float]. *)
Module Istream.

Definition is_space (c : ascii) : bool :=
  let n := nat_of_ascii c in
  ((n =? 32) || ((9 <=? n) && (n <=? 13)))%nat.

Definition digit_of (c : ascii) : option Z :=
  let n := nat_of_ascii c in
  if ((48 <=? n) && (n <=? 57))%nat then Some (Z.of_nat n - 48) else None.

(** The white-space separated words of a text; [word] is the word being
    read. *)
Fixpoint words_from (text : string) (word : string) : list string :=
  match text with
  | EmptyString =>
      match word with
      | EmptyString => []
      | _ => [word]
      end
  | String c rest =>
      if is_space c then
        match word with
        | EmptyString => words_from rest EmptyString
        | _ => word :: words_from rest EmptyString
        end
      else words_from rest (word ++ String c EmptyString)
  end.

Definition words (text : string) : list string := words_from text "".

(** A run of decimal digits: its value, its length and what follows. *)
Fixpoint digits_from (s : string) (value : Z) (len : Z) : Z * Z * string :=
  match s with
  | String c rest =>
      match digit_of c with
      | Some d => digits_from rest (10 * value + d) (len + 1)
      | None => (value, len, s)
      end
  | EmptyString => (value, len, s)
  end.

Definition sign_from (s : string) : bool * string :=
  match s with
  | String "-" rest => (true, rest)
  | String "+" rest => (false, rest)
  | _ => (false, s)
  end.

(** [sign digits [. digits] [e sign digits]], as a signed fraction
    [num / den] of integers. *)
Definition decimal (s : string) : option (bool * Z * Z) :=
  let '(neg, s1) := sign_from s in
  let '(ip, ilen, s2) := digits_from s1 0 0 in
  let '(fp, flen, s3) :=
    match s2 with
    | String "." rest => digits_from rest ip 0
    | _ => (ip, 0, s2)
    end in
  if ilen + flen =? 0 then None
  else
    let finish (x : Z) :=
      let x10 := x - flen in
      Some (neg, fp * 10 ^ Z.max x10 0, 10 ^ Z.max (- x10) 0) in
    match s3 with
    | EmptyString => finish 0
    | String c rest =>
        if (Ascii.eqb c "e" || Ascii.eqb c "E")%bool then
          let '(xneg, s4) := sign_from rest in
          let '(x, xlen, s5) := digits_from s4 0 0 in
          match s5 with
          | EmptyString =>
              if xlen =? 0 then None else finish (if xneg then - x else x)
          | _ => None
          end
        else None
    end.

(** The nearest [float] of a decimal literal. *)
Definition parse_float (s : string) : option float :=
  match decimal s with
  | Some (neg, Zpos num, Zpos den) =>
      Some (F32.div (S754_finite neg num 0) (S754_finite false den 0))
  | Some (neg, Z0, _) => Some (S754_zero neg)
  | _ => None
  end.

Fixpoint parse_all (ws : list string) : option HistogramType :=
  match ws with
  | [] => Some []
  | w :: rest =>
      match parse_float w, parse_all rest with
      | Some x, Some xs => Some (x :: xs)
      | _, _ => None
      end
  end.

Definition ReadHistogram (text : string) : option HistogramType :=
  parse_all (words text).

End Istream.

(** * Definitions used by the statements and their proofs *)

(** The integer part of [N / D] and the position of [N / D] between it and
    the next integer. *)
Definition locate (N D : Z) : Z * location :=
  (N / D,
   if N mod D =? 0 then loc_Exact else loc_Inexact (2 * (N mod D) ?= D)).

(** [N / D] rounded to the nearest integer, ties to even, by the rounding
    function of [SpecFloat]. *)
Definition rne (N D : Z) : Z :=
  round_nearest_even (fst (locate N D)) (snd (locate N D)).

(** The shift record of [SpecFloat] that stands for [N / D]. *)
Definition located (N D : Z) : shr_record :=
  shr_record_of_loc (fst (locate N D)) (snd (locate N D)).

(** The float with sign [s] and value [m * 2 ^ e], for a rounded significand
    [0 <= m <= 2 ^ prec]. *)
Definition finish (prec emax : Z) (s : bool) (m e : Z) : spec_float :=
  if m =? 0 then S754_zero s
  else if m =? 2 ^ prec then
    if e + 1 <=? emax - prec then S754_finite s (Z.to_pos (2 ^ (prec - 1))) (e + 1)
    else S754_infinity s
  else if e <=? emax - prec then S754_finite s (Z.to_pos m) e
  else S754_infinity s.

(** The significand and the exponent of a small integer. *)
Definition int_m (c : Z) : Z := c * 2 ^ (24 - Zdigits2 c).
Definition int_e (c : Z) : Z := Zdigits2 c - 24.

(** The integer a [float] is equal to, if any. *)
Definition integer_value (x : float) : option Z :=
  match x with
  | S754_zero _ => Some 0
  | S754_finite s m e =>
      if (0 <=? e) || (Zpos m mod 2 ^ (- e) =? 0) then F32.trunc x else None
  | _ => None
  end.

(** The sum of the entries of a histogram of integer counts. *)
Fixpoint total (h : HistogramType) : option Z :=
  match h with
  | [] => Some 0
  | x :: rest =>
      match integer_value x, total rest with
      | Some a, Some b => Some (a + b)
      | _, _ => None
      end
  end.

(** Integer counts, and the count at index [j] increased by one. *)
Fixpoint zsum (counts : list Z) : Z :=
  match counts with
  | [] => 0
  | c :: rest => c + zsum rest
  end.

Fixpoint bump (counts : list Z) (j : nat) : list Z :=
  match counts, j with
  | [], _ => []
  | c :: rest, O => (c + 1) :: rest
  | c :: rest, S j' => c :: bump rest j'
  end.

(** A non-negative binary32 number (finite or infinite). *)
Definition nonneg32 (x : float) : Prop :=
  F32.leb F32.zero x = true /\ valid_binary 24 128 x = true.

(** A non-negative number in units of [2 ^ -149], the least positive
    binary32 number; infinity is [2 ^ 277 = 2 ^ (128 + 149)]. *)
Definition scaled (x : float) : Z :=
  match x with
  | S754_finite _ m e => Zpos m * 2 ^ (e + 149)
  | S754_infinity _ => 2 ^ 277
  | _ => 0
  end.

(** Rounding of an integer to 24 significant bits. *)
Definition round_int (X : Z) : Z :=
  let t := Z.max (Zdigits2 X - 24) 0 in rne X (2 ^ t) * 2 ^ t.

(** The per-bin minima of two histograms, in the words of the specification. *)
Definition minima (h1 h2 : HistogramType) : HistogramType :=
  map (fun p => std_min (fst p) (snd p)) (combine h1 h2).

(** A text without white space. *)
Fixpoint no_space (s : string) : bool :=
  match s with
  | EmptyString => true
  | String c rest => negb (Istream.is_space c) && no_space rest
  end.

(** A [float] whose printed text reads back as itself. *)
Definition reads_back (x : float) : Prop :=
  Istream.parse_float (Ostream.show_float x) = Some x.

(** ** Definitions used by the further properties *)

(** The index of the bin that [ScalarHistogram] increments for an accepted
    sample: the last bin for [rangeMax], the truncated quotient otherwise. *)
Definition bin_index {TValue : Type} `{Sample TValue}
    (numberOfBins : Z) (rangeMin rangeMax v : TValue) : nat :=
  if sample_eqb v rangeMax then (Z.to_nat numberOfBins - 1)%nat
  else
    match F32.to_int (F32.div (sample_diff v rangeMin)
                        (binWidth numberOfBins rangeMin rangeMax)) with
    | Some bin => Z.to_nat bin
    | None => 0%nat
    end.

(** The number of samples that are counted in bin [j]. *)
Definition samples_in_bin {TValue : Type} `{Sample TValue}
    (numberOfBins : Z) (rangeMin rangeMax : TValue) (values : list TValue)
    (j : nat) : Z :=
  Z.of_nat
    (count_occ Nat.eq_dec (map (bin_index numberOfBins rangeMin rangeMax) values) j).

(** The sum of the per-bin minima of two lists of counts. *)
Definition common_count (counts1 counts2 : list Z) : Z :=
  zsum (map (fun p => Z.min (fst p) (snd p)) (combine counts1 counts2)).

(** A bin that has been incremented at most [k] times: a non-negative
    integer, at most [k] and at most [2 ^ 24]. *)
Definition counter (k : Z) (x : float) : Prop :=
  exists c : Z, 0 <= c <= 2 ^ 24 /\ c <= k /\ x = F32.of_Z c.

(** * Rounding to nearest in [SpecFloat] *)

Lemma new_location_locate (D r : Z) :
  0 <= r < D ->
  new_location D r = if r =? 0 then loc_Exact else loc_Inexact (2 * r ?= D).
Proof.
  intros Hr. unfold new_location.
  destruct (Z.even D) eqn:HD.
  - reflexivity.
  - unfold new_location_odd. destruct (r =? 0); [reflexivity|].
    f_equal.
    assert (Hodd : Z.odd D = true) by (rewrite <- Z.negb_even, HD; reflexivity).
    apply Z.odd_spec in Hodd. destruct Hodd as [k Hk].
    destruct (2 * r + 1 ?= D) eqn:C1; symmetry.
    + apply Z.compare_eq in C1. apply Z.compare_lt_iff. lia.
    + rewrite Z.compare_lt_iff in C1. apply Z.compare_lt_iff. lia.
    + rewrite Z.compare_gt_iff in C1. apply Z.compare_gt_iff. lia.
Qed.

Lemma shr_1_spec (m : Z) (r s : bool) :
  0 <= m ->
  shr_1 (Build_shr_record m r s) = Build_shr_record (m / 2) (Z.odd m) (r || s).
Proof.
  intros Hm. destruct m as [|p|p]; [reflexivity| |lia].
  destruct p as [p|p|]; cbn [shr_1].
  - replace (Z.pos p~1 / 2) with (Z.pos p); [reflexivity|].
    rewrite Pos2Z.inj_xI. apply Z.div_unique with (r := 1); lia.
  - replace (Z.pos p~0 / 2) with (Z.pos p); [reflexivity|].
    rewrite Pos2Z.inj_xO. apply Z.div_unique with (r := 0); lia.
  - reflexivity.
Qed.

Lemma locate_double (N D : Z) :
  0 <= N -> 0 < D ->
  N / (2 * D) = (N / D) / 2 /\
  N mod (2 * D) = D * ((N / D) mod 2) + N mod D.
Proof.
  intros HN HD.
  pose proof (Z.div_mod N D ltac:(lia)) as E1.
  pose proof (Z.mod_pos_bound N D HD) as B1.
  pose proof (Z.div_mod (N / D) 2 ltac:(lia)) as E2.
  pose proof (Z.mod_pos_bound (N / D) 2 ltac:(lia)) as B2.
  assert (E : N = (2 * D) * ((N / D) / 2) + (D * ((N / D) mod 2) + N mod D)) by nia.
  assert (B : 0 <= D * ((N / D) mod 2) + N mod D < 2 * D) by nia.
  split.
  - symmetry. eapply Z.div_unique_pos; eauto.
  - symmetry. eapply Z.mod_unique_pos; eauto.
Qed.

Lemma shr_1_located (N D : Z) :
  0 <= N -> 0 < D -> shr_1 (located N D) = located N (2 * D).
Proof.
  intros HN HD. unfold located, locate. cbn [fst snd].
  destruct (locate_double N D HN HD) as [Hq Hr].
  pose proof (Z.mod_pos_bound N D HD) as B1.
  pose proof (Z.mod_pos_bound (N / D) 2 ltac:(lia)) as B2.
  assert (Hm : 0 <= N / D) by (apply Z.div_pos; lia).
  rewrite Hq, Hr.
  assert (Hodd : Z.odd (N / D) = ((N / D) mod 2 =? 1)).
  { rewrite Zmod_odd. destruct (Z.odd (N / D)); reflexivity. }
  destruct (N mod D =? 0) eqn:R0.
  - apply Z.eqb_eq in R0. rewrite R0.
    cbn [shr_record_of_loc]. rewrite shr_1_spec by lia. rewrite Hodd.
    assert (C : (N / D) mod 2 = 0 \/ (N / D) mod 2 = 1) by lia.
    destruct C as [C|C]; rewrite C.
    + replace (D * 0 + 0 =? 0) with true by (symmetry; apply Z.eqb_eq; lia).
      reflexivity.
    + replace (D * 1 + 0 =? 0) with false by (symmetry; apply Z.eqb_neq; lia).
      replace (2 * (D * 1 + 0) ?= 2 * D) with Eq
        by (symmetry; apply Z.compare_eq_iff; lia).
      reflexivity.
  - apply Z.eqb_neq in R0.
    replace (D * ((N / D) mod 2) + N mod D =? 0) with false
      by (symmetry; apply Z.eqb_neq; nia).
    assert (S1 : forall c, shr_1 (shr_record_of_loc (N / D) (loc_Inexact c))
                 = Build_shr_record (N / D / 2) (Z.odd (N / D)) true).
    { intros c. destruct c; cbn [shr_record_of_loc]; rewrite shr_1_spec by lia;
        reflexivity. }
    rewrite S1, Hodd.
    assert (C : (N / D) mod 2 = 0 \/ (N / D) mod 2 = 1) by lia.
    destruct C as [C|C]; rewrite C.
    + replace (2 * (D * 0 + N mod D) ?= 2 * D) with Lt
        by (symmetry; apply Z.compare_lt_iff; lia).
      reflexivity.
    + replace (2 * (D * 1 + N mod D) ?= 2 * D) with Gt
        by (symmetry; apply Z.compare_gt_iff; lia).
      reflexivity.
Qed.

Lemma iter_shr_1_located (p : positive) :
  forall N D, 0 <= N -> 0 < D ->
  iter_pos shr_1 p (located N D) = located N (D * 2 ^ Zpos p).
Proof.
  induction p as [p IH|p IH|]; intros N D HN HD; cbn [iter_pos].
  - assert (0 < 2 ^ Zpos p) by (apply Z.pow_pos_nonneg; lia).
    rewrite shr_1_located by lia.
    rewrite !IH by nia. f_equal.
    replace (Zpos p~1) with (Zpos p + Zpos p + 1) by lia.
    rewrite !Z.pow_add_r by lia. rewrite Z.pow_1_r. ring.
  - assert (0 < 2 ^ Zpos p) by (apply Z.pow_pos_nonneg; lia).
    rewrite !IH by nia. f_equal.
    replace (Zpos p~0) with (Zpos p + Zpos p) by lia.
    rewrite !Z.pow_add_r by lia. ring.
  - rewrite shr_1_located by lia. f_equal. rewrite Z.pow_1_r. ring.
Qed.

(** Sandwich properties of rounding to nearest. *)

Lemma rne_floor (N D : Z) :
  0 < D -> N / D <= rne N D <= N / D + 1.
Proof.
  intros HD. unfold rne, locate. cbn [fst snd].
  destruct (N mod D =? 0); cbn [round_nearest_even]; [lia|].
  destruct (2 * (N mod D) ?= D); [destruct (Z.even (N / D))| |]; lia.
Qed.

Lemma rne_le (N D Y : Z) :
  0 < D -> N <= Y * D -> rne N D <= Y.
Proof.
  intros HD HY. unfold rne, locate. cbn [fst snd].
  pose proof (Z.div_mod N D ltac:(lia)) as E.
  pose proof (Z.mod_pos_bound N D HD) as B.
  destruct (Z.eqb_spec (N mod D) 0) as [R0|R0]; cbn [round_nearest_even].
  - nia.
  - assert (N / D < Y) by nia.
    destruct (2 * (N mod D) ?= D); [destruct (Z.even (N / D))| |]; lia.
Qed.

Lemma rne_ge (N D Y : Z) :
  0 < D -> Y * D <= N -> Y <= rne N D.
Proof.
  intros HD HY.
  assert (Y <= N / D) by (apply Z.div_le_lower_bound; lia).
  pose proof (rne_floor N D HD). lia.
Qed.

Lemma rne_exact (Y D : Z) : 0 < D -> rne (Y * D) D = Y.
Proof.
  intros HD. apply Z.le_antisymm; [apply rne_le|apply rne_ge]; lia.
Qed.

Lemma rne_mono (N N' D : Z) :
  0 < D -> N <= N' -> rne N D <= rne N' D.
Proof.
  intros HD HN.
  pose proof (Z.div_mod N D ltac:(lia)) as E.
  pose proof (Z.mod_pos_bound N D HD) as B.
  pose proof (Z.div_mod N' D ltac:(lia)) as E'.
  pose proof (Z.mod_pos_bound N' D HD) as B'.
  assert (Hq : N / D <= N' / D) by (apply Z.div_le_mono; lia).
  destruct (Z.eq_dec (N / D) (N' / D)) as [Q|Q].
  - unfold rne, locate. cbn [fst snd]. rewrite <- Q.
    assert (Hr : N mod D <= N' mod D) by nia.
    destruct (Z.eqb_spec (N mod D) 0) as [R0|R0];
      destruct (Z.eqb_spec (N' mod D) 0) as [R0'|R0'];
      cbn [round_nearest_even]; try lia.
    + destruct (2 * (N' mod D) ?= D); [destruct (Z.even (N / D))| |]; lia.
    + destruct (Z.compare_spec (2 * (N mod D)) D);
        destruct (Z.compare_spec (2 * (N' mod D)) D);
        destruct (Z.even (N / D)); lia.
  - pose proof (rne_floor N D HD). pose proof (rne_floor N' D HD).
    assert (N / D + 1 <= N' / D) by lia.
    assert (rne N D <= N / D + 1) by lia.
    assert (N' / D <= rne N' D) by lia. lia.
Qed.

(** Number of binary digits. *)

Lemma digits2_pos_bounds (p : positive) :
  2 ^ (Zpos (digits2_pos p) - 1) <= Zpos p < 2 ^ Zpos (digits2_pos p).
Proof.
  induction p as [p IH|p IH|]; cbn [digits2_pos].
  - rewrite Pos2Z.inj_succ.
    replace (Z.succ (Zpos (digits2_pos p)) - 1) with (Zpos (digits2_pos p) - 1 + 1) by lia.
    rewrite Z.pow_succ_r, Z.pow_add_r, Z.pow_1_r by lia. lia.
  - rewrite Pos2Z.inj_succ.
    replace (Z.succ (Zpos (digits2_pos p)) - 1) with (Zpos (digits2_pos p) - 1 + 1) by lia.
    rewrite Z.pow_succ_r, Z.pow_add_r, Z.pow_1_r by lia. lia.
  - cbn. lia.
Qed.

Lemma Zdigits2_bounds (m : Z) :
  0 < m -> 2 ^ (Zdigits2 m - 1) <= m < 2 ^ Zdigits2 m.
Proof.
  intros Hm. destruct m as [|p|p]; try lia. apply digits2_pos_bounds.
Qed.

Lemma Zdigits2_nonneg (m : Z) : 0 <= Zdigits2 m.
Proof. destruct m; cbn; lia. Qed.

Lemma Zdigits2_pos (m : Z) : 0 < m -> 0 < Zdigits2 m.
Proof. destruct m; cbn; lia. Qed.

Lemma pow2_lt_inv (a b : Z) : 0 <= b -> 2 ^ a < 2 ^ b -> a < b.
Proof.
  intros Hb H. destruct (Z.lt_ge_cases a b) as [|Hge]; [assumption|].
  pose proof (Z.pow_le_mono_r 2 b a ltac:(lia) Hge). lia.
Qed.

Lemma Zdigits2_unique (m d : Z) :
  0 < m -> 2 ^ (d - 1) <= m < 2 ^ d -> Zdigits2 m = d.
Proof.
  intros Hm [Hlo Hhi].
  pose proof (Zdigits2_bounds m Hm) as [Blo Bhi].
  pose proof (Zdigits2_pos m Hm) as Hp.
  assert (Hd : 0 < d).
  { destruct (Z.lt_ge_cases 0 d) as [|Hd0]; [assumption|].
    assert (E : 2 ^ d <= 1).
    { destruct (Z.eq_dec d 0) as [->|]; [cbn; lia|].
      rewrite Z.pow_neg_r by lia. lia. }
    lia. }
  assert (d - 1 < Zdigits2 m) by (apply pow2_lt_inv; lia).
  assert (Zdigits2 m - 1 < d) by (apply pow2_lt_inv; lia).
  lia.
Qed.

Lemma Zdigits2_le (m d : Z) : 0 <= d -> 0 <= m < 2 ^ d -> Zdigits2 m <= d.
Proof.
  intros Hd [Hlo Hhi]. destruct (Z.eq_dec m 0) as [->|Hn]; [cbn; lia|].
  pose proof (Zdigits2_bounds m ltac:(lia)) as [Blo Bhi].
  assert (Zdigits2 m - 1 < d) by (apply pow2_lt_inv; lia). lia.
Qed.

Lemma Zdigits2_ge (m d : Z) : 0 < m -> 2 ^ (d - 1) <= m -> d <= Zdigits2 m.
Proof.
  intros Hm Hlo.
  pose proof (Zdigits2_bounds m Hm) as [Blo Bhi].
  pose proof (Zdigits2_pos m Hm).
  assert (d - 1 < Zdigits2 m) by (apply pow2_lt_inv; lia). lia.
Qed.

(** The rounded result, from its integer significand. *)

Section Rounding.

Variables prec emax : Z.
Hypothesis prec_pos : 0 < prec.

Lemma fexp_ge_emin (e : Z) : emin prec emax <= fexp prec emax e.
Proof. unfold fexp. lia. Qed.

Lemma fexp_mono (a b : Z) : a <= b -> fexp prec emax a <= fexp prec emax b.
Proof. unfold fexp. lia. Qed.

Lemma shr_located (N D e n : Z) :
  0 <= N -> 0 < D -> 0 <= n ->
  shr (located N D) e n = (located N (D * 2 ^ n), e + n).
Proof.
  intros HN HD Hn. destruct n as [|p|p]; try lia; cbn [shr].
  - rewrite Z.mul_1_r, Z.add_0_r. reflexivity.
  - rewrite iter_shr_1_located by lia. reflexivity.
Qed.

Lemma loc_of_located (N D : Z) :
  round_nearest_even (shr_m (located N D)) (loc_of_shr_record (located N D))
  = rne N D.
Proof.
  unfold located, rne. destruct (locate N D) as [m l]. cbn [fst snd].
  destruct l as [|[ | | ]]; reflexivity.
Qed.

Lemma binary_round_aux_correct (s : bool) (m e : Z) (l : location) (N D : Z) :
  0 <= N -> 0 < D -> locate N D = (m, l) ->
  e <= fexp prec emax (Zdigits2 m + e) ->
  let e1 := fexp prec emax (Zdigits2 m + e) in
  let m1 := rne N (D * 2 ^ (e1 - e)) in
  binary_round_aux prec emax s m e l = finish prec emax s m1 e1
  /\ 0 <= m1 <= 2 ^ prec.
Proof.
  intros HN HD Hloc He e1 m1.
  assert (Hm : m = N / D) by (unfold locate in Hloc; congruence).
  assert (Hm0 : 0 <= m) by (subst m; apply Z.div_pos; lia).
  assert (Hp : 0 < 2 ^ (e1 - e)) by (apply Z.pow_pos_nonneg; lia).
  assert (HD' : 0 < D * 2 ^ (e1 - e)) by nia.
  (* the significand fits *)
  assert (Hm1 : 0 <= m1 <= 2 ^ prec).
  { split.
    - apply rne_ge; [assumption|lia].
    - apply rne_le; [assumption|].
      destruct (Z.eq_dec m 0) as [Hz|Hz].
      + assert (N < D).
        { pose proof (Z.div_mod N D ltac:(lia)). pose proof (Z.mod_pos_bound N D HD). nia. }
        assert (0 < 2 ^ prec) by (apply Z.pow_pos_nonneg; lia).
        nia.
      + pose proof (Zdigits2_bounds m ltac:(lia)) as [_ Bhi].
        assert (Hle : Zdigits2 m <= prec + (e1 - e)) by (unfold e1, fexp; lia).
        pose proof (Z.pow_le_mono_r 2 _ _ ltac:(lia) Hle) as Hpow.
        rewrite Z.pow_add_r in Hpow by lia.
        assert (N < (m + 1) * D).
        { pose proof (Z.div_mod N D ltac:(lia)). pose proof (Z.mod_pos_bound N D HD). nia. }
        nia. }
  split; [|exact Hm1].
  unfold binary_round_aux.
  assert (S1 : shr_fexp prec emax m e l = (located N (D * 2 ^ (e1 - e)), e1)).
  { unfold shr_fexp. fold e1.
    replace (shr_record_of_loc m l) with (located N D)
      by (unfold located; rewrite Hloc; reflexivity).
    rewrite shr_located by lia. f_equal. lia. }
  rewrite S1. rewrite loc_of_located. fold m1.
  assert (He1 : emin prec emax <= e1) by apply fexp_ge_emin.
  unfold finish.
  destruct (Z.eqb_spec m1 0) as [Z0|NZ0].
  - rewrite Z0. unfold shr_fexp. cbn [Zdigits2 shr_record_of_loc].
    replace (fexp prec emax (0 + e1) - e1) with (Z.min 0 (fexp prec emax e1 - e1)).
    2:{ unfold fexp. lia. }
    assert (Hn : fexp prec emax e1 - e1 <= 0) by (unfold fexp; lia).
    destruct (fexp prec emax e1 - e1) as [|p|p] eqn:En; try lia; reflexivity.
  - destruct (Z.eqb_spec m1 (2 ^ prec)) as [Hov|Hnov].
    + rewrite Hov. unfold shr_fexp.
      assert (Hdig : Zdigits2 (2 ^ prec) = prec + 1).
      { apply Zdigits2_unique.
        - apply Z.pow_pos_nonneg; lia.
        - replace (prec + 1 - 1) with prec by lia. split; [lia|].
          apply Z.pow_lt_mono_r; lia. }
      rewrite Hdig.
      replace (fexp prec emax (prec + 1 + e1) - e1) with 1 by (unfold fexp; lia).
      cbn [shr_record_of_loc shr iter_pos].
      rewrite shr_1_spec by (apply Z.pow_nonneg; lia).
      cbn [shr_m].
      assert (Hhalf : 2 ^ prec / 2 = 2 ^ (prec - 1)).
      { replace prec with (prec - 1 + 1) at 1 by lia.
        rewrite Z.pow_add_r, Z.pow_1_r by lia. apply Z.div_mul. lia. }
      rewrite Hhalf.
      assert (0 < 2 ^ (prec - 1)) by (apply Z.pow_pos_nonneg; lia).
      destruct (2 ^ (prec - 1)) as [|q|q] eqn:Eq2; try lia.
      reflexivity.
    + unfold shr_fexp.
      assert (Hdig : Zdigits2 m1 <= prec).
      { apply Zdigits2_le; lia. }
      assert (Hn : fexp prec emax (Zdigits2 m1 + e1) - e1 <= 0) by (unfold fexp; lia).
      destruct (fexp prec emax (Zdigits2 m1 + e1) - e1) as [|p|p] eqn:En; try lia;
        cbn [shr shr_record_of_loc shr_m];
        destruct m1 as [|q|q]; try lia; reflexivity.
Qed.

End Rounding.

Lemma pow2_pos (e : Z) : 0 <= e -> 0 < 2 ^ e.
Proof. intros. apply Z.pow_pos_nonneg; lia. Qed.

Lemma iter_xO (d m : positive) : Zpos (Pos.iter xO m d) = Zpos m * 2 ^ Zpos d.
Proof.
  induction d as [|d IH] using Pos.peano_ind.
  - cbn [Pos.iter]. rewrite Z.pow_1_r. lia.
  - rewrite Pos.iter_succ, Pos2Z.inj_xO, IH, Pos2Z.inj_succ, Z.pow_succ_r by lia.
    ring.
Qed.

Lemma shl_align_spec (m : positive) (e e' : Z) :
  exists m', shl_align m e e' = (m', Z.min e e')
             /\ Zpos m' = Zpos m * 2 ^ (e - Z.min e e').
Proof.
  unfold shl_align. destruct (e' - e) as [|p|p] eqn:E.
  - exists m. replace (Z.min e e') with e by lia.
    rewrite Z.sub_diag. split; [reflexivity|lia].
  - exists m. replace (Z.min e e') with e by lia.
    rewrite Z.sub_diag. split; [reflexivity|lia].
  - exists (Pos.iter xO m p). replace (Z.min e e') with e' by lia.
    split; [reflexivity|]. rewrite iter_xO. f_equal. f_equal. lia.
Qed.

Lemma Zdigits2_mul_pow2 (m k : Z) :
  0 < m -> 0 <= k -> Zdigits2 (m * 2 ^ k) = Zdigits2 m + k.
Proof.
  intros Hm Hk. pose proof (pow2_pos k Hk).
  pose proof (Zdigits2_bounds m Hm) as [Blo Bhi].
  pose proof (Zdigits2_pos m Hm).
  apply Zdigits2_unique; [nia|].
  replace (Zdigits2 m + k - 1) with (Zdigits2 m - 1 + k) by lia.
  rewrite !Z.pow_add_r by lia. nia.
Qed.

Lemma locate_scale (N D c : Z) :
  0 < D -> 0 < c -> locate (N * c) (D * c) = locate N D.
Proof.
  intros HD Hc. unfold locate.
  rewrite Z.div_mul_cancel_r by lia.
  rewrite Zmult_mod_distr_r.
  f_equal.
  pose proof (Z.mod_pos_bound N D HD).
  destruct (Z.eqb_spec (N mod D * c) 0); destruct (Z.eqb_spec (N mod D) 0);
    try nia; try reflexivity.
  f_equal.
  destruct (Z.compare_spec (2 * (N mod D * c)) (D * c));
    destruct (Z.compare_spec (2 * (N mod D)) D); try nia; reflexivity.
Qed.

Lemma rne_scale (N D c : Z) :
  0 < D -> 0 < c -> rne (N * c) (D * c) = rne N D.
Proof. intros. unfold rne. rewrite locate_scale by assumption. reflexivity. Qed.

Lemma locate_one (N : Z) : locate N 1 = (N, loc_Exact).
Proof. unfold locate. rewrite Z.div_1_r, Z.mod_1_r. reflexivity. Qed.

Lemma rne_one (N : Z) : rne N 1 = N.
Proof. unfold rne. rewrite locate_one. reflexivity. Qed.

Section Round.

Variables prec emax : Z.
Hypothesis prec_pos : 0 < prec.

(** Rounding a dyadic number [m * 2 ^ e], written with any exponent [z]
    below [e] and below the exponent [t] of the result. *)
Lemma binary_round_correct (s : bool) (m : positive) (e z : Z) :
  let t := fexp prec emax (Zdigits2 (Zpos m) + e) in
  z <= e -> z <= t ->
  binary_round prec emax s m e
  = finish prec emax s (rne (Zpos m * 2 ^ (e - z)) (2 ^ (t - z))) t.
Proof.
  intros t Hz Ht. unfold binary_round.
  destruct (shl_align_spec m e (fexp prec emax (Zpos (digits2_pos m) + e)))
    as (m' & Hal & Hm').
  change (Zpos (digits2_pos m)) with (Zdigits2 (Zpos m)) in *.
  fold t in Hal, Hm'. fold t. rewrite Hal.
  assert (Hdig : Zdigits2 (Zpos m') + Z.min e t = Zdigits2 (Zpos m) + e).
  { rewrite Hm', Zdigits2_mul_pow2 by lia. lia. }
  pose proof (binary_round_aux_correct prec emax prec_pos s (Zpos m') (Z.min e t)
                loc_Exact (Zpos m') 1 ltac:(lia) ltac:(lia) (locate_one _)) as C.
  rewrite Hdig in C. fold t in C.
  destruct (C ltac:(lia)) as [C1 _]. rewrite C1. f_equal.
  rewrite Z.mul_1_l, Hm'.
  set (w := Z.min e t).
  assert (P1 : 0 < 2 ^ (w - z)) by (apply pow2_pos; lia).
  assert (P2 : 0 < 2 ^ (t - w)) by (apply pow2_pos; lia).
  rewrite <- (rne_scale (Zpos m * 2 ^ (e - w)) (2 ^ (t - w)) (2 ^ (w - z))) by lia.
  f_equal.
  - rewrite <- Z.mul_assoc, <- Z.pow_add_r by lia. f_equal. f_equal. lia.
  - rewrite <- Z.pow_add_r by lia. f_equal. lia.
Qed.

End Round.

(** ** Binary32 *)

Lemma of_Z_small (c : Z) :
  0 < c < 2 ^ 24 ->
  F32.of_Z c = S754_finite false (Z.to_pos (c * 2 ^ (24 - Zdigits2 c))) (Zdigits2 c - 24).
Proof.
  intros Hc. destruct c as [|p|p]; try lia.
  pose proof (Zdigits2_bounds (Zpos p) ltac:(lia)) as [Blo Bhi].
  pose proof (Zdigits2_pos (Zpos p) ltac:(lia)) as Hd.
  assert (Hd24 : Zdigits2 (Zpos p) <= 24) by (apply Zdigits2_le; lia).
  unfold F32.of_Z, binary_normalize, F32.prec, F32.emax.
  rewrite (binary_round_correct 24 128 ltac:(lia) false p 0 (Zdigits2 (Zpos p) - 24)).
  2:{ lia. }
  2:{ unfold fexp, emin. lia. }
  replace (fexp 24 128 (Zdigits2 (Zpos p) + 0)) with (Zdigits2 (Zpos p) - 24)
    by (unfold fexp, emin; lia).
  rewrite Z.sub_diag. change (2 ^ 0) with 1.
  replace (0 - (Zdigits2 (Zpos p) - 24)) with (24 - Zdigits2 (Zpos p)) by lia.
  rewrite rne_one.
  set (M := Zpos p * 2 ^ (24 - Zdigits2 (Zpos p))).
  assert (HM : 2 ^ 23 <= M < 2 ^ 24).
  { unfold M.
    assert (E23 : 2 ^ 23 = 2 ^ (Zdigits2 (Zpos p) - 1) * 2 ^ (24 - Zdigits2 (Zpos p)))
      by (rewrite <- Z.pow_add_r by lia; f_equal; lia).
    assert (E24 : 2 ^ 24 = 2 ^ Zdigits2 (Zpos p) * 2 ^ (24 - Zdigits2 (Zpos p)))
      by (rewrite <- Z.pow_add_r by lia; f_equal; lia).
    rewrite E23, E24.
    pose proof (pow2_pos (24 - Zdigits2 (Zpos p)) ltac:(lia)). nia. }
  unfold finish.
  destruct (Z.eqb_spec M 0); [lia|].
  destruct (Z.eqb_spec M (2 ^ 24)); [lia|].
  destruct (Z.leb_spec (Zdigits2 (Zpos p) - 24) (128 - 24)); [reflexivity|lia].
Qed.

Section Ops.

Variables prec emax : Z.
Hypothesis prec_pos : 0 < prec.

(** Two writings of the same dyadic number round to the same float. *)
Lemma binary_round_ext (s : bool) (m m' : positive) (e e' z : Z) :
  z <= e -> z <= e' ->
  Zpos m * 2 ^ (e - z) = Zpos m' * 2 ^ (e' - z) ->
  binary_round prec emax s m e = binary_round prec emax s m' e'.
Proof.
  intros Hz Hz' Hv.
  assert (Hd : Zdigits2 (Zpos m) + e = Zdigits2 (Zpos m') + e').
  { pose proof (Zdigits2_mul_pow2 (Zpos m) (e - z) ltac:(lia) ltac:(lia)) as D1.
    pose proof (Zdigits2_mul_pow2 (Zpos m') (e' - z) ltac:(lia) ltac:(lia)) as D2.
    rewrite Hv in D1. lia. }
  set (t := fexp prec emax (Zdigits2 (Zpos m) + e)).
  set (w := Z.min z t).
  rewrite (binary_round_correct prec emax prec_pos s m e w) by (unfold w, t; lia).
  rewrite (binary_round_correct prec emax prec_pos s m' e' w)
    by (try rewrite <- Hd; unfold w, t; lia).
  rewrite <- Hd. fold t. f_equal. f_equal.
  replace (e - w) with (e - z + (z - w)) by lia.
  replace (e' - w) with (e' - z + (z - w)) by lia.
  rewrite !Z.pow_add_r by (unfold w; lia). rewrite !Z.mul_assoc, Hv. reflexivity.
Qed.

(** The sum of two positive floats is the rounded exact sum. *)
Lemma SFadd_pos (m1 m2 : positive) (e1 e2 : Z) :
  let z := Z.min e1 e2 in
  SFadd prec emax (S754_finite false m1 e1) (S754_finite false m2 e2)
  = binary_round prec emax false
      (Z.to_pos (Zpos m1 * 2 ^ (e1 - z) + Zpos m2 * 2 ^ (e2 - z))) z.
Proof.
  intros z. cbn [SFadd cond_Zopp]. fold z.
  destruct (shl_align_spec m1 e1 z) as (a & Ha & Va).
  destruct (shl_align_spec m2 e2 z) as (b & Hb & Vb).
  rewrite Ha, Hb. cbn [fst].
  replace (Z.min e1 z) with z in Va by (unfold z; lia).
  replace (Z.min e2 z) with z in Vb by (unfold z; lia).
  rewrite <- Va, <- Vb. reflexivity.
Qed.

(** The quotient of two finite floats is the rounded exact quotient. *)
Lemma SFdiv_finite (s1 s2 : bool) (m1 m2 : positive) (e1 e2 : Z) :
  let e' := Z.min (fexp prec emax (Zdigits2 (Zpos m1) + e1 - (Zdigits2 (Zpos m2) + e2)))
                  (e1 - e2) in
  let N := Zpos m1 * 2 ^ (e1 - e2 - e') in
  let t := fexp prec emax (Zdigits2 (N / Zpos m2) + e') in
  SFdiv prec emax (S754_finite s1 m1 e1) (S754_finite s2 m2 e2)
  = finish prec emax (xorb s1 s2) (rne N (Zpos m2 * 2 ^ (t - e'))) t
  /\ e' <= t /\ 0 <= rne N (Zpos m2 * 2 ^ (t - e')) <= 2 ^ prec.
Proof.
  intros e' N t.
  assert (Hs : 0 <= e1 - e2 - e') by (unfold e'; lia).
  pose proof (pow2_pos _ Hs) as Hp.
  assert (HN : 0 < N) by (unfold N; nia).
  (* the quotient has enough digits *)
  assert (Het : e' <= t).
  { unfold t.
    pose proof (Zdigits2_bounds (Zpos m1) ltac:(lia)) as [B1 _].
    pose proof (Zdigits2_bounds (Zpos m2) ltac:(lia)) as [_ B2].
    pose proof (Zdigits2_pos (Zpos m1) ltac:(lia)).
    pose proof (Zdigits2_pos (Zpos m2) ltac:(lia)).
    set (d1 := Zdigits2 (Zpos m1)) in *. set (d2 := Zdigits2 (Zpos m2)) in *.
    destruct (Z.le_gt_cases e' (emin prec emax)) as [Hlow|Hhigh].
    { pose proof (fexp_ge_emin prec emax (Zdigits2 (N / Zpos m2) + e')). lia. }
    (* e' is above emin, hence e' <= d1 + e1 - (d2 + e2) - prec *)
    assert (He' : e' <= d1 + e1 - (d2 + e2) - prec) by (unfold e', fexp in *; lia).
    assert (Hq : 2 ^ (d1 - 1 + (e1 - e2 - e') - d2) <= N / Zpos m2).
    { apply Z.div_le_lower_bound; [lia|].
      assert (E : 2 ^ (d1 - 1 + (e1 - e2 - e'))
                  = 2 ^ d2 * 2 ^ (d1 - 1 + (e1 - e2 - e') - d2)).
      { rewrite <- Z.pow_add_r by lia. f_equal. lia. }
      assert (E2 : 2 ^ (d1 - 1 + (e1 - e2 - e')) = 2 ^ (d1 - 1) * 2 ^ (e1 - e2 - e'))
        by (rewrite <- Z.pow_add_r by lia; reflexivity).
      pose proof (pow2_pos (d1 - 1 + (e1 - e2 - e') - d2) ltac:(lia)).
      unfold N. nia. }
    assert (Hqpos : 0 < N / Zpos m2).
    { pose proof (pow2_pos (d1 - 1 + (e1 - e2 - e') - d2) ltac:(lia)). lia. }
    pose proof (Zdigits2_ge (N / Zpos m2) (d1 + (e1 - e2 - e') - d2) Hqpos) as G.
    replace (d1 + (e1 - e2 - e') - d2 - 1) with (d1 - 1 + (e1 - e2 - e') - d2) in G by lia.
    specialize (G Hq).
    unfold fexp. lia. }
  enough (G : SFdiv prec emax (S754_finite s1 m1 e1) (S754_finite s2 m2 e2)
              = finish prec emax (xorb s1 s2) (rne N (Zpos m2 * 2 ^ (t - e'))) t
              /\ 0 <= rne N (Zpos m2 * 2 ^ (t - e')) <= 2 ^ prec)
    by (destruct G; auto).
  cbn [SFdiv]. unfold SFdiv_core_binary. fold e'.
  assert (Hm' : match e1 - e2 - e' with
                | Z0 => Zpos m1
                | Zpos _ => Z.shiftl (Zpos m1) (e1 - e2 - e')
                | Zneg _ => 0
                end = N).
  { unfold N. destruct (e1 - e2 - e') as [|p|p] eqn:Es;
      [rewrite Z.pow_0_r; lia|rewrite Z.shiftl_mul_pow2 by lia; reflexivity|lia]. }
  rewrite Hm'.
  pose proof (Z.mod_pos_bound N (Zpos m2) ltac:(lia)) as Hr.
  assert (Hde : Z.div_eucl N (Zpos m2) = (N / Zpos m2, N mod Zpos m2)).
  { unfold Z.div, Z.modulo. destruct (Z.div_eucl N (Zpos m2)). reflexivity. }
  rewrite Hde.
  rewrite new_location_locate by lia.
  pose proof (binary_round_aux_correct prec emax prec_pos (xorb s1 s2)
                (N / Zpos m2) e'
                (if N mod Zpos m2 =? 0 then loc_Exact
                 else loc_Inexact (2 * (N mod Zpos m2) ?= Zpos m2))
                N (Zpos m2) ltac:(lia) ltac:(lia) eq_refl Het) as C.
  exact C.
Qed.

End Ops.

Lemma prec32_pos : 0 < 24.
Proof. reflexivity. Qed.

(** ** Binary32: integers, increments, quotients of normal numbers *)

Lemma digits24 (m : Z) : 2 ^ 23 <= m < 2 ^ 24 -> Zdigits2 m = 24.
Proof. intros Hm. apply Zdigits2_unique; [lia|exact Hm]. Qed.

Lemma finish_normal (s : bool) (m e : Z) :
  2 ^ 23 <= m < 2 ^ 24 -> e <= 104 ->
  finish 24 128 s m e = S754_finite s (Z.to_pos m) e.
Proof.
  intros Hm He. unfold finish.
  destruct (Z.eqb_spec m 0); [lia|].
  destruct (Z.eqb_spec m (2 ^ 24)); [lia|].
  destruct (Z.leb_spec e (128 - 24)); [reflexivity|lia].
Qed.

Lemma int_m_bounds (c : Z) : 0 < c < 2 ^ 24 -> 2 ^ 23 <= int_m c < 2 ^ 24.
Proof.
  intros Hc. unfold int_m.
  pose proof (Zdigits2_bounds c ltac:(lia)) as [Blo Bhi].
  pose proof (Zdigits2_pos c ltac:(lia)) as Hd.
  assert (Hd24 : Zdigits2 c <= 24) by (apply Zdigits2_le; lia).
  assert (E23 : 2 ^ 23 = 2 ^ (Zdigits2 c - 1) * 2 ^ (24 - Zdigits2 c))
    by (rewrite <- Z.pow_add_r by lia; f_equal; lia).
  assert (E24 : 2 ^ 24 = 2 ^ Zdigits2 c * 2 ^ (24 - Zdigits2 c))
    by (rewrite <- Z.pow_add_r by lia; f_equal; lia).
  rewrite E23, E24.
  pose proof (pow2_pos (24 - Zdigits2 c) ltac:(lia)). nia.
Qed.

Lemma int_e_bounds (c : Z) : 0 < c < 2 ^ 24 -> -23 <= int_e c <= 0.
Proof.
  intros Hc. unfold int_e.
  pose proof (Zdigits2_pos c ltac:(lia)) as Hd.
  assert (Hd24 : Zdigits2 c <= 24) by (apply Zdigits2_le; lia). lia.
Qed.

Lemma int_value (c : Z) : 0 < c < 2 ^ 24 -> int_m c = c * 2 ^ (- int_e c).
Proof. intros Hc. unfold int_m, int_e. f_equal. f_equal. lia. Qed.

Lemma of_Z_pos (c : Z) :
  0 < c < 2 ^ 24 ->
  F32.of_Z c = S754_finite false (Z.to_pos (int_m c)) (int_e c).
Proof. apply of_Z_small. Qed.

Lemma of_Z_neg (c : Z) :
  0 < c < 2 ^ 24 ->
  F32.of_Z (- c) = S754_finite true (Z.to_pos (int_m c)) (int_e c).
Proof.
  intros Hc. pose proof (of_Z_pos c Hc) as P.
  destruct c as [|p|p]; try lia.
  unfold F32.of_Z, binary_normalize, F32.prec, F32.emax in *. cbn [Z.opp].
  pose proof (int_m_bounds (Zpos p) Hc) as Bm.
  pose proof (int_e_bounds (Zpos p) Hc) as Be.
  set (t := fexp 24 128 (Zdigits2 (Zpos p) + 0)).
  rewrite (binary_round_correct 24 128 prec32_pos true p 0 (Z.min 0 t)) by lia.
  rewrite (binary_round_correct 24 128 prec32_pos false p 0 (Z.min 0 t)) in P by lia.
  fold t in P |- *.
  set (r := rne _ _) in *.
  unfold finish in *.
  destruct (r =? 0); [discriminate|].
  destruct (r =? 2 ^ 24).
  - destruct (t + 1 <=? 128 - 24); [|discriminate].
    injection P as P1 P2. f_equal; [exact P1|exact P2].
  - destruct (t <=? 128 - 24); [|discriminate].
    injection P as P1 P2. f_equal; [exact P1|exact P2].
Qed.

(** Counting up to 2^24 is exact. *)
Lemma incr_of_Z (c : Z) :
  0 <= c < 2 ^ 24 -> F32.incr (F32.of_Z c) = F32.of_Z (c + 1).
Proof.
  intros Hc. destruct (Z.eq_dec c 0) as [->|Hn]; [reflexivity|].
  rewrite of_Z_pos by lia.
  pose proof (int_m_bounds c ltac:(lia)) as Bm.
  pose proof (int_e_bounds c ltac:(lia)) as Be.
  pose proof (int_value c ltac:(lia)) as Hv.
  unfold F32.incr, F32.add, F32.one, F32.prec, F32.emax.
  rewrite SFadd_pos.
  replace (Z.min (int_e c) (-23)) with (-23) by lia.
  unfold F32.of_Z, binary_normalize, F32.prec, F32.emax.
  destruct (c + 1) as [|q|q] eqn:Ec; try lia.
  apply binary_round_ext with (z := -23); try lia.
  change (-23 - -23) with 0. change (0 - -23) with 23.
  rewrite Z.pow_0_r, !Z.mul_1_r.
  pose proof (pow2_pos (int_e c - -23) ltac:(lia)) as Hp.
  rewrite (Z2Pos.id (int_m c)) by lia.
  rewrite Z2Pos.id by nia.
  rewrite <- Ec, Hv, <- Z.mul_assoc, <- Z.pow_add_r by lia.
  replace (- int_e c + (int_e c - -23)) with 23 by lia.
  change (Zpos 8388608) with (2 ^ 23). ring.
Qed.

(** The quotient of two normal numbers. *)
Lemma div_normal (sa sb : bool) (ma mb : positive) (ea eb : Z) :
  2 ^ 23 <= Zpos ma < 2 ^ 24 -> 2 ^ 23 <= Zpos mb < 2 ^ 24 ->
  -125 <= ea - eb <= 127 ->
  let c := if Zpos ma <? Zpos mb then 0 else 1 in
  let q := rne (Zpos ma * 2 ^ 24) (Zpos mb * 2 ^ c) in
  F32.div (S754_finite sa ma ea) (S754_finite sb mb eb)
  = S754_finite (xorb sa sb) (Z.to_pos q) (ea - eb - 24 + c)
  /\ 2 ^ 23 <= q < 2 ^ 24.
Proof.
  intros Ha Hb He c q.
  pose proof (SFdiv_finite 24 128 prec32_pos sa sb ma mb ea eb) as H.
  cbv zeta in H.
  rewrite (digits24 _ Ha), (digits24 _ Hb) in H.
  replace (Z.min (fexp 24 128 (24 + ea - (24 + eb))) (ea - eb)) with (ea - eb - 24) in H
    by (unfold fexp, emin; lia).
  replace (ea - eb - (ea - eb - 24)) with 24 in H by lia.
  assert (Hq : Zdigits2 (Zpos ma * 2 ^ 24 / Zpos mb) = 24 + c).
  { apply Zdigits2_unique.
    - apply Z.div_str_pos. change (2 ^ 24) with 16777216 in *. lia.
    - unfold c. destruct (Z.ltb_spec (Zpos ma) (Zpos mb)).
      + split.
        * apply Z.div_le_lower_bound; [lia|].
          change (2 ^ (24 + 0 - 1)) with (2 ^ 23). change (2 ^ 24) with 16777216 in *.
          change (2 ^ 23) with 8388608 in *. lia.
        * apply Z.div_lt_upper_bound; [lia|].
          change (2 ^ (24 + 0)) with (2 ^ 24). change (2 ^ 24) with 16777216 in *. lia.
      + split.
        * apply Z.div_le_lower_bound; [lia|].
          change (2 ^ (24 + 1 - 1)) with (2 ^ 24). change (2 ^ 24) with 16777216 in *. lia.
        * apply Z.div_lt_upper_bound; [lia|].
          change (2 ^ (24 + 1)) with 33554432. change (2 ^ 24) with 16777216 in *.
          change (2 ^ 23) with 8388608 in *. lia. }
  rewrite Hq in H.
  replace (fexp 24 128 (24 + c + (ea - eb - 24))) with (ea - eb - 24 + c) in H
    by (unfold fexp, emin, c; destruct (Zpos ma <? Zpos mb); lia).
  replace (ea - eb - 24 + c - (ea - eb - 24)) with c in H by lia.
  fold q in H. destruct H as [H _].
  assert (Bq : 2 ^ 23 <= q < 2 ^ 24).
  { unfold q, c. destruct (Z.ltb_spec (Zpos ma) (Zpos mb)).
    - split.
      + apply rne_ge; change (2 ^ 24) with 16777216 in *;
          change (2 ^ 23) with 8388608 in *; change (2 ^ 0) with 1; lia.
      + assert (rne (Zpos ma * 2 ^ 24) (Zpos mb * 2 ^ 0) <= 2 ^ 24 - 1); [|lia].
        apply rne_le; change (2 ^ 24) with 16777216 in *;
          change (2 ^ 23) with 8388608 in *; change (2 ^ 0) with 1; lia.
    - split.
      + apply rne_ge; change (2 ^ 24) with 16777216 in *;
          change (2 ^ 23) with 8388608 in *; change (2 ^ 1) with 2; lia.
      + assert (rne (Zpos ma * 2 ^ 24) (Zpos mb * 2 ^ 1) <= 2 ^ 24 - 1); [|lia].
        apply rne_le; change (2 ^ 24) with 16777216 in *;
          change (2 ^ 23) with 8388608 in *; change (2 ^ 1) with 2; lia. }
  split; [|exact Bq].
  unfold F32.div, F32.prec, F32.emax. rewrite H.
  apply finish_normal; [exact Bq|].
  unfold c. destruct (Zpos ma <? Zpos mb); lia.
Qed.

(** ** Two roundings in a row *)

(** Half-unit rounding errors, relative to a significand of at least [P]. *)
Lemma round_up_bound (P q w K : Z) :
  0 <= w -> 0 < P <= q -> 2 * (q * w) <= 2 * K + w ->
  (q * w) * (2 * P - 1) <= 2 * P * K.
Proof.
  intros Hw HP H.
  assert (P * w <= q * w) by (apply Z.mul_le_mono_nonneg_r; lia).
  assert (P * (2 * (q * w)) <= P * (2 * K + w)) by (apply Z.mul_le_mono_nonneg_l; lia).
  lia.
Qed.

Lemma round_down_bound (P b w K : Z) :
  0 <= w -> 0 < P <= b -> 2 * K <= 2 * (b * w) + w ->
  2 * P * K <= (b * w) * (2 * P + 1).
Proof.
  intros Hw HP H.
  assert (P * w <= b * w) by (apply Z.mul_le_mono_nonneg_r; lia).
  assert (P * (2 * K) <= P * (2 * (b * w) + w)) by (apply Z.mul_le_mono_nonneg_l; lia).
  lia.
Qed.

Lemma mul3_le (a b c a' b' c' : Z) :
  0 <= a <= a' -> 0 <= b <= b' -> 0 <= c <= c' -> a * b * c <= a' * b' * c'.
Proof.
  intros Ha Hb Hc.
  assert (0 <= a * b) by (apply Z.mul_nonneg_nonneg; lia).
  assert (a * b <= a' * b') by (apply Z.mul_le_mono_nonneg; lia).
  apply Z.mul_le_mono_nonneg; lia.
Qed.

Lemma quotient_below (P q b m C1 C2 A B E k d n : Z) :
  512 <= P -> P <= q -> P <= b -> P <= m ->
  0 < C1 -> 0 < C2 -> 0 < A -> 0 < B -> 0 < E -> 0 < n ->
  1 <= k <= d - 1 -> d <= 255 ->
  2 * (q * (b * C2)) <= 2 * (k * A * (2 * P)) + b * C2 ->
  2 * (d * B * (2 * P)) <= 2 * (b * (m * C1)) + m * C1 ->
  2 * (m * E) <= 2 * (n * P) + E ->
  q * B * E * C2 < n * A * C1 * P.
Proof.
  intros HP Hq Hb Hm HC1 HC2 HA HB HE Hn Hk Hd H1 H2 H3.
  assert (Pb : 0 < b * C2) by (apply Z.mul_pos_pos; lia).
  assert (Pm : 0 < m * C1) by (apply Z.mul_pos_pos; lia).
  assert (PX : 0 < q * (b * C2)) by (apply Z.mul_pos_pos; lia).
  assert (PY : 0 < b * (m * C1)) by (apply Z.mul_pos_pos; lia).
  assert (PZ : 0 < m * E) by (apply Z.mul_pos_pos; lia).
  assert (PdB : 0 < d * B) by (apply Z.mul_pos_pos; lia).
  assert (PkA : 0 < k * A) by (apply Z.mul_pos_pos; lia).
  pose proof (round_up_bound P q (b * C2) (k * A * (2 * P)) ltac:(lia) ltac:(lia) H1) as S1.
  pose proof (round_down_bound P b (m * C1) (d * B * (2 * P)) ltac:(lia) ltac:(lia) H2) as S2.
  pose proof (round_up_bound P m E (n * P) ltac:(lia) ltac:(lia) H3) as S3.
  set (W := 2 * P) in *.
  assert (HW : 1024 <= W) by (unfold W; lia).
  assert (M : q * (b * C2) * (W - 1) * (W * (d * B * W)) * (m * E * (W - 1))
              <= W * (k * A * W) * (b * (m * C1) * (W + 1)) * (W * (n * P))).
  { apply mul3_le.
    - split; [apply Z.mul_nonneg_nonneg; lia|exact S1].
    - split; [apply Z.mul_nonneg_nonneg; [lia|apply Z.mul_nonneg_nonneg; lia]|exact S2].
    - split; [apply Z.mul_nonneg_nonneg; lia|exact S3]. }
  set (G := q * B * E * C2). set (H := n * A * C1 * P).
  assert (PH : 0 < H) by (unfold H; repeat apply Z.mul_pos_pos; lia).
  assert (Pbm : 0 < b * m) by (apply Z.mul_pos_pos; lia).
  assert (PWW : 0 < W * W) by (apply Z.mul_pos_pos; lia).
  assert (M' : (b * m * (W * W)) * (G * (d * ((W - 1) * (W - 1))))
               <= (b * m * (W * W)) * (H * (k * (W * (W + 1))))).
  { replace (b * m * (W * W) * (G * (d * ((W - 1) * (W - 1)))))
      with (q * (b * C2) * (W - 1) * (W * (d * B * W)) * (m * E * (W - 1)))
      by (unfold G; ring).
    replace (b * m * (W * W) * (H * (k * (W * (W + 1)))))
      with (W * (k * A * W) * (b * (m * C1) * (W + 1)) * (W * (n * P)))
      by (unfold H; ring).
    exact M. }
  apply Z.mul_le_mono_pos_l in M'; [|apply Z.mul_pos_pos; assumption].
  assert (Num : k * (W * (W + 1)) < d * ((W - 1) * (W - 1))).
  { clear - Hk Hd HW.
    assert (k * (W * (W + 1)) <= (d - 1) * (W * (W + 1)))
      by (apply Z.mul_le_mono_nonneg_r; [apply Z.mul_nonneg_nonneg|]; lia).
    assert ((d - 1) * (W * (W + 1)) < d * ((W - 1) * (W - 1))); [|lia].
    assert (3 * d < W + 1) by lia.
    assert (E : d * ((W - 1) * (W - 1)) - (d - 1) * (W * (W + 1))
                = W * (W + 1 - 3 * d) + d) by ring.
    assert (0 < W * (W + 1 - 3 * d)) by (apply Z.mul_pos_pos; lia).
    lia. }
  destruct (Z.lt_ge_cases G H) as [Hlt|Hge]; [exact Hlt|exfalso].
  assert (Pd : 0 < d * ((W - 1) * (W - 1)))
    by (apply Z.mul_pos_pos; [lia|apply Z.mul_pos_pos; lia]).
  assert (H * (k * (W * (W + 1))) < H * (d * ((W - 1) * (W - 1))))
    by (apply Z.mul_lt_mono_pos_l; assumption).
  assert (H * (d * ((W - 1) * (W - 1))) <= G * (d * ((W - 1) * (W - 1))))
    by (apply Z.mul_le_mono_nonneg_r; lia).
  lia.
Qed.

Lemma rne_error (N D : Z) : 0 < D -> 2 * Z.abs (rne N D * D - N) <= D.
Proof.
  intros HD. unfold rne, locate. cbn [fst snd].
  pose proof (Z.div_mod N D ltac:(lia)) as E.
  pose proof (Z.mod_pos_bound N D HD) as B.
  destruct (Z.eqb_spec (N mod D) 0) as [R0|R0]; cbn [round_nearest_even].
  - replace (N / D * D - N) with 0 by lia. cbn. lia.
  - destruct (Z.compare_spec (2 * (N mod D)) D) as [C|C|C].
    + destruct (Z.even (N / D)).
      * replace (N / D * D - N) with (- (N mod D)) by lia. lia.
      * replace ((N / D + 1) * D - N) with (D - N mod D) by lia. lia.
    + replace (N / D * D - N) with (- (N mod D)) by lia. lia.
    + replace ((N / D + 1) * D - N) with (D - N mod D) by lia. lia.
Qed.

(** Conversion of an [unsigned int]. *)
Lemma of_Z_uint (n : Z) :
  0 < n < 2 ^ 32 ->
  exists (mn : positive) (en : Z),
    F32.of_Z n = S754_finite false mn en
    /\ 2 ^ 23 <= Zpos mn < 2 ^ 24 /\ -23 <= en <= 9
    /\ 2 * Z.abs (Zpos mn * 2 ^ (en + 23) - n * 2 ^ 23) <= 2 ^ (en + 23).
Proof.
  intros Hn. destruct (Z.lt_ge_cases n (2 ^ 24)) as [Hs|Hl].
  - pose proof (int_m_bounds n ltac:(lia)) as Bm.
    pose proof (int_e_bounds n ltac:(lia)) as Be.
    exists (Z.to_pos (int_m n)), (int_e n).
    rewrite Z2Pos.id by lia.
    split; [apply of_Z_pos; lia|]. split; [exact Bm|]. split; [lia|].
    rewrite int_value by lia.
    rewrite <- Z.mul_assoc, <- Z.pow_add_r by lia.
    replace (- int_e n + (int_e n + 23)) with 23 by lia.
    rewrite Z.sub_diag. cbn [Z.abs].
    pose proof (pow2_pos (int_e n + 23) ltac:(lia)). lia.
  - destruct n as [|p|p]; try lia.
    pose proof (Zdigits2_bounds (Zpos p) ltac:(lia)) as [Blo Bhi].
    assert (Hd1 : 25 <= Zdigits2 (Zpos p)) by (apply Zdigits2_ge; [lia|exact Hl]).
    assert (Hd2 : Zdigits2 (Zpos p) <= 32) by (apply Zdigits2_le; lia).
    set (t := Zdigits2 (Zpos p) - 24).
    assert (Ht : fexp 24 128 (Zdigits2 (Zpos p) + 0) = t) by (unfold fexp, emin, t; lia).
    pose proof (binary_round_correct 24 128 prec32_pos false p 0 0) as R.
    cbv zeta in R. rewrite Ht in R. specialize (R ltac:(lia) ltac:(lia)).
    rewrite !Z.sub_0_r, Z.pow_0_r, Z.mul_1_r in R.
    pose proof (pow2_pos t ltac:(lia)) as Pt.
    pose proof (rne_error (Zpos p) (2 ^ t) Pt) as Er.
    set (r := rne (Zpos p) (2 ^ t)) in *.
    assert (E1 : 2 ^ (Zdigits2 (Zpos p) - 1) = 2 ^ 23 * 2 ^ t)
      by (rewrite <- Z.pow_add_r by lia; f_equal; lia).
    assert (E2 : 2 ^ Zdigits2 (Zpos p) = 2 ^ 24 * 2 ^ t)
      by (rewrite <- Z.pow_add_r by lia; f_equal; lia).
    assert (Br : 2 ^ 23 <= r <= 2 ^ 24).
    { split; [apply rne_ge|apply rne_le]; lia. }
    assert (E3 : 2 ^ (t + 23) = 2 ^ t * 2 ^ 23) by (apply Z.pow_add_r; lia).
    unfold F32.of_Z, binary_normalize, F32.prec, F32.emax. rewrite R.
    destruct (Z.eq_dec r (2 ^ 24)) as [Hov|Hnov].
    + exists (Z.to_pos (2 ^ 23)), (t + 1).
      split.
      { unfold finish. rewrite Hov.
        destruct (Z.eqb_spec (2 ^ 24) 0); [discriminate|].
        rewrite Z.eqb_refl.
        destruct (Z.leb_spec (t + 1) (128 - 24)); [reflexivity|lia]. }
      split; [cbn; lia|]. split; [lia|].
      replace (t + 1 + 23) with (t + 23 + 1) by lia.
      rewrite Z.pow_add_r, Z.pow_1_r, E3 by lia.
      rewrite Hov in Er. change (Zpos (Z.to_pos (2 ^ 23))) with (2 ^ 23).
      change (2 ^ 24) with (2 * 2 ^ 23) in Er.
      set (a := 2 ^ 23) in *. assert (0 < a) by (unfold a; cbn; lia).
      replace (a * (2 ^ t * a * 2) - Zpos p * a) with (a * (2 * a * 2 ^ t - Zpos p)) by ring.
      rewrite Z.abs_mul, (Z.abs_eq a) by lia. nia.
    + exists (Z.to_pos r), t.
      split; [apply finish_normal; lia|].
      rewrite Z2Pos.id by lia.
      split; [lia|]. split; [lia|].
      rewrite E3.
      set (a := 2 ^ 23) in *. assert (0 < a) by (unfold a; cbn; lia).
      replace (r * (2 ^ t * a) - Zpos p * a) with (a * (r * 2 ^ t - Zpos p)) by ring.
      rewrite Z.abs_mul, (Z.abs_eq a) by lia. nia.
Qed.

(** A normal [float] below [2 ^ -20] is degenerate as a bin width. *)
Lemma degenerate_small (s : bool) (m : positive) (e : Z) :
  2 ^ 23 <= Zpos m < 2 ^ 24 -> -149 <= e < -43 ->
  degenerate (S754_finite s m e) = true.
Proof.
  intros Hm He. unfold degenerate, F32.sub, F32.abs, F32.zero.
  cbn [SFsub SFabs F64.of_float]. unfold F64.prec, F64.emax.
  pose proof (binary_round_correct 53 1024 eq_refl false m e (e - 29)) as R.
  cbv zeta in R. rewrite (digits24 _ Hm) in R.
  replace (fexp 53 1024 (24 + e)) with (e - 29) in R by (unfold fexp, emin; lia).
  specialize (R ltac:(lia) ltac:(lia)).
  rewrite Z.sub_diag, Z.pow_0_r, rne_one in R.
  replace (e - (e - 29)) with 29 in R by lia.
  rewrite R. unfold finish.
  change (2 ^ 29) with 536870912. change (2 ^ 53) with 9007199254740992.
  change (2 ^ 23) with 8388608 in Hm. change (2 ^ 24) with 16777216 in Hm.
  destruct (Z.eqb_spec (Zpos m * 536870912) 0); [lia|].
  destruct (Z.eqb_spec (Zpos m * 536870912) 9007199254740992); [lia|].
  destruct (Z.leb_spec (e - 29) (1024 - 53)); [|lia].
  unfold F64.lit_1em6, SFltb, SFcompare.
  destruct (Z.compare_spec (e - 29) (-72)); try lia; reflexivity.
Qed.

Lemma trunc_finite (s : bool) (m : positive) (e : Z) :
  F32.trunc (S754_finite s m e)
  = Some ((if s then Z.opp else fun z => z)
            (if e <? 0 then Zpos m / 2 ^ (- e) else Zpos m * 2 ^ e)).
Proof.
  unfold F32.trunc. destruct e as [|p|p].
  - cbn [Z.shiftl]. rewrite Z.pow_0_r, Z.mul_1_r. destruct s; reflexivity.
  - rewrite Z.shiftl_mul_pow2 by lia. destruct s; reflexivity.
  - rewrite Z.shiftr_div_pow2 by lia. destruct s; reflexivity.
Qed.

(** The bin width for [unsigned char] samples and a positive range. *)
Lemma binWidth_uchar (n : Z) (rmin rmax : uchar) :
  0 < n < 2 ^ 32 -> 0 < rmax - rmin <= 255 ->
  exists (mn mb : positive) (en c : Z),
    F32.of_Z n = S754_finite false mn en
    /\ 2 ^ 23 <= Zpos mn < 2 ^ 24 /\ -23 <= en <= 9
    /\ 2 * Z.abs (Zpos mn * 2 ^ (en + 23) - n * 2 ^ 23) <= 2 ^ (en + 23)
    /\ binWidth n rmin rmax
       = S754_finite false mb (int_e (rmax - rmin) - en - 24 + c)
    /\ 2 ^ 23 <= Zpos mb < 2 ^ 24 /\ 0 <= c <= 1
    /\ 2 * Z.abs (Zpos mb * (Zpos mn * 2 ^ c) - int_m (rmax - rmin) * 2 ^ 24)
       <= Zpos mn * 2 ^ c.
Proof.
  intros Hn Hd.
  destruct (of_Z_uint n Hn) as (mn & en & On & Bmn & Ben & Ern).
  set (d := rmax - rmin) in *.
  assert (Hd24 : 0 < d < 2 ^ 24) by (change (2 ^ 24) with 16777216; lia).
  pose proof (int_m_bounds d Hd24) as Bmd.
  pose proof (int_e_bounds d Hd24) as Bed.
  pose proof (div_normal false false (Z.to_pos (int_m d)) mn (int_e d) en) as Dv.
  rewrite Z2Pos.id in Dv by lia.
  specialize (Dv Bmd Bmn ltac:(lia)). cbv zeta in Dv.
  set (c := if int_m d <? Zpos mn then 0 else 1) in *.
  assert (Hc : 0 <= c <= 1) by (unfold c; destruct (int_m d <? Zpos mn); lia).
  destruct Dv as [Dv Bq].
  set (q := rne (int_m d * 2 ^ 24) (Zpos mn * 2 ^ c)) in *.
  exists mn, (Z.to_pos q), en, c.
  rewrite Z2Pos.id by lia.
  repeat split; try lia.
  - exact On.
  - unfold binWidth. cbn [sample_diff Sample_uchar]. fold d.
    rewrite of_Z_pos by exact Hd24. rewrite On. exact Dv.
  - apply rne_error. pose proof (pow2_pos c ltac:(lia)). nia.
Qed.

Lemma abs_le_upper (x y D : Z) : 2 * Z.abs (x - y) <= D -> 2 * x <= 2 * y + D.
Proof. lia. Qed.

Lemma abs_le_lower (x y D : Z) : 2 * Z.abs (x - y) <= D -> 2 * y <= 2 * x + D.
Proof. lia. Qed.

(** An in-range [unsigned char] sample below [rangeMax] gets a bin index in
    [0, numberOfBins). *)
Lemma bin_index_in_range (n : Z) (rmin rmax v : uchar) :
  is_uchar rmin -> is_uchar rmax -> 0 < n < 2 ^ 32 ->
  rmin <= v < rmax ->
  degenerate (binWidth n rmin rmax) = false ->
  exists bin,
    F32.to_int (F32.div (F32.of_Z (v - rmin)) (binWidth n rmin rmax)) = Some bin
    /\ 0 <= bin < n.
Proof.
  unfold is_uchar. intros Hmin Hmax Hn Hv Hdeg.
  destruct (binWidth_uchar n rmin rmax Hn ltac:(lia))
    as (mn & mb & en & c1 & On & Bmn & Ben & Ern & Hbw & Bmb & Hc1 & Erb).
  set (d := rmax - rmin) in *.
  assert (Hd24 : 0 < d < 2 ^ 24) by (change (2 ^ 24) with 16777216; lia).
  pose proof (int_m_bounds d Hd24) as Bmd.
  pose proof (int_e_bounds d Hd24) as Bed.
  set (eb := int_e d - en - 24 + c1) in *.
  rewrite Hbw in *.
  destruct (Z.eq_dec v rmin) as [->|Hne].
  { exists 0. rewrite Z.sub_diag. split; [reflexivity|lia]. }
  set (k := v - rmin).
  assert (Hk : 1 <= k <= d - 1) by (unfold k, d; lia).
  assert (Hk24 : 0 < k < 2 ^ 24) by (change (2 ^ 24) with 16777216; lia).
  pose proof (int_m_bounds k Hk24) as Bmk.
  pose proof (int_e_bounds k Hk24) as Bek.
  (* the bin width is at least 2 ^ -20 *)
  assert (Heb : -43 <= eb).
  { destruct (Z.lt_ge_cases eb (-43)) as [Hlt|]; [|assumption].
    rewrite (degenerate_small false mb eb Bmb) in Hdeg by lia. discriminate. }
  rewrite of_Z_pos by exact Hk24.
  pose proof (div_normal false false (Z.to_pos (int_m k)) mb (int_e k) eb) as Dv.
  rewrite Z2Pos.id in Dv by lia.
  specialize (Dv Bmk Bmb ltac:(lia)). cbv zeta in Dv.
  set (c2 := if int_m k <? Zpos mb then 0 else 1) in *.
  assert (Hc2 : 0 <= c2 <= 1) by (unfold c2; destruct (int_m k <? Zpos mb); lia).
  destruct Dv as [Dv Bq].
  set (q := rne (int_m k * 2 ^ 24) (Zpos mb * 2 ^ c2)) in *.
  assert (Erq : 2 * Z.abs (q * (Zpos mb * 2 ^ c2) - int_m k * 2 ^ 24) <= Zpos mb * 2 ^ c2).
  { apply rne_error. pose proof (pow2_pos c2 ltac:(lia)). nia. }
  rewrite Dv. cbn [xorb].
  set (eq := int_e k - eb - 24 + c2).
  (* the quotient is below n *)
  set (A := 2 ^ (- int_e k)). set (B := 2 ^ (- int_e d)).
  set (C1 := 2 ^ c1) in *. set (C2 := 2 ^ c2) in *. set (E := 2 ^ (en + 23)) in *.
  assert (PA : 0 < A) by (apply pow2_pos; lia).
  assert (PB : 0 < B) by (apply pow2_pos; lia).
  assert (PC1 : 0 < C1) by (apply pow2_pos; lia).
  assert (PC2 : 0 < C2) by (apply pow2_pos; lia).
  assert (PE : 0 < E) by (apply pow2_pos; lia).
  rewrite (int_value k Hk24) in Erq. rewrite (int_value d Hd24) in Erb.
  fold A in Erq. fold B in Erb.
  change (2 ^ 24) with (2 * 2 ^ 23) in Erq, Erb.
  assert (Main : q * B * E * C2 < n * A * C1 * 2 ^ 23).
  { apply (quotient_below (2 ^ 23) q (Zpos mb) (Zpos mn) C1 C2 A B E k d n);
      try lia.
    all: change (2 ^ 23) with 8388608; lia. }
  (* 2 ^ eq * (A * C1 * 2 ^ 23) = B * E * C2 *)
  assert (Hpow : forall x y, 0 <= x -> 0 <= y ->
             x + (- int_e k + c1 + 23) = y + (- int_e d + (en + 23) + c2) ->
             2 ^ x * (A * C1 * 2 ^ 23) = 2 ^ y * (B * E * C2)).
  { intros x y Hx Hy Hxy. unfold A, B, C1, C2, E.
    rewrite <- !Z.pow_add_r by lia. f_equal. lia. }
  assert (PACP : 0 < A * C1 * 2 ^ 23).
  { apply Z.mul_pos_pos; [apply Z.mul_pos_pos; assumption|reflexivity]. }
  assert (PBEC : 0 < B * E * C2).
  { apply Z.mul_pos_pos; [apply Z.mul_pos_pos; assumption|assumption]. }
  unfold F32.to_int. rewrite trunc_finite. rewrite Z2Pos.id by lia. fold eq.
  set (T := if eq <? 0 then q / 2 ^ (- eq) else q * 2 ^ eq).
  assert (HT : 0 <= T /\ T * (A * C1 * 2 ^ 23) <= q * B * E * C2 /\ T < 2 ^ 31).
  { unfold T. destruct (Z.ltb_spec eq 0) as [Hneg|Hpos].
    - pose proof (pow2_pos (- eq) ltac:(lia)) as Pp.
      pose proof (Hpow 0 (- eq) ltac:(lia) ltac:(lia) ltac:(unfold eq, eb; lia)) as Hp.
      rewrite Z.pow_0_r, Z.mul_1_l in Hp. rewrite Hp.
      assert (Hq0 : 0 <= q / 2 ^ (- eq)) by (apply Z.div_pos; lia).
      assert (Hq1 : q / 2 ^ (- eq) * 2 ^ (- eq) <= q).
      { rewrite Z.mul_comm. apply Z.mul_div_le. lia. }
      split; [exact Hq0|]. split.
      + replace (q / 2 ^ (- eq) * (2 ^ (- eq) * (B * E * C2)))
          with ((q / 2 ^ (- eq) * 2 ^ (- eq)) * (B * E * C2)) by ring.
        replace (q * B * E * C2) with (q * (B * E * C2)) by ring.
        apply Z.mul_le_mono_nonneg_r; lia.
      + assert (q / 2 ^ (- eq) <= q).
        { apply Z.div_le_upper_bound; [lia|]. nia. }
        change (2 ^ 24) with 16777216 in Bq. change (2 ^ 31) with 2147483648. lia.
    - pose proof (pow2_pos eq ltac:(lia)) as Pp.
      pose proof (Hpow eq 0 ltac:(lia) ltac:(lia) ltac:(unfold eq, eb; lia)) as Hp.
      rewrite Z.pow_0_r, Z.mul_1_l in Hp.
      split; [nia|]. split.
      + replace (q * 2 ^ eq * (A * C1 * 2 ^ 23)) with (q * (2 ^ eq * (A * C1 * 2 ^ 23))) by ring.
        rewrite Hp. lia.
      + assert (Hdk : Zdigits2 k <= 8)
          by (apply Zdigits2_le; [lia|change (2 ^ 8) with 256; lia]).
        assert (Heq4 : eq <= 4) by (unfold eq, int_e; lia).
        pose proof (Z.pow_le_mono_r 2 eq 4 ltac:(lia) Heq4) as Hp4.
        change (2 ^ 4) with 16 in Hp4.
        change (2 ^ 24) with 16777216 in Bq. change (2 ^ 31) with 2147483648.
        nia. }
  destruct HT as (HT0 & HT1 & HT2).
  assert (HTn : T < n).
  { apply (Z.mul_lt_mono_pos_r (A * C1 * 2 ^ 23)); [exact PACP|].
    replace (n * (A * C1 * 2 ^ 23)) with (n * A * C1 * 2 ^ 23) by ring. lia. }
  exists T. split; [|lia].
  destruct (Z.leb_spec (- 2 ^ 31) T) as [_|Hbad];
    [|change (2 ^ 31) with 2147483648 in Hbad; lia].
  destruct (Z.ltb_spec T (2 ^ 31)) as [_|Hbad]; [reflexivity|lia].
Qed.

Lemma ltb_finite_pos (m1 m2 : positive) (e1 e2 : Z) :
  F32.ltb (S754_finite false m1 e1) (S754_finite false m2 e2) = true ->
  e1 < e2 \/ (e1 = e2 /\ Zpos m1 < Zpos m2).
Proof.
  unfold F32.ltb, SFltb, SFcompare.
  destruct (Z.compare_spec e1 e2) as [E|E|E]; try discriminate; [|lia].
  change (Pos.compare_cont Eq m1 m2) with (m1 ?= m2)%positive.
  destruct (Pos.compare_spec m1 m2) as [C|C|C]; try discriminate.
  intros _. right. lia.
Qed.

(** A positive bin width comes from a positive range. *)
Lemma binWidth_positive (n : Z) (rmin rmax : uchar) :
  is_uchar rmin -> is_uchar rmax -> 0 < n < 2 ^ 32 ->
  F32.ltb F32.zero (binWidth n rmin rmax) = true -> rmin < rmax.
Proof.
  unfold is_uchar. intros Hmin Hmax Hn Hpos.
  destruct (Z.lt_ge_cases rmin rmax) as [|Hge]; [assumption|exfalso].
  destruct (of_Z_uint n Hn) as (mn & en & On & Bmn & Ben & _).
  unfold binWidth in Hpos. cbn [sample_diff Sample_uchar] in Hpos.
  rewrite On in Hpos.
  destruct (Z.eq_dec rmax rmin) as [->|Hne].
  - rewrite Z.sub_diag in Hpos. discriminate.
  - set (d := rmin - rmax).
    assert (Hd24 : 0 < d < 2 ^ 24) by (unfold d; change (2 ^ 24) with 16777216; lia).
    replace (rmax - rmin) with (- d) in Hpos by (unfold d; lia).
    rewrite of_Z_neg in Hpos by exact Hd24.
    pose proof (int_m_bounds d Hd24) as Bmd.
    pose proof (int_e_bounds d Hd24) as Bed.
    pose proof (div_normal true false (Z.to_pos (int_m d)) mn (int_e d) en) as Dv.
    rewrite Z2Pos.id in Dv by lia.
    specialize (Dv Bmd Bmn ltac:(lia)). cbv zeta in Dv.
    destruct Dv as [Dv _]. rewrite Dv in Hpos. discriminate.
Qed.

(** A sample less than one bin width below [rangeMin] gets bin index 0. *)
Lemma bin_index_below (n : Z) (rmin rmax v : uchar) :
  is_uchar rmin -> is_uchar rmax -> is_uchar v -> 0 < n < 2 ^ 32 ->
  v < rmin ->
  F32.ltb F32.zero (binWidth n rmin rmax) = true ->
  F32.ltb (F32.of_Z (rmin - v)) (binWidth n rmin rmax) = true ->
  F32.to_int (F32.div (F32.of_Z (v - rmin)) (binWidth n rmin rmax)) = Some 0.
Proof.
  intros Hmin Hmax Hv Hn Hlt Hpos Hnear.
  pose proof (binWidth_positive n rmin rmax Hmin Hmax Hn Hpos) as Hrange.
  unfold is_uchar in *.
  destruct (binWidth_uchar n rmin rmax Hn ltac:(lia))
    as (mn & mb & en & c1 & On & Bmn & Ben & _ & Hbw & Bmb & Hc1 & _).
  set (d := rmax - rmin) in *.
  assert (Hd24 : 0 < d < 2 ^ 24) by (unfold d; change (2 ^ 24) with 16777216; lia).
  pose proof (int_e_bounds d Hd24) as Bed.
  set (eb := int_e d - en - 24 + c1) in *.
  rewrite Hbw in *.
  set (k := rmin - v) in *.
  assert (Hk24 : 0 < k < 2 ^ 24) by (unfold k; change (2 ^ 24) with 16777216; lia).
  pose proof (int_m_bounds k Hk24) as Bmk.
  pose proof (int_e_bounds k Hk24) as Bek.
  replace (v - rmin) with (- k) by (unfold k; lia).
  rewrite of_Z_pos in Hnear by exact Hk24. rewrite of_Z_neg by exact Hk24.
  apply ltb_finite_pos in Hnear. rewrite Z2Pos.id in Hnear by lia.
  pose proof (div_normal true false (Z.to_pos (int_m k)) mb (int_e k) eb) as Dv.
  rewrite Z2Pos.id in Dv by lia.
  specialize (Dv Bmk Bmb ltac:(lia)). cbv zeta in Dv.
  set (c2 := if int_m k <? Zpos mb then 0 else 1) in *.
  destruct Dv as [Dv Bq].
  set (q := rne (int_m k * 2 ^ 24) (Zpos mb * 2 ^ c2)) in *.
  rewrite Dv. cbn [xorb].
  set (e := int_e k - eb - 24 + c2).
  assert (He : e <= -24).
  { unfold e, c2. destruct (Z.ltb_spec (int_m k) (Zpos mb)); lia. }
  unfold F32.to_int. rewrite trunc_finite. rewrite Z2Pos.id by lia. fold e.
  destruct (Z.ltb_spec e 0) as [_|]; [|lia].
  assert (Hq0 : q / 2 ^ (- e) = 0).
  { apply Z.div_small. split; [lia|].
    pose proof (Z.pow_le_mono_r 2 24 (- e) ltac:(lia) ltac:(lia)). lia. }
  rewrite Hq0. reflexivity.
Qed.

(** * Counting samples *)

Lemma integer_value_of_Z (c : Z) :
  0 <= c <= 2 ^ 24 -> integer_value (F32.of_Z c) = Some c.
Proof.
  intros Hc.
  destruct (Z.eq_dec c 0) as [->|H0]; [reflexivity|].
  destruct (Z.eq_dec c (2 ^ 24)) as [->|H24]; [reflexivity|].
  assert (Hc24 : 0 < c < 2 ^ 24) by lia.
  rewrite of_Z_pos by exact Hc24.
  pose proof (int_m_bounds c Hc24) as Bm.
  pose proof (int_e_bounds c Hc24) as Be.
  pose proof (int_value c Hc24) as Hv.
  pose proof (pow2_pos (- int_e c) ltac:(lia)) as Pp.
  unfold integer_value. rewrite Z2Pos.id by lia.
  assert (Hmod : int_m c mod 2 ^ (- int_e c) = 0).
  { rewrite Hv. apply Z.mod_mul. lia. }
  rewrite Hmod, Z.eqb_refl, orb_true_r.
  rewrite trunc_finite, Z2Pos.id by lia.
  destruct (Z.ltb_spec (int_e c) 0) as [Hneg|Hz].
  - rewrite Hv, Z.div_mul by lia. reflexivity.
  - replace (int_e c) with 0 in * by lia.
    rewrite Z.pow_0_r, Z.mul_1_r in *. cbn in Hv. f_equal. lia.
Qed.

Lemma bump_length (counts : list Z) (j : nat) :
  length (bump counts j) = length counts.
Proof.
  revert j. induction counts as [|c rest IH]; intros [|j]; cbn; auto.
Qed.

Lemma bump_sum (counts : list Z) (j : nat) :
  (j < length counts)%nat -> zsum (bump counts j) = zsum counts + 1.
Proof.
  revert j. induction counts as [|c rest IH]; intros [|j] Hj; cbn in *; try lia.
  rewrite IH by lia. lia.
Qed.

Lemma bump_nonneg (counts : list Z) (j : nat) :
  Forall (fun c => 0 <= c) counts -> Forall (fun c => 0 <= c) (bump counts j).
Proof.
  revert j. induction counts as [|c rest IH]; intros [|j] H; cbn; auto;
    inversion H; subst; constructor; auto. lia.
Qed.

Lemma nonneg_le_sum (counts : list Z) :
  Forall (fun c => 0 <= c) counts ->
  0 <= zsum counts /\ Forall (fun c => c <= zsum counts) counts.
Proof.
  induction 1 as [|c rest Hc Hrest [IH1 IH2]]; cbn.
  - split; [lia|constructor].
  - split; [lia|]. constructor; [lia|].
    eapply Forall_impl; [|exact IH2]. cbn. intros. lia.
Qed.

Lemma increment_counts (counts : list Z) (j : nat) :
  (j < length counts)%nat ->
  Forall (fun c => 0 <= c < 2 ^ 24) counts ->
  increment (map F32.of_Z counts) j = Some (map F32.of_Z (bump counts j)).
Proof.
  revert j. induction counts as [|c rest IH]; intros [|j] Hj H; cbn in *; try lia;
    inversion H; subst.
  - rewrite incr_of_Z by lia. reflexivity.
  - rewrite IH by (auto; lia). reflexivity.
Qed.

Lemma total_counts (counts : list Z) :
  Forall (fun c => 0 <= c <= 2 ^ 24) counts ->
  total (map F32.of_Z counts) = Some (zsum counts).
Proof.
  induction 1 as [|c rest Hc Hrest IH]; cbn [map total zsum]; [reflexivity|].
  rewrite integer_value_of_Z by exact Hc. rewrite IH. reflexivity.
Qed.

Lemma zsum_repeat_zero (k : nat) : zsum (repeat 0 k) = 0.
Proof. induction k; cbn; lia. Qed.

(** The loop of [ScalarHistogram] over in-range [unsigned char] samples. *)
Lemma bin_loop_counts (n : Z) (rmin rmax : uchar) (count : nat) :
  is_uchar rmin -> is_uchar rmax -> 0 < n < 2 ^ 32 ->
  degenerate (binWidth n rmin rmax) = false ->
  forall (values : list uchar) (i : nat) (counts : list Z),
    Forall (fun v => rmin <= v <= rmax) values ->
    length counts = Z.to_nat n ->
    Forall (fun c => 0 <= c) counts ->
    zsum counts + Z.of_nat (length values) <= 2 ^ 24 ->
    exists counts',
      bin_loop n rmin rmax count i values (map F32.of_Z counts)
      = Ok (map F32.of_Z counts')
      /\ length counts' = Z.to_nat n
      /\ Forall (fun c => 0 <= c) counts'
      /\ zsum counts' = zsum counts + Z.of_nat (length values).
Proof.
  intros Hmin Hmax Hn Hdeg values.
  induction values as [|v rest IH]; intros i counts Hin Hlen Hnn Hsum.
  - exists counts. cbn. repeat split; auto. lia.
  - inversion Hin as [|? ? Hv Hrest]; subst.
    cbn [length] in Hsum. rewrite Nat2Z.inj_succ in Hsum.
    destruct (nonneg_le_sum counts Hnn) as [Hs0 Hle].
    assert (Hsmall : Forall (fun c => 0 <= c < 2 ^ 24) counts).
    { rewrite Forall_forall in *. intros c Hc.
      specialize (Hnn c Hc). specialize (Hle c Hc). cbn in *. lia. }
    assert (Hstep : exists j, (j < length counts)%nat /\
              bin_sample n rmin rmax count i v (map F32.of_Z counts)
              = Ok (map F32.of_Z (bump counts j))).
    { unfold bin_sample. cbn [sample_eqb sample_diff Sample_uchar].
      destruct (Z.eqb_spec v rmax) as [Heq|Hne].
      - exists (length counts - 1)%nat. split; [lia|].
        rewrite length_map, increment_counts by (auto; lia). reflexivity.
      - destruct (bin_index_in_range n rmin rmax v Hmin Hmax Hn ltac:(lia) Hdeg)
          as (bin & Hbin & Bbin).
        rewrite Hbin.
        destruct (Z.ltb_spec bin 0); [lia|].
        destruct (Z.geb_spec bin n); [lia|].
        exists (Z.to_nat bin). split; [lia|].
        rewrite increment_counts by (auto; lia). reflexivity. }
    destruct Hstep as (j & Hj & Hstep).
    destruct (IH (S i) (bump counts j) Hrest) as (counts' & L & Len & Nn & Sm).
    + rewrite bump_length. exact Hlen.
    + apply bump_nonneg. exact Hnn.
    + rewrite bump_sum by exact Hj. lia.
    + exists counts'. cbn [bin_loop]. rewrite Hstep.
      repeat split; auto.
      rewrite Sm, bump_sum by exact Hj. cbn [length]. lia.
Qed.

Lemma zeros_counts (k : nat) : repeat F32.zero k = map F32.of_Z (repeat 0 k).
Proof. induction k; cbn [repeat map]; [reflexivity|]. rewrite IHk. reflexivity. Qed.

Lemma nonneg_repeat_zero (k : nat) : Forall (fun c => 0 <= c) (repeat 0 k).
Proof. induction k; cbn; constructor; auto. lia. Qed.

(** C1 (amended).  For at most 2 ^ 24 [unsigned char] samples, all in
    [[rangeMin, rangeMax]], at least one bin and a bin width that is not
    degenerate, [ScalarHistogram] returns [numberOfBins] integer counts whose
    sum is the number of samples. *)
Theorem scalar_histogram_counts_samples
    (numberOfBins : Z) (rangeMin rangeMax : uchar) (values : list uchar) :
  is_uchar rangeMin -> is_uchar rangeMax ->
  1 <= numberOfBins < 2 ^ 32 ->
  Forall (fun v => rangeMin <= v <= rangeMax) values ->
  degenerate (binWidth numberOfBins rangeMin rangeMax) = false ->
  Z.of_nat (length values) <= 2 ^ 24 ->
  exists bins,
    ScalarHistogram numberOfBins rangeMin rangeMax values = Ok bins
    /\ length bins = Z.to_nat numberOfBins
    /\ total bins = Some (Z.of_nat (length values)).
Proof.
  intros Hmin Hmax Hn Hin Hdeg Hlen.
  unfold ScalarHistogram. rewrite Hdeg, zeros_counts.
  destruct (bin_loop_counts numberOfBins rangeMin rangeMax (length values)
              Hmin Hmax ltac:(lia) Hdeg values 0%nat
              (repeat 0 (Z.to_nat numberOfBins)) Hin)
    as (counts & L & Len & Nn & Sm).
  - apply repeat_length.
  - apply nonneg_repeat_zero.
  - rewrite zsum_repeat_zero. lia.
  - rewrite zsum_repeat_zero in Sm.
    exists (map F32.of_Z counts). split; [exact L|]. split.
    + rewrite length_map. exact Len.
    + rewrite total_counts; [f_equal; lia|].
      destruct (nonneg_le_sum counts Nn) as [_ Hle].
      rewrite Forall_forall in *. intros c Hc.
      specialize (Nn c Hc). specialize (Hle c Hc). cbn in *. lia.
Qed.

Lemma scalar_histogram_counts_samples_witness :
  exists bins,
    ScalarHistogram 4 0 255 [0; 63; 64; 255; 128; 200] = Ok bins
    /\ length bins = 4%nat
    /\ total bins = Some 6.
Proof.
  apply (scalar_histogram_counts_samples 4 0 255 [0; 63; 64; 255; 128; 200]).
  - unfold is_uchar. lia.
  - unfold is_uchar. lia.
  - lia.
  - repeat constructor; lia.
  - vm_compute. reflexivity.
  - cbn. lia.
Defined.

(** Counting saturates at 2 ^ 24. *)
Lemma bin_loop_saturated (count : nat) (k i : nat) :
  bin_loop 1 0 255 count i (repeat 255 k) [F32.of_Z 16777216]
  = Ok [F32.of_Z 16777216].
Proof.
  revert i. induction k as [|k IH]; intros i; [reflexivity|].
  cbn [repeat bin_loop].
  replace (bin_sample 1 0 255 count i 255 [F32.of_Z 16777216])
    with (Ok [F32.of_Z 16777216]) by (vm_compute; reflexivity).
  apply IH.
Qed.

Lemma bin_loop_app {TValue : Type} `{Sample TValue} (n : Z) (rmin rmax : TValue)
    (count : nat) (l1 l2 : list TValue) :
  forall (i : nat) (bins : HistogramType),
  bin_loop n rmin rmax count i (l1 ++ l2) bins
  = match bin_loop n rmin rmax count i l1 bins with
    | Ok bins' => bin_loop n rmin rmax count (i + length l1) l2 bins'
    | Throw d => Throw d
    | Undefined => Undefined
    end.
Proof.
  induction l1 as [|v rest IH]; intros i bins; cbn [app bin_loop length].
  - rewrite Nat.add_0_r. reflexivity.
  - destruct (bin_sample n rmin rmax count i v bins); [|reflexivity|reflexivity].
    rewrite IH. replace (S i + length rest)%nat with (i + S (length rest))%nat by lia.
    reflexivity.
Qed.

Lemma saturation (N : nat) :
  Z.of_nat N = 16777216 ->
  ScalarHistogram 1 0 255 (repeat 255 (N + 1)) = Ok [F32.of_Z 16777216].
Proof.
  intros HN. unfold ScalarHistogram.
  replace (degenerate (binWidth 1 0 255)) with false by (vm_compute; reflexivity).
  rewrite repeat_app.
  change (repeat F32.zero (Z.to_nat 1)) with (map F32.of_Z [0]).
  rewrite bin_loop_app.
  destruct (bin_loop_counts 1 0 255 (length (repeat 255 N ++ repeat 255 1))
              ltac:(unfold is_uchar; lia) ltac:(unfold is_uchar; lia) ltac:(lia)
              ltac:(vm_compute; reflexivity)
              (repeat 255 N) 0%nat [0])
    as (counts & L & Len & Nn & Sm).
  - apply Forall_forall. intros v Hv. apply repeat_spec in Hv. lia.
  - reflexivity.
  - repeat constructor. lia.
  - rewrite repeat_length. cbn [zsum]. change (2 ^ 24) with 16777216. lia.
  - rewrite L. rewrite repeat_length in Sm. cbn [zsum] in Sm.
    destruct counts as [|c [|c' rest]]; try discriminate.
    cbn [zsum] in Sm. replace c with 16777216 by lia.
    apply bin_loop_saturated.
Qed.

(** Counterexample to C1 as stated: 16777217 samples equal to [rangeMax]
    leave 16777216 in the only bin, because a [float] count of 2 ^ 24 is not
    changed by [++]. *)
Lemma counts_saturate :
  let values : list uchar := repeat 255 (Z.to_nat 16777216 + 1) in
  Forall (fun v => 0 <= v <= 255) values
  /\ degenerate (binWidth 1 (0 : uchar) 255) = false
  /\ ScalarHistogram 1 0 255 values = Ok [F32.of_Z 16777216]
  /\ total [F32.of_Z 16777216] = Some 16777216
  /\ Z.of_nat (length values) = 16777217.
Proof.
  intros values. unfold values. split; [|split; [|split; [|split]]].
  - apply Forall_forall. intros v Hv. apply repeat_spec in Hv. lia.
  - vm_compute. reflexivity.
  - apply saturation. apply Z2Nat.id. lia.
  - vm_compute. reflexivity.
  - rewrite repeat_length, Nat2Z.inj_add, Z2Nat.id by lia. reflexivity.
Qed.

(** ** Order of non-negative binary32 numbers *)

Lemma nonneg32_cases (x : float) :
  nonneg32 x ->
  (exists s, x = S754_zero s)
  \/ x = S754_infinity false
  \/ exists m e, x = S754_finite false m e
                 /\ fexp 24 128 (Zdigits2 (Zpos m) + e) = e /\ e <= 104.
Proof.
  intros [Hle Hv]. destruct x as [s|s| |s m e]; try discriminate.
  - left. exists s. reflexivity.
  - destruct s; [discriminate|]. right. left. reflexivity.
  - destruct s; [discriminate|]. right. right. exists m, e.
    cbn [valid_binary] in Hv. unfold bounded, canonical_mantissa in Hv.
    apply andb_prop in Hv. destruct Hv as [C B].
    apply Z.eqb_eq in C. apply Z.leb_le in B.
    split; [reflexivity|]. split; [exact C|lia].
Qed.

Lemma canonical_bounds (m : positive) (e : Z) :
  fexp 24 128 (Zdigits2 (Zpos m) + e) = e ->
  -149 <= e /\ Zpos m < 2 ^ 24 /\ (-149 < e -> 2 ^ 23 <= Zpos m).
Proof.
  intros C. unfold fexp, emin in C.
  pose proof (Zdigits2_bounds (Zpos m) ltac:(lia)) as [Blo Bhi].
  pose proof (Zdigits2_pos (Zpos m) ltac:(lia)) as Hd.
  split; [lia|]. split.
  - assert (Zdigits2 (Zpos m) <= 24) by lia.
    pose proof (Z.pow_le_mono_r 2 (Zdigits2 (Zpos m)) 24 ltac:(lia) ltac:(lia)). lia.
  - intros He. assert (Zdigits2 (Zpos m) = 24) by lia.
    replace 23 with (Zdigits2 (Zpos m) - 1) by lia. exact Blo.
Qed.

Lemma Zdigits2_mono (a b : Z) : 0 <= a <= b -> Zdigits2 a <= Zdigits2 b.
Proof.
  intros H. destruct (Z.eq_dec a 0) as [->|Ha]; [apply Zdigits2_nonneg|].
  pose proof (Zdigits2_bounds a ltac:(lia)) as [Alo _].
  apply Zdigits2_ge; lia.
Qed.

Lemma round_int_bounds (X : Z) :
  0 <= X ->
  let t := Z.max (Zdigits2 X - 24) 0 in
  0 <= rne X (2 ^ t) <= 2 ^ 24 /\ (0 < t -> 2 ^ 23 <= rne X (2 ^ t)).
Proof.
  intros HX t.
  pose proof (pow2_pos t ltac:(unfold t; lia)) as Pt.
  destruct (Z.eq_dec X 0) as [->|Hn].
  - cbn in t. subst t. rewrite rne_one. cbn. lia.
  - pose proof (Zdigits2_bounds X ltac:(lia)) as [Blo Bhi].
    pose proof (Zdigits2_pos X ltac:(lia)) as Hd.
    split; [split|].
    + apply rne_ge; lia.
    + apply rne_le; [lia|].
      rewrite <- Z.pow_add_r by (unfold t; lia).
      pose proof (Z.pow_le_mono_r 2 (Zdigits2 X) (24 + t) ltac:(lia) ltac:(unfold t; lia)).
      lia.
    + intros Ht. apply rne_ge; [lia|].
      rewrite <- Z.pow_add_r by lia.
      replace (23 + t) with (Zdigits2 X - 1) by (unfold t in *; lia). exact Blo.
Qed.

Lemma round_int_mono (X Y : Z) : 0 <= X <= Y -> round_int X <= round_int Y.
Proof.
  intros H. unfold round_int.
  pose proof (Zdigits2_mono X Y H) as Hd.
  set (t := Z.max (Zdigits2 X - 24) 0). set (u := Z.max (Zdigits2 Y - 24) 0).
  pose proof (round_int_bounds X ltac:(lia)) as [BX _].
  pose proof (round_int_bounds Y ltac:(lia)) as [BY LY].
  fold t in BX. fold u in BY, LY.
  pose proof (pow2_pos t ltac:(unfold t; lia)) as Pt.
  destruct (Z.eq_dec t u) as [E|NE].
  - rewrite <- E. apply Z.mul_le_mono_nonneg_r; [lia|].
    apply rne_mono; lia.
  - assert (Htu : t < u) by (unfold t, u in *; lia).
    specialize (LY ltac:(unfold t in *; lia)).
    assert (E : 2 ^ u = 2 ^ t * 2 ^ (u - t))
      by (rewrite <- Z.pow_add_r by (unfold t in *; lia); f_equal; lia).
    pose proof (Z.pow_le_mono_r 2 1 (u - t) ltac:(lia) ltac:(lia)) as P1.
    rewrite Z.pow_1_r in P1.
    change (2 ^ 24) with 16777216 in BX. change (2 ^ 23) with 8388608 in LY.
    set (p := 2 ^ (u - t)) in *. set (w := 2 ^ t) in *.
    set (y := rne Y (2 ^ u)) in *. rewrite E.
    assert (rne X w * w <= 16777216 * w) by (apply Z.mul_le_mono_nonneg_r; lia).
    assert (8388608 * (w * 2) <= y * (w * p)).
    { apply Z.mul_le_mono_nonneg; try lia. apply Z.mul_le_mono_nonneg_l; lia. }
    lia.
Qed.

Lemma round_int_exact (m t : Z) :
  0 <= m < 2 ^ 24 -> 0 <= t -> (0 < t -> 2 ^ 23 <= m) ->
  round_int (m * 2 ^ t) = m * 2 ^ t.
Proof.
  intros Hm Ht Hn.
  destruct (Z.eq_dec m 0) as [->|Hm0].
  { rewrite Z.mul_0_l. unfold round_int. cbn [Zdigits2].
    change (Z.max (0 - 24) 0) with 0. rewrite Z.pow_0_r, rne_one. reflexivity. }
  unfold round_int.
  assert (E : Z.max (Zdigits2 (m * 2 ^ t) - 24) 0 = t \/
              (t = 0 /\ Z.max (Zdigits2 (m * 2 ^ t) - 24) 0 = 0)).
  { rewrite Zdigits2_mul_pow2 by lia.
    assert (Zdigits2 m <= 24) by (apply Zdigits2_le; lia).
    destruct (Z.eq_dec t 0) as [->|]; [right; split; [reflexivity|lia]|left].
    rewrite (digits24 m) by lia. lia. }
  destruct E as [E|[-> E]]; rewrite E.
  - rewrite rne_exact by (apply pow2_pos; lia). reflexivity.
  - rewrite !Z.pow_0_r, rne_one. lia.
Qed.

Lemma round_int_infinity (X : Z) : 2 ^ 277 <= X -> 2 ^ 277 <= round_int X.
Proof.
  intros H.
  assert (E : round_int (2 ^ 277) = 2 ^ 277).
  { change (2 ^ 277) with (2 ^ 23 * 2 ^ 254). apply round_int_exact; cbn; lia. }
  rewrite <- E at 1. apply round_int_mono.
  split; [apply Z.pow_nonneg; lia|exact H].
Qed.

Lemma pow2_277 (t : Z) : 0 <= t -> 2 ^ 277 = 2 ^ (277 - t) * 2 ^ t \/ 277 < t.
Proof.
  intros Ht. destruct (Z.le_gt_cases t 277); [left|right; lia].
  rewrite <- Z.pow_add_r by lia. f_equal. lia.
Qed.

Lemma finish_scaled (r t : Z) :
  0 <= r <= 2 ^ 24 -> -149 <= t -> (-149 < t -> 2 ^ 23 <= r) ->
  scaled (finish 24 128 false r t) = Z.min (r * 2 ^ (t + 149)) (2 ^ 277)
  /\ nonneg32 (finish 24 128 false r t).
Proof.
  intros Hr Ht Hn.
  pose proof (pow2_pos (t + 149) ltac:(lia)) as Pt.
  assert (P24 : 2 ^ 24 = 16777216) by reflexivity.
  assert (P23 : 2 ^ 23 = 8388608) by reflexivity.
  assert (Hlow : t <= 104 -> 2 ^ (t + 149) * 16777216 <= 2 ^ 277).
  { intros H. change 16777216 with (2 ^ 24). rewrite <- Z.pow_add_r by lia.
    apply Z.pow_le_mono_r; lia. }
  assert (Hhigh : 104 < t -> 2 ^ 277 <= 2 ^ (t + 149) * 8388608).
  { intros H. change 8388608 with (2 ^ 23). rewrite <- Z.pow_add_r by lia.
    apply Z.pow_le_mono_r; lia. }
  assert (Hhigh' : 104 <= t -> 2 ^ 277 <= 2 ^ (t + 149) * 16777216).
  { intros H. change 16777216 with (2 ^ 24). rewrite <- Z.pow_add_r by lia.
    apply Z.pow_le_mono_r; lia. }
  assert (Hsucc : 2 ^ (t + 1 + 149) = 2 * 2 ^ (t + 149)).
  { replace (t + 1 + 149) with (Z.succ (t + 149)) by lia. apply Z.pow_succ_r. lia. }
  unfold finish, nonneg32.
  destruct (Z.eqb_spec r 0) as [->|Hr0].
  { cbn [scaled]. rewrite Z.mul_0_l. split; [|split; reflexivity].
    symmetry. apply Z.min_l. cbn. lia. }
  destruct (Z.eqb_spec r (2 ^ 24)) as [->|Hr24].
  - destruct (Z.leb_spec (t + 1) (128 - 24)) as [Hb|Hb].
    + cbn [scaled]. change (Zpos (Z.to_pos (2 ^ (24 - 1)))) with 8388608.
      rewrite Hsucc, P24. specialize (Hlow ltac:(lia)).
      split; [lia|]. split; [reflexivity|].
      cbn [valid_binary]. unfold bounded, canonical_mantissa.
      change (Zpos (digits2_pos (Z.to_pos (2 ^ (24 - 1))))) with 24.
      apply andb_true_intro.
      split; [apply Z.eqb_eq; unfold fexp; change (emin 24 128) with (-149); lia|apply Z.leb_le; lia].
    + cbn [scaled]. rewrite P24.
      assert (2 ^ 277 <= 2 ^ (t + 149) * 16777216) by (apply Hhigh'; lia).
      split; [lia|]. split; reflexivity.
  - destruct (Z.leb_spec t (128 - 24)) as [Hb|Hb].
    + cbn [scaled]. rewrite Z2Pos.id by lia.
      specialize (Hlow ltac:(lia)).
      assert (r * 2 ^ (t + 149) <= 16777216 * 2 ^ (t + 149))
        by (apply Z.mul_le_mono_nonneg_r; lia).
      split; [lia|]. split; [reflexivity|].
      cbn [valid_binary]. unfold bounded, canonical_mantissa.
      apply andb_true_intro. split; [|apply Z.leb_le; lia].
      apply Z.eqb_eq. change (Zpos (digits2_pos (Z.to_pos r))) with (Zdigits2 (Zpos (Z.to_pos r))).
      rewrite Z2Pos.id by lia.
      assert (Zdigits2 r <= 24) by (apply Zdigits2_le; lia).
      destruct (Z.eq_dec t (-149)) as [->|Hne]; [unfold fexp; change (emin 24 128) with (-149); lia|].
      rewrite (digits24 r) by lia. unfold fexp. change (emin 24 128) with (-149). lia.
    + cbn [scaled]. specialize (Hhigh ltac:(lia)). specialize (Hn ltac:(lia)).
      assert (8388608 * 2 ^ (t + 149) <= r * 2 ^ (t + 149))
        by (apply Z.mul_le_mono_nonneg_r; lia).
      split; [lia|]. split; reflexivity.
Qed.

Lemma binary_round_scaled (m : positive) (e : Z) :
  -149 <= e ->
  scaled (binary_round 24 128 false m e)
  = Z.min (round_int (Zpos m * 2 ^ (e + 149))) (2 ^ 277)
  /\ nonneg32 (binary_round 24 128 false m e).
Proof.
  intros He.
  pose proof (binary_round_correct 24 128 prec32_pos false m e (-149)) as R.
  cbv zeta in R.
  set (t := fexp 24 128 (Zdigits2 (Zpos m) + e)) in *.
  assert (Ht : -149 <= t) by (unfold t, fexp; change (emin 24 128) with (-149); lia).
  specialize (R He Ht).
  replace (e - -149) with (e + 149) in R by lia.
  replace (t - -149) with (t + 149) in R by lia.
  set (X := Zpos m * 2 ^ (e + 149)) in *.
  pose proof (pow2_pos (e + 149) ltac:(lia)) as Pe.
  assert (HX : 0 < X) by (unfold X; nia).
  assert (Ed : Z.max (Zdigits2 X - 24) 0 = t + 149).
  { unfold X. rewrite Zdigits2_mul_pow2 by lia. unfold t, fexp. change (emin 24 128) with (-149). lia. }
  pose proof (round_int_bounds X ltac:(lia)) as [B L]. rewrite Ed in B, L.
  rewrite R. unfold round_int. rewrite Ed.
  apply finish_scaled; [exact B|exact Ht|]. intros H. apply L. lia.
Qed.

Lemma scaled_valid (m : positive) (e : Z) :
  fexp 24 128 (Zdigits2 (Zpos m) + e) = e -> e <= 104 ->
  round_int (Zpos m * 2 ^ (e + 149)) = Zpos m * 2 ^ (e + 149)
  /\ Zpos m * 2 ^ (e + 149) < 2 ^ 277.
Proof.
  intros C B. destruct (canonical_bounds m e C) as (He & Hm & Hn).
  split.
  - apply round_int_exact; [lia|lia|]. intros H. apply Hn. lia.
  - pose proof (pow2_pos (e + 149) ltac:(lia)).
    assert (2 ^ (e + 149) * 2 ^ 24 <= 2 ^ 277).
    { rewrite <- Z.pow_add_r by lia. apply Z.pow_le_mono_r; lia. }
    nia.
Qed.

Lemma nonneg32_scaled (x : float) : nonneg32 x -> 0 <= scaled x <= 2 ^ 277.
Proof.
  intros H. destruct (nonneg32_cases x H) as [[s ->]|[->|(m & e & -> & C & B)]];
    cbn [scaled]; try (cbn; lia).
  destruct (scaled_valid m e C B) as [_ Hlt].
  destruct (canonical_bounds m e C) as (He & _).
  pose proof (pow2_pos (e + 149) ltac:(lia)). nia.
Qed.

(** Addition of non-negative numbers is the rounded exact sum. *)
Lemma add_scaled (x y : float) :
  nonneg32 x -> nonneg32 y ->
  scaled (F32.add x y) = Z.min (round_int (scaled x + scaled y)) (2 ^ 277)
  /\ nonneg32 (F32.add x y).
Proof.
  intros Hx Hy.
  pose proof (nonneg32_scaled x Hx) as Sx. pose proof (nonneg32_scaled y Hy) as Sy.
  assert (Inf : forall X, 2 ^ 277 <= X -> 2 ^ 277 = Z.min (round_int X) (2 ^ 277)).
  { intros X HX. pose proof (round_int_infinity X HX). lia. }
  assert (Ninf : nonneg32 (S754_infinity false)) by (split; reflexivity).
  destruct (nonneg32_cases x Hx) as [[sx ->]|[->|(mx & ex & -> & Cx & Bx)]];
    destruct (nonneg32_cases y Hy) as [[sy ->]|[->|(my & ey & -> & Cy & By)]].
  - split.
    + assert (E : scaled (F32.add (S754_zero sx) (S754_zero sy)) = 0)
        by (destruct sx, sy; reflexivity).
      rewrite E. reflexivity.
    + destruct sx, sy; split; reflexivity.
  - split; [|exact Ninf]. cbn [scaled F32.add SFadd] in *.
    unfold F32.add. cbn [SFadd scaled]. apply Inf. lia.
  - destruct (scaled_valid my ey Cy By) as [Ex Lt].
    unfold F32.add. cbn [SFadd scaled] in *. rewrite Z.add_0_l, Ex.
    split; [lia|exact Hy].
  - split; [|exact Ninf]. unfold F32.add. cbn [SFadd scaled] in *. apply Inf. lia.
  - split; [|exact Ninf]. unfold F32.add. cbn [SFadd scaled] in *. apply Inf. lia.
  - split; [|exact Ninf]. unfold F32.add. cbn [SFadd scaled] in *. apply Inf. lia.
  - destruct (scaled_valid mx ex Cx Bx) as [Ex Lt].
    unfold F32.add. cbn [SFadd scaled] in *. rewrite Z.add_0_r, Ex.
    split; [lia|exact Hx].
  - split; [|exact Ninf]. unfold F32.add. cbn [SFadd scaled] in *. apply Inf. lia.
  - destruct (canonical_bounds mx ex Cx) as (Hex & _).
    destruct (canonical_bounds my ey Cy) as (Hey & _).
    unfold F32.add, F32.prec, F32.emax. rewrite SFadd_pos.
    set (z := Z.min ex ey).
    pose proof (pow2_pos (ex - z) ltac:(unfold z; lia)).
    pose proof (pow2_pos (ey - z) ltac:(unfold z; lia)).
    pose proof (binary_round_scaled
                  (Z.to_pos (Zpos mx * 2 ^ (ex - z) + Zpos my * 2 ^ (ey - z))) z
                  ltac:(unfold z; lia)) as [R N].
    split; [|exact N]. rewrite R. rewrite Z2Pos.id by nia.
    f_equal. f_equal. cbn [scaled].
    rewrite Z.mul_add_distr_r, <- !Z.mul_assoc, <- !Z.pow_add_r by (unfold z; lia).
    f_equal; f_equal; f_equal; lia.
Qed.

(** [<] on non-negative numbers is the order of their values. *)
Lemma ltb_scaled (x y : float) :
  nonneg32 x -> nonneg32 y -> F32.ltb y x = true -> scaled y <= scaled x.
Proof.
  intros Hx Hy.
  pose proof (nonneg32_scaled x Hx) as Sx. pose proof (nonneg32_scaled y Hy) as Sy.
  destruct (nonneg32_cases x Hx) as [[sx ->]|[->|(mx & ex & -> & Cx & Bx)]];
    destruct (nonneg32_cases y Hy) as [[sy ->]|[->|(my & ey & -> & Cy & By)]];
    cbn [scaled] in *; try discriminate; try lia.
  intros H. apply ltb_finite_pos in H.
  destruct (canonical_bounds mx ex Cx) as (Hex & Hmx & Hnx).
  destruct (canonical_bounds my ey Cy) as (Hey & Hmy & Hny).
  pose proof (pow2_pos (ey + 149) ltac:(lia)) as Py.
  destruct H as [Hlt|[-> Hm]].
  - specialize (Hnx ltac:(lia)).
    assert (E : 2 ^ (ex + 149) = 2 ^ (ey + 149) * 2 ^ (ex - ey))
      by (rewrite <- Z.pow_add_r by lia; f_equal; lia).
    pose proof (Z.pow_le_mono_r 2 1 (ex - ey) ltac:(lia) ltac:(lia)) as P1.
    rewrite Z.pow_1_r in P1. rewrite E.
    change (2 ^ 24) with 16777216 in *. change (2 ^ 23) with 8388608 in *.
    set (w := 2 ^ (ey + 149)) in *. set (p := 2 ^ (ex - ey)) in *.
    assert (Zpos my * w <= 16777216 * w) by (apply Z.mul_le_mono_nonneg_r; lia).
    assert (8388608 * (w * 2) <= Zpos mx * (w * p)).
    { apply Z.mul_le_mono_nonneg; try lia. apply Z.mul_le_mono_nonneg_l; lia. }
    lia.
  - apply Z.mul_le_mono_nonneg_r; lia.
Qed.

Lemma std_min_scaled (x y : float) :
  nonneg32 x -> nonneg32 y ->
  nonneg32 (std_min x y) /\ scaled (std_min x y) <= scaled x.
Proof.
  intros Hx Hy. unfold std_min. destruct (F32.ltb y x) eqn:L.
  - split; [exact Hy|]. apply ltb_scaled; assumption.
  - split; [exact Hx|lia].
Qed.

Lemma nonneg32_zero : nonneg32 F32.zero.
Proof. split; reflexivity. Qed.

(** The accumulated minima stay below the accumulated first histogram. *)
Lemma intersection_below_total (h1 : HistogramType) :
  forall (h2 : HistogramType) (acc1 acc2 : float),
    length h1 = length h2 ->
    Forall nonneg32 h1 -> Forall nonneg32 h2 ->
    nonneg32 acc1 -> nonneg32 acc2 -> scaled acc1 <= scaled acc2 ->
    nonneg32 (intersection_loop h1 h2 acc1)
    /\ scaled (intersection_loop h1 h2 acc1) <= scaled (fold_left F32.add h1 acc2)
    /\ nonneg32 (fold_left F32.add h1 acc2).
Proof.
  induction h1 as [|x rest IH]; intros h2 acc1 acc2 Hlen H1 H2 N1 N2 Hle.
  - cbn. auto.
  - destruct h2 as [|y rest2]; [discriminate|].
    inversion H1 as [|? ? Hx Hrest]; subst.
    inversion H2 as [|? ? Hy Hrest2]; subst.
    cbn [intersection_loop fold_left].
    destruct (add_scaled acc2 x N2 Hx) as [S2 N2'].
    destruct (std_min_scaled x y Hx Hy) as [Nm Sm].
    destruct (add_scaled acc1 (std_min x y) N1 Nm) as [S1 N1'].
    pose proof (nonneg32_scaled acc1 N1) as B1.
    pose proof (nonneg32_scaled (std_min x y) Nm) as Bm.
    apply IH; auto.
    rewrite S1, S2.
    pose proof (round_int_mono (scaled acc1 + scaled (std_min x y))
                  (scaled acc2 + scaled x) ltac:(lia)).
    lia.
Qed.

(** A finite non-zero number divided by itself is exactly one. *)
Lemma div_self (s : bool) (m : positive) (e : Z) :
  F32.div (S754_finite s m e) (S754_finite s m e) = F32.one.
Proof.
  destruct (SFdiv_finite 24 128 prec32_pos s s m m e e) as [H _].
  cbv zeta in H.
  replace (Zdigits2 (Zpos m) + e - (Zdigits2 (Zpos m) + e)) with 0 in H by lia.
  rewrite Z.sub_diag in H.
  change (Z.min (fexp 24 128 0) 0) with (-24) in H.
  change (0 - -24) with 24 in H.
  replace (Zpos m * 2 ^ 24 / Zpos m) with (2 ^ 24) in H
    by (symmetry; rewrite Z.mul_comm; apply Z.div_mul; lia).
  change (fexp 24 128 (Zdigits2 (2 ^ 24) + -24)) with (-23) in H.
  change (-23 - -24) with 1 in H.
  replace (Zpos m * 2 ^ 24) with (2 ^ 23 * (Zpos m * 2 ^ 1)) in H
    by (change (2 ^ 24) with (2 ^ 23 * 2 ^ 1); ring).
  rewrite rne_exact in H by (rewrite Z.pow_1_r; lia).
  unfold F32.div, F32.prec, F32.emax. rewrite H.
  destruct s; reflexivity.
Qed.

Lemma finish_le_one (r t : Z) :
  0 <= r <= 2 ^ 24 -> t <= -23 -> (t = -23 -> r <= 2 ^ 23) ->
  F32.leb F32.zero (finish 24 128 false r t) = true
  /\ F32.leb (finish 24 128 false r t) F32.one = true.
Proof.
  intros Hr Ht H23. unfold finish.
  destruct (Z.eqb_spec r 0) as [->|Hr0]; [split; reflexivity|].
  destruct (Z.eqb_spec r (2 ^ 24)) as [->|Hr24].
  - assert (t < -23).
    { destruct (Z.eq_dec t (-23)) as [E|]; [|lia].
      specialize (H23 E). change (2 ^ 24) with 16777216 in H23.
      change (2 ^ 23) with 8388608 in H23. lia. }
    destruct (Z.leb_spec (t + 1) (128 - 24)); [|lia].
    split; [reflexivity|].
    unfold F32.leb, SFleb, F32.one, SFcompare.
    destruct (Z.compare_spec (t + 1) (-23)); try lia; reflexivity.
  - destruct (Z.leb_spec t (128 - 24)); [|lia].
    split; [reflexivity|].
    unfold F32.leb, SFleb, F32.one, SFcompare.
    destruct (Z.compare_spec t (-23)) as [E|E|E]; [|reflexivity|lia].
    rewrite Pos.compare_cont_spec.
    specialize (H23 E). change (2 ^ 23) with 8388608 in H23.
    destruct (Pos.compare_spec (Z.to_pos r) 8388608) as [C|C|C]; try reflexivity.
    lia.
Qed.

(** The quotient of a positive number by a larger one is in [0, 1]. *)
Lemma div_le_one (m1 m2 : positive) (e1 e2 : Z) :
  -149 <= e1 -> -149 <= e2 ->
  Zpos m1 * 2 ^ (e1 + 149) <= Zpos m2 * 2 ^ (e2 + 149) ->
  F32.leb F32.zero (F32.div (S754_finite false m1 e1) (S754_finite false m2 e2)) = true
  /\ F32.leb (F32.div (S754_finite false m1 e1) (S754_finite false m2 e2)) F32.one = true.
Proof.
  intros He1 He2 Hle.
  destruct (SFdiv_finite 24 128 prec32_pos false false m1 m2 e1 e2) as (H & Het & Br).
  cbv zeta in H, Het, Br.
  set (d1 := Zdigits2 (Zpos m1)) in *. set (d2 := Zdigits2 (Zpos m2)) in *.
  set (e' := Z.min (fexp 24 128 (d1 + e1 - (d2 + e2))) (e1 - e2)) in *.
  set (N := Zpos m1 * 2 ^ (e1 - e2 - e')) in *.
  set (t := fexp 24 128 (Zdigits2 (N / Zpos m2) + e')) in *.
  pose proof (pow2_pos (e1 + 149) ltac:(lia)) as P1.
  pose proof (pow2_pos (e2 + 149) ltac:(lia)) as P2.
  assert (Hd : d1 + e1 <= d2 + e2).
  { assert (H0 : 0 <= Zpos m1 * 2 ^ (e1 + 149)) by (apply Z.mul_nonneg_nonneg; lia).
    pose proof (Zdigits2_mono _ _ (conj H0 Hle)) as M.
    rewrite !Zdigits2_mul_pow2 in M by lia. unfold d1, d2. lia. }
  assert (He' : e' <= -24).
  { unfold e', fexp. change (emin 24 128) with (-149). lia. }
  assert (Hs : 0 <= e1 - e2 - e') by (unfold e'; lia).
  pose proof (pow2_pos (- e') ltac:(lia)) as Pe'.
  pose proof (pow2_pos (e1 - e2 - e') Hs) as Ps.
  assert (HN : N <= Zpos m2 * 2 ^ (- e')).
  { apply (Z.mul_le_mono_pos_r _ _ (2 ^ (e2 + 149))); [exact P2|].
    assert (E1 : 2 ^ (e1 - e2 - e') * 2 ^ (e2 + 149) = 2 ^ (e1 + 149) * 2 ^ (- e'))
      by (rewrite <- !Z.pow_add_r by lia; f_equal; lia).
    unfold N.
    replace (Zpos m1 * 2 ^ (e1 - e2 - e') * 2 ^ (e2 + 149))
      with (Zpos m1 * 2 ^ (e1 + 149) * 2 ^ (- e'))
      by (rewrite <- !Z.mul_assoc, E1; reflexivity).
    replace (Zpos m2 * 2 ^ (- e') * 2 ^ (e2 + 149))
      with (Zpos m2 * 2 ^ (e2 + 149) * 2 ^ (- e')) by ring.
    apply Z.mul_le_mono_nonneg_r; [lia|exact Hle]. }
  assert (HN0 : 0 < N) by (unfold N; apply Z.mul_pos_pos; lia).
  assert (Hq : 0 <= N / Zpos m2 <= 2 ^ (- e')).
  { split; [apply Z.div_pos; lia|].
    apply Z.div_le_upper_bound; [lia|]. lia. }
  assert (Hdq : Zdigits2 (N / Zpos m2) <= - e' + 1).
  { apply Zdigits2_le; [lia|]. split; [lia|].
    rewrite Z.pow_add_r, Z.pow_1_r by lia. lia. }
  assert (Ht : t <= -23).
  { unfold t, fexp. change (emin 24 128) with (-149). lia. }
  unfold F32.div, F32.prec, F32.emax. rewrite H. cbn [xorb].
  apply finish_le_one; [exact Br|exact Ht|].
  intros E. apply rne_le.
  - pose proof (pow2_pos (t - e') ltac:(lia)). apply Z.mul_pos_pos; lia.
  - rewrite E.
    replace (2 ^ 23 * (Zpos m2 * 2 ^ (-23 - e'))) with (Zpos m2 * (2 ^ 23 * 2 ^ (-23 - e'))) by ring.
    rewrite <- Z.pow_add_r by lia.
    replace (23 + (-23 - e')) with (- e') by lia. exact HN.
Qed.

(** * Histogram intersection *)

Lemma intersection_loop_minima (h1 : HistogramType) :
  forall (h2 : HistogramType) (acc : float),
    intersection_loop h1 h2 acc = fold_left F32.add (minima h1 h2) acc.
Proof.
  induction h1 as [|x rest IH]; intros [|y rest2] acc; try reflexivity.
  cbn [intersection_loop minima combine map fold_left fst snd]. apply IH.
Qed.

Lemma ltb_irrefl (x : float) : F32.ltb x x = false.
Proof.
  destruct x as [s|s| |s m e]; try (destruct s; reflexivity); try reflexivity.
  unfold F32.ltb, SFltb, SFcompare. rewrite Z.compare_refl, Pos.compare_cont_refl.
  destruct s; reflexivity.
Qed.

Lemma minima_self (h : HistogramType) : minima h h = h.
Proof.
  induction h as [|x rest IH]; [reflexivity|].
  unfold minima in *. cbn [combine map fst snd]. rewrite IH.
  unfold std_min. rewrite ltb_irrefl. reflexivity.
Qed.

Lemma finite_positive (x : float) :
  F32.is_finite x = true -> F32.ltb F32.zero x = true ->
  exists m e, x = S754_finite false m e.
Proof.
  intros Hf Hp. destruct x as [s|s| |s m e]; try discriminate;
    destruct s; try discriminate. exists m, e. reflexivity.
Qed.

(** C6 (amended).  A histogram of fewer than 2 ^ 32 bins (the loop over the
    bins counts them in an [unsigned int]) whose accumulated total is finite
    and strictly positive has intersection exactly 1.0 with itself. *)
Theorem intersection_self (h : HistogramType) :
  Z.of_nat (length h) < 2 ^ 32 ->
  F32.is_finite (accumulate h) = true ->
  F32.ltb F32.zero (accumulate h) = true ->
  HistogramIntersection h h = {| cerr := ""; returned := F32.one |}.
Proof.
  intros _ Hfin Hpos. unfold HistogramIntersection.
  rewrite Nat.eqb_refl. cbn [negb].
  rewrite intersection_loop_minima, minima_self. fold (accumulate h).
  destruct (finite_positive _ Hfin Hpos) as (m & e & E). rewrite E.
  rewrite div_self. reflexivity.
Qed.

Lemma intersection_self_witness :
  HistogramIntersection (map F32.of_Z [3; 0; 7; 2]) (map F32.of_Z [3; 0; 7; 2])
  = {| cerr := ""; returned := F32.one |}.
Proof.
  apply (intersection_self (map F32.of_Z [3; 0; 7; 2])).
  - cbn. lia.
  - vm_compute. reflexivity.
  - vm_compute. reflexivity.
Defined.

(** Counterexample to C6 as stated: the total of two counts of 3e38 is
    +infinity, which is strictly positive, and the self-intersection is NaN. *)
Lemma intersection_self_overflow :
  let h := [F32.of_Z (3 * 10 ^ 38); F32.of_Z (3 * 10 ^ 38)] in
  F32.ltb F32.zero (accumulate h) = true
  /\ returned (HistogramIntersection h h) = S754_nan
  /\ F32.eqb (returned (HistogramIntersection h h)) F32.one = false.
Proof. vm_compute. repeat split; reflexivity. Qed.

(** C7 (amended).  For equal-length histograms of non-negative numbers,
    of fewer than 2 ^ 32 bins (the loop over the bins counts them in an
    [unsigned int]), the first with a finite strictly positive total,
    [HistogramIntersection] returns the accumulated per-bin minima divided by
    the accumulated bins of the first histogram, and this number is in
    [0, 1]. *)
Theorem intersection_normalized (h1 h2 : HistogramType) :
  length h1 = length h2 ->
  Z.of_nat (length h1) < 2 ^ 32 ->
  Forall nonneg32 h1 -> Forall nonneg32 h2 ->
  F32.is_finite (accumulate h1) = true ->
  F32.ltb F32.zero (accumulate h1) = true ->
  let r := returned (HistogramIntersection h1 h2) in
  r = F32.div (fold_left F32.add (minima h1 h2) F32.zero) (accumulate h1)
  /\ F32.leb F32.zero r = true /\ F32.leb r F32.one = true.
Proof.
  intros Hlen _ H1 H2 Hfin Hpos r. subst r.
  unfold HistogramIntersection. rewrite Hlen, Nat.eqb_refl. cbn [negb returned].
  split; [rewrite intersection_loop_minima; reflexivity|].
  destruct (intersection_below_total h1 h2 F32.zero F32.zero Hlen H1 H2
              nonneg32_zero nonneg32_zero ltac:(lia)) as (N1 & Hle & N2).
  fold (accumulate h1) in Hle, N2.
  destruct (finite_positive _ Hfin Hpos) as (m2 & e2 & E2). rewrite E2 in *.
  destruct (nonneg32_cases _ N2) as [[s A]|[A|(m & e & A & C2 & B2)]]; try discriminate.
  injection A as <- <-.
  destruct (canonical_bounds m2 e2 C2) as (He2 & _).
  destruct (scaled_valid m2 e2 C2 B2) as [_ Lt2].
  set (a := intersection_loop h1 h2 F32.zero) in *.
  cbn [scaled] in Hle.
  destruct (nonneg32_cases _ N1) as [[s A]|[A|(m1 & e1 & A & C1 & B1)]]; rewrite A in *.
  - unfold F32.div. cbn [SFdiv xorb]. destruct s; split; reflexivity.
  - cbn [scaled] in Hle. lia.
  - destruct (canonical_bounds m1 e1 C1) as (He1 & _).
    cbn [scaled] in Hle. apply div_le_one; assumption.
Qed.

Lemma intersection_normalized_witness :
  let h1 := map F32.of_Z [3; 0; 7; 2] in
  let h2 := map F32.of_Z [1; 5; 7; 0] in
  let r := returned (HistogramIntersection h1 h2) in
  r = F32.div (fold_left F32.add (minima h1 h2) F32.zero) (accumulate h1)
  /\ F32.leb F32.zero r = true /\ F32.leb r F32.one = true.
Proof.
  intros h1 h2.
  apply (intersection_normalized h1 h2).
  - reflexivity.
  - cbn. lia.
  - repeat constructor; vm_compute; reflexivity.
  - repeat constructor; vm_compute; reflexivity.
  - vm_compute. reflexivity.
  - vm_compute. reflexivity.
Defined.

(** Counterexample to C7 as stated: non-negative histograms whose total
    overflows to infinity have the intersection NaN, which is not in [0, 1]. *)
Lemma intersection_overflow :
  let h := [F32.of_Z (3 * 10 ^ 38); F32.of_Z (3 * 10 ^ 38)] in
  Forall nonneg32 h
  /\ F32.ltb F32.zero (accumulate h) = true
  /\ returned (HistogramIntersection h h) = S754_nan
  /\ F32.leb F32.zero (returned (HistogramIntersection h h)) = false.
Proof.
  intros h. split; [|vm_compute; repeat split; reflexivity].
  repeat constructor; vm_compute; reflexivity.
Qed.

(** ** Written text *)

Lemma no_space_app (a b : string) :
  no_space (a ++ b) = no_space a && no_space b.
Proof.
  induction a as [|c a IH]; cbn [append no_space]; [reflexivity|].
  rewrite IH, andb_assoc. reflexivity.
Qed.

Lemma string_length_app (a b : string) :
  String.length (a ++ b) = (String.length a + String.length b)%nat.
Proof. induction a as [|c a IH]; cbn; [reflexivity|]. rewrite IH. reflexivity. Qed.

Lemma digit_char_no_space (d : Z) :
  0 <= d < 10 -> Istream.is_space (Ostream.digit_char d) = false.
Proof.
  intros Hd.
  assert (C : d = 0 \/ d = 1 \/ d = 2 \/ d = 3 \/ d = 4 \/ d = 5 \/ d = 6
              \/ d = 7 \/ d = 8 \/ d = 9) by lia.
  repeat (destruct C as [->|C]; [reflexivity|]). subst d. reflexivity.
Qed.

Lemma fixed_digits_no_space (w : nat) :
  forall (n : Z) (acc : string),
    no_space acc = true -> no_space (Ostream.fixed_digits w n acc) = true.
Proof.
  induction w as [|w IH]; intros n acc Hacc; cbn [Ostream.fixed_digits]; [exact Hacc|].
  apply IH. cbn [no_space].
  rewrite digit_char_no_space by (apply Z.mod_pos_bound; lia). exact Hacc.
Qed.

Lemma fixed_digits_length (w : nat) :
  forall (n : Z) (acc : string),
    String.length (Ostream.fixed_digits w n acc) = (w + String.length acc)%nat.
Proof.
  induction w as [|w IH]; intros n acc; cbn [Ostream.fixed_digits]; [reflexivity|].
  rewrite IH. cbn [String.length]. lia.
Qed.

Lemma show_nat_no_space (n : Z) : no_space (Ostream.show_nat n) = true.
Proof. apply fixed_digits_no_space. reflexivity. Qed.

Lemma dec_width_pos (fuel : nat) (n : Z) : (1 <= Ostream.dec_width fuel n)%nat.
Proof. destruct fuel; cbn [Ostream.dec_width]; [lia|]. destruct (n <? 10); lia. Qed.

Lemma show_nat_length (n : Z) : (1 <= String.length (Ostream.show_nat n))%nat.
Proof.
  unfold Ostream.show_nat. rewrite fixed_digits_length.
  pose proof (dec_width_pos 60 n). lia.
Qed.

Lemma show_fraction_no_space (w : nat) (n : Z) :
  no_space (Ostream.show_fraction w n) = true.
Proof.
  unfold Ostream.show_fraction. destruct (Ostream.strip_zeros w n) as [w' f].
  destruct w'; [reflexivity|].
  change ("." ++ Ostream.fixed_digits (S w') f "")%string
    with (String "." (Ostream.fixed_digits (S w') f "")).
  cbn [no_space]. rewrite fixed_digits_no_space by reflexivity. reflexivity.
Qed.

Lemma show_exponent_no_space (x : Z) : no_space (Ostream.show_exponent x) = true.
Proof.
  unfold Ostream.show_exponent. rewrite !no_space_app, show_nat_no_space.
  destruct (x <? 0); destruct (Z.abs x <? 10); reflexivity.
Qed.

Lemma show_positive_ok (num den : Z) :
  no_space (Ostream.show_positive num den) = true
  /\ (1 <= String.length (Ostream.show_positive num den))%nat.
Proof.
  unfold Ostream.show_positive. destruct (Ostream.significand num den) as [r x].
  destruct ((x <? -4) || (6 <=? x)); [|destruct (x <? 0)].
  - rewrite !no_space_app, show_nat_no_space, show_fraction_no_space,
      show_exponent_no_space. split; [reflexivity|].
    rewrite string_length_app. pose proof (show_nat_length (r / 100000)). lia.
  - rewrite no_space_app, show_fraction_no_space. split; [reflexivity|].
    rewrite string_length_app. cbn [String.length]. lia.
  - rewrite no_space_app, show_nat_no_space, show_fraction_no_space.
    split; [reflexivity|].
    rewrite string_length_app. pose proof (show_nat_length (r / 10 ^ (5 - x))). lia.
Qed.

Lemma show_float_ok (x : float) :
  no_space (Ostream.show_float x) = true
  /\ (1 <= String.length (Ostream.show_float x))%nat.
Proof.
  destruct x as [s|s| |s m e]; cbn [Ostream.show_float];
    try (destruct s; (split; [reflexivity|cbn; lia])); try (split; [reflexivity|cbn; lia]).
  rewrite no_space_app, string_length_app.
  assert (H : forall num den,
             no_space (if s then "-" else "")%string && no_space (Ostream.show_positive num den) = true
             /\ (1 <= String.length (if s then "-" else "")%string
                      + String.length (Ostream.show_positive num den))%nat).
  { intros num den. destruct (show_positive_ok num den) as [H1 H2].
    rewrite H1. destruct s; (split; [reflexivity|cbn; lia]). }
  destruct e; apply H.
Qed.

Lemma words_from_word (w : string) :
  forall (text word : string),
    no_space w = true ->
    Istream.words_from (w ++ text) word = Istream.words_from text (word ++ w).
Proof.
  induction w as [|c w IH]; intros text word Hw; cbn [append].
  - replace (word ++ "")%string with word; [reflexivity|].
    clear. induction word as [|c word IH]; cbn; [reflexivity|]. rewrite <- IH. reflexivity.
  - cbn [no_space] in Hw. apply andb_prop in Hw. destruct Hw as [Hc Hw].
    cbn [Istream.words_from]. apply negb_true_iff in Hc. rewrite Hc.
    rewrite IH by exact Hw. f_equal.
    clear. induction word as [|d word IH]; cbn; [reflexivity|]. rewrite IH. reflexivity.
Qed.

Lemma words_stream (h : HistogramType) :
  Istream.words (stream_histogram h) = map Ostream.show_float h.
Proof.
  unfold Istream.words. induction h as [|x rest IH]; [reflexivity|].
  cbn [stream_histogram map].
  destruct (show_float_ok x) as [Hs Hl].
  rewrite words_from_word by exact Hs.
  cbn [append Istream.words_from]. change (Istream.is_space " ") with true. cbv iota.
  destruct (Ostream.show_float x) as [|c s] eqn:E; [cbn in Hl; lia|].
  rewrite IH. reflexivity.
Qed.

Lemma read_stream (h : HistogramType) :
  Forall reads_back h -> Istream.ReadHistogram (stream_histogram h) = Some h.
Proof.
  intros H. unfold Istream.ReadHistogram. rewrite words_stream.
  induction H as [|x rest Hx Hrest IH]; [reflexivity|].
  cbn [map Istream.parse_all]. rewrite Hx, IH. reflexivity.
Qed.

(** ** Structure of [ScalarHistogram] *)

Lemma increment_length (bins : HistogramType) :
  forall (i : nat) (bins' : HistogramType),
    increment bins i = Some bins' -> length bins' = length bins.
Proof.
  induction bins as [|b bs IH]; intros [|i] bins' H; cbn in H; try discriminate.
  - injection H as <-. reflexivity.
  - destruct (increment bs i) as [bs'|] eqn:E; [|discriminate].
    injection H as <-. cbn. f_equal. eapply IH. exact E.
Qed.

Lemma increment_last (bins : HistogramType) (last : float) :
  increment (bins ++ [last]) (length (bins ++ [last]) - 1)
  = Some (bins ++ [F32.incr last]).
Proof.
  rewrite length_app. cbn [length].
  replace (length bins + 1 - 1)%nat with (length bins) by lia.
  induction bins as [|b bs IH]; cbn [app length increment]; [reflexivity|].
  rewrite IH. reflexivity.
Qed.

Lemma increment_first (b : float) (bs : HistogramType) :
  increment (b :: bs) 0 = Some (F32.incr b :: bs).
Proof. reflexivity. Qed.

Section Structure.

Context {TValue : Type} `{Sample TValue}.
Variable numberOfBins : Z.
Variables rangeMin rangeMax : TValue.

Lemma bin_sample_length (count i : nat) (v : TValue) (bins bins' : HistogramType) :
  bin_sample numberOfBins rangeMin rangeMax count i v bins = Ok bins' ->
  length bins' = length bins.
Proof.
  unfold bin_sample. intros E.
  destruct (sample_eqb v rangeMax).
  - destruct (increment bins (length bins - 1)) eqn:I; [|discriminate].
    injection E as <-. eapply increment_length. exact I.
  - destruct (F32.to_int _) as [bin|]; [|discriminate].
    destruct (bin <? 0); [discriminate|].
    destruct (bin >=? numberOfBins); [discriminate|].
    destruct (increment bins (Z.to_nat bin)) eqn:I; [|discriminate].
    injection E as <-. eapply increment_length. exact I.
Qed.

Lemma bin_loop_length (count : nat) (values : list TValue) :
  forall (i : nat) (bins bins' : HistogramType),
    bin_loop numberOfBins rangeMin rangeMax count i values bins = Ok bins' ->
    length bins' = length bins.
Proof.
  induction values as [|v rest IH]; intros i bins bins' E; cbn [bin_loop] in E.
  - injection E as <-. reflexivity.
  - destruct (bin_sample numberOfBins rangeMin rangeMax count i v bins) as [b| |] eqn:S;
      try discriminate.
    rewrite (IH _ _ _ E). eapply bin_sample_length. exact S.
Qed.

Lemma ScalarHistogram_length (values : list TValue) (bins : HistogramType) :
  ScalarHistogram numberOfBins rangeMin rangeMax values = Ok bins ->
  length bins = Z.to_nat numberOfBins.
Proof.
  unfold ScalarHistogram. intros E.
  destruct (degenerate (binWidth numberOfBins rangeMin rangeMax)).
  - injection E as <-. apply repeat_length.
  - rewrite (bin_loop_length _ _ _ _ _ E). apply repeat_length.
Qed.

End Structure.

Lemma repeat_snoc {A : Type} (x : A) (k : nat) : repeat x (S k) = repeat x k ++ [x].
Proof. induction k as [|k IH]; [reflexivity|]. cbn [repeat app] in *. rewrite <- IH. reflexivity. Qed.

(** C3.  With at least one bin and a bin width that is not degenerate, a
    sample equal to [rangeMax] increments the last bin and raises no error,
    whatever the sample type and its largest value: every iteration of the
    loop on such a sample adds one to the last bin, and the histogram of this
    one sample is zero except for a one in the last bin. *)
Theorem range_max_counted_in_last_bin {TValue : Type} `{Sample TValue}
    (numberOfBins : Z) (rangeMin rangeMax v : TValue) :
  1 <= numberOfBins ->
  degenerate (binWidth numberOfBins rangeMin rangeMax) = false ->
  sample_eqb v rangeMax = true ->
  (forall (count i : nat) (bins : HistogramType) (last : float),
      bin_sample numberOfBins rangeMin rangeMax count i v (bins ++ [last])
      = Ok (bins ++ [F32.incr last]))
  /\ ScalarHistogram numberOfBins rangeMin rangeMax [v]
     = Ok (repeat F32.zero (Z.to_nat numberOfBins - 1) ++ [F32.one]).
Proof.
  intros Hn Hdeg Heq.
  assert (Step : forall count i bins last,
             bin_sample numberOfBins rangeMin rangeMax count i v (bins ++ [last])
             = Ok (bins ++ [F32.incr last])).
  { intros count i bins last. unfold bin_sample. rewrite Heq, increment_last. reflexivity. }
  split; [exact Step|].
  unfold ScalarHistogram. rewrite Hdeg.
  replace (Z.to_nat numberOfBins) with (S (Z.to_nat numberOfBins - 1)) at 1 by lia.
  rewrite repeat_snoc. cbn [bin_loop]. rewrite Step. reflexivity.
Qed.

Lemma range_max_counted_in_last_bin_witness :
  (forall (count i : nat) (bins : HistogramType) (last : float),
      bin_sample 4 (0 : uchar) 255 count i 255 (bins ++ [last])
      = Ok (bins ++ [F32.incr last]))
  /\ ScalarHistogram 4 (0 : uchar) 255 [255]
     = Ok [F32.zero; F32.zero; F32.zero; F32.one].
Proof.
  apply (range_max_counted_in_last_bin 4 (0 : uchar) 255 255).
  - lia.
  - vm_compute. reflexivity.
  - reflexivity.
Defined.

(** C4.  When the bin width is within 1e-6 of zero, [ScalarHistogram]
    returns [numberOfBins] zeros without looking at the samples, and raises
    no error. *)
Theorem degenerate_range_gives_zero_histogram {TValue : Type} `{Sample TValue}
    (numberOfBins : Z) (rangeMin rangeMax : TValue) (values : list TValue) :
  degenerate (binWidth numberOfBins rangeMin rangeMax) = true ->
  ScalarHistogram numberOfBins rangeMin rangeMax values
  = Ok (repeat F32.zero (Z.to_nat numberOfBins))
  /\ length (repeat F32.zero (Z.to_nat numberOfBins)) = Z.to_nat numberOfBins.
Proof.
  intros Hdeg. unfold ScalarHistogram. rewrite Hdeg.
  split; [reflexivity|apply repeat_length].
Qed.

Lemma degenerate_range_gives_zero_histogram_witness :
  ScalarHistogram 3 (7 : uchar) 7 [1; 2; 3; 200]
  = Ok (repeat F32.zero (Z.to_nat 3))
  /\ length (repeat F32.zero (Z.to_nat 3)) = Z.to_nat 3.
Proof.
  apply (degenerate_range_gives_zero_histogram 3 (7 : uchar) 7 [1; 2; 3; 200]).
  vm_compute. reflexivity.
Defined.

(** A zero-width range of [unsigned char] is degenerate. *)
Lemma equal_range_degenerate (numberOfBins : Z) (r : uchar) :
  0 < numberOfBins < 2 ^ 32 -> degenerate (binWidth numberOfBins r r) = true.
Proof.
  intros Hn. destruct (of_Z_uint numberOfBins Hn) as (mn & en & On & _).
  unfold binWidth. cbn [sample_diff Sample_uchar]. rewrite Z.sub_diag, On.
  reflexivity.
Qed.

(** C8.  For histograms of unequal lengths, [HistogramIntersection] writes
    its message on [std::cerr] and returns 0; it cannot throw. *)
Theorem intersection_length_mismatch (histogram1 histogram2 : HistogramType) :
  length histogram1 <> length histogram2 ->
  HistogramIntersection histogram1 histogram2
  = {| cerr := "Histograms must be the same size!" ++ endl;
       returned := F32.zero |}.
Proof.
  intros Hne. unfold HistogramIntersection.
  destruct (Nat.eqb_spec (length histogram1) (length histogram2)); [contradiction|].
  reflexivity.
Qed.

Lemma intersection_length_mismatch_witness :
  HistogramIntersection (map F32.of_Z [3; 0; 7; 2]) (map F32.of_Z [1; 5; 7])
  = {| cerr := "Histograms must be the same size!" ++ endl;
       returned := F32.zero |}.
Proof.
  apply (intersection_length_mismatch (map F32.of_Z [3; 0; 7; 2]) (map F32.of_Z [1; 5; 7])).
  cbn. lia.
Defined.

(** C10 (amended).  An [unsigned char] sample below [rangeMin] by less than
    one bin width gets the bin index 0 by truncation toward zero: no error is
    raised and the first bin is incremented. *)
Theorem below_range_counted_in_first_bin
    (numberOfBins : Z) (rangeMin rangeMax v : uchar) :
  is_uchar rangeMin -> is_uchar rangeMax -> is_uchar v ->
  1 <= numberOfBins < 2 ^ 32 ->
  degenerate (binWidth numberOfBins rangeMin rangeMax) = false ->
  F32.ltb F32.zero (binWidth numberOfBins rangeMin rangeMax) = true ->
  v < rangeMin ->
  F32.ltb (F32.of_Z (rangeMin - v)) (binWidth numberOfBins rangeMin rangeMax) = true ->
  F32.to_int (F32.div (sample_diff v rangeMin)
                (binWidth numberOfBins rangeMin rangeMax)) = Some 0
  /\ (forall (count i : nat) (first : float) (bins : HistogramType),
         bin_sample numberOfBins rangeMin rangeMax count i v (first :: bins)
         = Ok (F32.incr first :: bins))
  /\ ScalarHistogram numberOfBins rangeMin rangeMax [v]
     = Ok (F32.one :: repeat F32.zero (Z.to_nat numberOfBins - 1)).
Proof.
  intros Hmin Hmax Hv Hn Hdeg Hpos Hlt Hnear.
  pose proof (binWidth_positive numberOfBins rangeMin rangeMax Hmin Hmax
                ltac:(lia) Hpos) as Hrange.
  pose proof (bin_index_below numberOfBins rangeMin rangeMax v Hmin Hmax Hv
                ltac:(lia) Hlt Hpos Hnear) as Hbin.
  assert (Step : forall count i first bins,
             bin_sample numberOfBins rangeMin rangeMax count i v (first :: bins)
             = Ok (F32.incr first :: bins)).
  { intros count i first bins. unfold bin_sample.
    cbn [sample_eqb sample_diff Sample_uchar].
    destruct (Z.eqb_spec v rangeMax); [lia|].
    rewrite Hbin. cbn [Z.ltb Z.compare].
    destruct (Z.geb_spec 0 numberOfBins); [lia|]. reflexivity. }
  split; [exact Hbin|]. split; [exact Step|].
  unfold ScalarHistogram. rewrite Hdeg.
  replace (Z.to_nat numberOfBins) with (S (Z.to_nat numberOfBins - 1)) at 1 by lia.
  cbn [repeat bin_loop]. rewrite Step. reflexivity.
Qed.

Lemma below_range_counted_in_first_bin_witness :
  F32.to_int (F32.div (sample_diff (5 : uchar) 10) (binWidth 1 (10 : uchar) 250)) = Some 0
  /\ (forall (count i : nat) (first : float) (bins : HistogramType),
         bin_sample 1 (10 : uchar) 250 count i 5 (first :: bins)
         = Ok (F32.incr first :: bins))
  /\ ScalarHistogram 1 (10 : uchar) 250 [5]
     = Ok (F32.one :: repeat F32.zero (Z.to_nat 1 - 1)).
Proof.
  apply (below_range_counted_in_first_bin 1 10 250 5);
    try (unfold is_uchar; lia); vm_compute; reflexivity.
Defined.

(** C2.  The sample 90 is below [rangeMin = 100], yet no error is raised: it
    is counted in the first of the four bins of [[100, 200]]. *)
Theorem sample_below_range_not_reported :
  ScalarHistogram 4 (100 : uchar) 200 [90]
  = Ok [F32.one; F32.zero; F32.zero; F32.zero].
Proof. vm_compute. reflexivity. Qed.

(** Counterexample to C10 as stated, with [float] samples: [v] is above
    [rangeMin - binWidth] and below [rangeMin], but [v - rangeMin] rounds to
    [- binWidth], the bin index is -1 and the error is raised. *)
Lemma float_sample_below_range_rejected :
  let rangeMin : float := F32.one in
  let rangeMax : float := S754_finite false 12582913 (-22) in
  let v : float := S754_finite true 16777215 (-47) in
  let w := binWidth 2 rangeMin rangeMax in
  degenerate w = false
  /\ F32.ltb F32.zero w = true
  /\ F32.ltb (F32.sub rangeMin w) v = true
  /\ F32.ltb v rangeMin = true
  /\ exists d, ScalarHistogram 2 rangeMin rangeMax [v] = Throw d /\ diag_bin d = -1.
Proof.
  cbv zeta. repeat split; try (vm_compute; reflexivity).
  eexists. split; vm_compute; reflexivity.
Qed.

(** With [float] samples an in-range sample can be rejected: 100 bins over
    [[0, 1]] and the largest [float] below 1. *)
Lemma float_sample_below_max_rejected :
  let v : float := S754_finite false 16777215 (-24) in
  F32.leb F32.zero v = true /\ F32.leb v F32.one = true
  /\ exists d, ScalarHistogram 100 F32.zero F32.one [v] = Throw d /\ diag_bin d = 100.
Proof.
  cbv zeta. repeat split; try (vm_compute; reflexivity).
  eexists. split; vm_compute; reflexivity.
Qed.

(** ** The concatenated histogram *)

Lemma concat_segment {A : Type} (k : nat) (hs : list (list A)) :
  Forall (fun h => length h = k) hs ->
  length (concat hs) = (length hs * k)%nat
  /\ forall j, (j < length hs)%nat ->
       firstn k (skipn (j * k) (concat hs)) = nth j hs [].
Proof.
  induction 1 as [|h rest Hh Hrest [IHl IHs]]; cbn [concat length].
  - split; [reflexivity|]. intros j Hj. lia.
  - split; [rewrite length_app, IHl, Hh; lia|].
    intros [|j] Hj.
    + cbn [Nat.mul skipn nth]. rewrite firstn_app, <- Hh, firstn_all, Nat.sub_diag.
      cbn [firstn]. apply app_nil_r.
    + cbn [nth]. replace (S j * k)%nat with (length h + j * k)%nat by lia.
      rewrite skipn_app, skipn_all2 by lia.
      replace (length h + j * k - length h)%nat with (j * k)%nat by lia.
      cbn [app]. apply IHs. lia.
Qed.

Section MultiChannelFacts.

Context {TValue : Type} `{Sample TValue}.
Variables Image ScalarImage Region : Type.
Variable GetNumberOfComponentsPerPixel : Image -> nat.
Variable ExtractChannel : Image -> nat -> ScalarImage.
Variable GetPixelValuesInRegion : ScalarImage -> Region -> list TValue.
Variable image : Image.
Variable region : Region.
Variable numberOfBinsPerDimensions : Z.
Variables rangeMin rangeMax : TValue.

Local Abbreviation histogram_of :=
  (channel_histogram Image ScalarImage Region ExtractChannel GetPixelValuesInRegion
     image region numberOfBinsPerDimensions rangeMin rangeMax).

Local Abbreviation loop :=
  (channel_loop Image ScalarImage Region ExtractChannel GetPixelValuesInRegion
     image region numberOfBinsPerDimensions rangeMin rangeMax).

Lemma channel_loop_concat (remaining : nat) :
  forall (channel : nat) (acc : HistogramType),
    (forall j, (channel <= j < channel + remaining)%nat ->
               exists h, histogram_of j = Ok h) ->
    exists hs,
      loop channel remaining acc = Ok (acc ++ concat hs)
      /\ length hs = remaining
      /\ Forall (fun h => length h = Z.to_nat numberOfBinsPerDimensions) hs
      /\ forall i, (i < remaining)%nat -> histogram_of (channel + i) = Ok (nth i hs []).
Proof.
  induction remaining as [|remaining IH]; intros channel acc Hall.
  - exists []. cbn. rewrite app_nil_r. repeat split; auto. intros i Hi. lia.
  - destruct (Hall channel ltac:(lia)) as [h Hh].
    destruct (IH (S channel) (acc ++ h)) as (hs & L & Len & Lens & Nth).
    { intros j Hj. apply Hall. lia. }
    exists (h :: hs). cbn [channel_loop]. rewrite Hh, L.
    cbn [concat length]. rewrite app_assoc.
    repeat split; auto.
    + constructor; [|exact Lens].
      eapply ScalarHistogram_length. exact Hh.
    + intros [|i] Hi; cbn [nth].
      * rewrite Nat.add_0_r. exact Hh.
      * replace (channel + S i)%nat with (S channel + i)%nat by lia. apply Nth. lia.
Qed.

(** C5.  When the call of [ScalarHistogram] on the samples of every channel
    returns (the samples of a channel are counted in an [unsigned int]), the
    result is the histograms of the channels in increasing channel order: its
    length is the number of components times the number of bins, and the
    entries [k * channel .. k * channel + k - 1] are the scalar histogram of
    the samples of that channel alone, the values of the region in the
    extracted channel. *)
Theorem concatenated_histogram_per_channel :
  let components := GetNumberOfComponentsPerPixel image in
  let k := Z.to_nat numberOfBinsPerDimensions in
  (forall channel, (channel < components)%nat ->
     Z.of_nat (length (GetPixelValuesInRegion (ExtractChannel image channel) region))
     < 2 ^ 32
     /\ exists h,
          ScalarHistogram numberOfBinsPerDimensions rangeMin rangeMax
            (GetPixelValuesInRegion (ExtractChannel image channel) region) = Ok h) ->
  exists histogram,
    Compute1DConcatenatedHistogramOfMultiChannelImage
      Image ScalarImage Region GetNumberOfComponentsPerPixel ExtractChannel
      GetPixelValuesInRegion image region numberOfBinsPerDimensions
      rangeMin rangeMax = Ok histogram
    /\ length histogram = (components * k)%nat
    /\ forall channel, (channel < components)%nat ->
         ScalarHistogram numberOfBinsPerDimensions rangeMin rangeMax
           (GetPixelValuesInRegion (ExtractChannel image channel) region)
         = Ok (firstn k (skipn (channel * k) histogram)).
Proof.
  intros components k Hall.
  destruct (channel_loop_concat components 0 [])
    as (hs & L & Len & Lens & Nth).
  { intros j Hj. destruct (Hall j ltac:(lia)) as [_ Hj']. exact Hj'. }
  destruct (concat_segment k hs Lens) as [CL CS].
  exists (concat hs). unfold Compute1DConcatenatedHistogramOfMultiChannelImage.
  fold components. rewrite L. cbn [app].
  split; [reflexivity|]. split; [rewrite CL, Len; reflexivity|].
  intros channel Hc. rewrite CS by lia. exact (Nth channel Hc).
Qed.

End MultiChannelFacts.

Lemma concatenated_histogram_per_channel_witness :
  let image : list (list uchar) := [[0; 255; 128]; [10; 20; 30]; [255; 255; 0]] in
  let extract := fun (img : list (list uchar)) (c : nat) => nth c img [] in
  let pixels := fun (ch : list uchar) (_ : unit) => ch in
  exists histogram,
    Compute1DConcatenatedHistogramOfMultiChannelImage
      (list (list uchar)) (list uchar) unit (@length (list uchar)) extract pixels
      image tt 2 0 255 = Ok histogram
    /\ length histogram = (3 * 2)%nat
    /\ forall channel, (channel < 3)%nat ->
         ScalarHistogram 2 (0 : uchar) 255 (pixels (extract image channel) tt)
         = Ok (firstn 2 (skipn (channel * 2) histogram)).
Proof.
  intros image extract pixels.
  apply (concatenated_histogram_per_channel (list (list uchar)) (list uchar) unit
           (@length (list uchar)) extract pixels image tt 2 0 255).
  intros channel Hc.
  destruct channel as [|[|[|channel]]]; [| | |cbn in Hc; lia];
    (split; [cbn; lia|eexists; vm_compute; reflexivity]).
Defined.

(** ** Integer counts: printed and read back *)

Lemma dec_exponent_spec (num den X : Z) :
  forall (fuel : nat) (x0 : Z),
    x0 <= X -> X - x0 < Z.of_nat fuel ->
    (forall y, x0 < y <= X -> Ostream.pow10_le y num den = true) ->
    Ostream.pow10_le (X + 1) num den = false ->
    Ostream.dec_exponent fuel x0 num den = X.
Proof.
  induction fuel as [|fuel IH]; intros x0 Hle Hfuel Hbelow Habove; [lia|].
  cbn [Ostream.dec_exponent].
  destruct (Z.eq_dec x0 X) as [->|Hne].
  - rewrite Habove. reflexivity.
  - rewrite (Hbelow (x0 + 1)) by lia.
    apply IH; [lia|lia| |exact Habove].
    intros y Hy. apply Hbelow. lia.
Qed.

Lemma strip_zeros_zero (w : nat) : Ostream.strip_zeros w 0 = (0%nat, 0).
Proof. induction w as [|w IH]; [reflexivity|]. cbn [Ostream.strip_zeros]. exact IH. Qed.

Lemma string_app_nil_r (s : string) : (s ++ "")%string = s.
Proof. induction s as [|c s IH]; cbn; [reflexivity|]. rewrite IH. reflexivity. Qed.

(** An integer with at most six digits is printed as its decimal numeral. *)
Lemma show_positive_integer (c D : Z) :
  0 < D -> 1 <= c < 1000000 ->
  Ostream.show_positive (c * D) D = Ostream.show_nat c.
Proof.
  intros HD Hc.
  assert (HX : exists X, 0 <= X <= 5 /\ 10 ^ X <= c < 10 ^ (X + 1)).
  { destruct (Z.lt_ge_cases c 10); [exists 0; cbn; lia|].
    destruct (Z.lt_ge_cases c 100); [exists 1; cbn; lia|].
    destruct (Z.lt_ge_cases c 1000); [exists 2; cbn; lia|].
    destruct (Z.lt_ge_cases c 10000); [exists 3; cbn; lia|].
    destruct (Z.lt_ge_cases c 100000); [exists 4; cbn; lia|].
    exists 5. cbn. lia. }
  destruct HX as (X & BX & HcX).
  assert (Hx : Ostream.dec_exponent 100 (-50) (c * D) D = X).
  { apply dec_exponent_spec; [lia|lia| |].
    - intros y Hy. unfold Ostream.pow10_le.
      destruct (Z.leb_spec 0 y) as [Hy0|Hy0].
      + apply Z.leb_le. apply Z.mul_le_mono_nonneg_r; [lia|].
        pose proof (Z.pow_le_mono_r 10 y X ltac:(lia) ltac:(lia)). lia.
      + apply Z.leb_le.
        pose proof (Z.pow_pos_nonneg 10 (- y) ltac:(lia) ltac:(lia)) as Pp.
        assert (1 * D <= c * 10 ^ (- y) * D).
        { apply Z.mul_le_mono_nonneg_r; [lia|].
          assert (1 * 1 <= c * 10 ^ (- y)) by (apply Z.mul_le_mono_nonneg; lia). lia. }
        lia.
    - unfold Ostream.pow10_le.
      destruct (Z.leb_spec 0 (X + 1)); [|lia].
      apply Z.leb_gt. apply Z.mul_lt_mono_pos_r; lia. }
  pose proof (Z.pow_pos_nonneg 10 (5 - X) ltac:(lia) ltac:(lia)) as Pp.
  assert (Hr : Ostream.round_half_even (c * D * 10 ^ (5 - X)) D = c * 10 ^ (5 - X)).
  { unfold Ostream.round_half_even.
    replace (c * D * 10 ^ (5 - X)) with (c * 10 ^ (5 - X) * D) by ring.
    rewrite Z.mod_mul, Z.div_mul by lia.
    destruct (Z.ltb_spec D (2 * 0)); [lia|].
    destruct (Z.eqb_spec D (2 * 0)); [lia|]. reflexivity. }
  assert (Hlt : c * 10 ^ (5 - X) < 1000000).
  { assert (E : 10 ^ (X + 1) * 10 ^ (5 - X) = 1000000).
    { rewrite <- Z.pow_add_r by lia. replace (X + 1 + (5 - X)) with 6 by lia. reflexivity. }
    rewrite <- E. apply Z.mul_lt_mono_pos_r; lia. }
  unfold Ostream.show_positive, Ostream.significand. rewrite Hx.
  destruct (Z.leb_spec 0 (5 - X)); [|lia].
  rewrite Hr.
  destruct (Z.eqb_spec (c * 10 ^ (5 - X)) 1000000); [lia|].
  destruct (Z.ltb_spec X (-4)); [lia|].
  destruct (Z.leb_spec 6 X); [lia|]. cbn [orb].
  destruct (Z.ltb_spec X 0); [lia|].
  rewrite Z.div_mul, Z.mod_mul by lia.
  unfold Ostream.show_fraction. rewrite strip_zeros_zero.
  apply string_app_nil_r.
Qed.

Lemma show_float_count (c : Z) :
  0 <= c < 1000000 -> Ostream.show_float (F32.of_Z c) = Ostream.show_nat c.
Proof.
  intros Hc. destruct (Z.eq_dec c 0) as [->|Hne]; [reflexivity|].
  assert (Hc24 : 0 < c < 2 ^ 24) by (change (2 ^ 24) with 16777216; lia).
  rewrite of_Z_pos by exact Hc24.
  pose proof (int_m_bounds c Hc24) as Bm.
  pose proof (int_value c Hc24) as Hv.
  assert (Hd : Zdigits2 c <= 20)
    by (apply Zdigits2_le; [lia|change (2 ^ 20) with 1048576; lia]).
  assert (He : int_e c <= -4) by (unfold int_e; lia).
  cbn [Ostream.show_float append].
  destruct (int_e c) as [|p|p] eqn:Ee; try lia.
  rewrite Z2Pos.id by lia. rewrite Hv. cbn [Z.opp].
  apply show_positive_integer; [apply pow2_pos; lia|lia].
Qed.

(** ** Reading integer counts *)

Lemma digit_of_digit_char (d : Z) :
  0 <= d < 10 -> Istream.digit_of (Ostream.digit_char d) = Some d.
Proof.
  intros Hd.
  assert (C : d = 0 \/ d = 1 \/ d = 2 \/ d = 3 \/ d = 4 \/ d = 5 \/ d = 6
              \/ d = 7 \/ d = 8 \/ d = 9) by lia.
  repeat (destruct C as [->|C]; [reflexivity|]). subst d. reflexivity.
Qed.

Lemma sign_from_digit (d : Z) (rest : string) :
  0 <= d < 10 ->
  Istream.sign_from (String (Ostream.digit_char d) rest)
  = (false, String (Ostream.digit_char d) rest).
Proof.
  intros Hd.
  assert (C : d = 0 \/ d = 1 \/ d = 2 \/ d = 3 \/ d = 4 \/ d = 5 \/ d = 6
              \/ d = 7 \/ d = 8 \/ d = 9) by lia.
  repeat (destruct C as [->|C]; [reflexivity|]). subst d. reflexivity.
Qed.

Lemma digits_from_fixed (w : nat) :
  forall (n : Z) (acc : string) (value len : Z),
    0 <= n < 10 ^ Z.of_nat w ->
    Istream.digits_from (Ostream.fixed_digits w n acc) value len
    = Istream.digits_from acc (value * 10 ^ Z.of_nat w + n) (len + Z.of_nat w).
Proof.
  induction w as [|w IH]; intros n acc value len Hn.
  - cbn [Ostream.fixed_digits]. change (Z.of_nat 0) with 0 in *.
    rewrite Z.pow_0_r in *. f_equal; lia.
  - cbn [Ostream.fixed_digits].
    rewrite Nat2Z.inj_succ, Z.pow_succ_r in * by lia.
    pose proof (Z.div_mod n 10 ltac:(lia)) as Dm.
    pose proof (Z.mod_pos_bound n 10 ltac:(lia)) as Bm.
    rewrite IH by (split; [apply Z.div_pos; lia|apply Z.div_lt_upper_bound; lia]).
    cbn [Istream.digits_from]. rewrite digit_of_digit_char by exact Bm.
    f_equal; lia.
Qed.

Lemma fixed_digits_head (w : nat) :
  forall (n : Z) (acc : string),
    (exists d rest, 0 <= d < 10 /\ acc = String (Ostream.digit_char d) rest) ->
    exists d rest, 0 <= d < 10
                   /\ Ostream.fixed_digits w n acc = String (Ostream.digit_char d) rest.
Proof.
  induction w as [|w IH]; intros n acc Hacc; cbn [Ostream.fixed_digits]; [exact Hacc|].
  apply IH. exists (n mod 10), acc. split; [apply Z.mod_pos_bound; lia|reflexivity].
Qed.

Lemma dec_width_bound (fuel : nat) :
  forall n : Z, 0 <= n < 10 ^ Z.of_nat fuel ->
                n < 10 ^ Z.of_nat (Ostream.dec_width fuel n).
Proof.
  induction fuel as [|fuel IH]; intros n Hn.
  - change (Z.of_nat 0) with 0 in Hn. cbn in Hn. cbn. lia.
  - cbn [Ostream.dec_width]. destruct (Z.ltb_spec n 10) as [Hs|Hl]; [cbn; lia|].
    rewrite Nat2Z.inj_succ, Z.pow_succ_r in * by lia.
    assert (Hq : 0 <= n / 10 < 10 ^ Z.of_nat fuel)
      by (split; [apply Z.div_pos; lia|apply Z.div_lt_upper_bound; lia]).
    specialize (IH _ Hq).
    pose proof (Z.div_mod n 10 ltac:(lia)) as Dm.
    pose proof (Z.mod_pos_bound n 10 ltac:(lia)) as Bm.
    lia.
Qed.

(** The numeral of an integer reads as that integer. *)
Lemma decimal_show_nat (c : Z) :
  0 <= c < 1000000 ->
  Istream.decimal (Ostream.show_nat c) = Some (false, c, 1).
Proof.
  intros Hc. unfold Ostream.show_nat.
  set (w := Ostream.dec_width 60 c).
  assert (Hw : c < 10 ^ Z.of_nat w).
  { apply dec_width_bound. split; [lia|].
    assert (1000000 <= 10 ^ Z.of_nat 60) by (vm_compute; discriminate). lia. }
  assert (Hw1 : (1 <= w)%nat) by apply dec_width_pos.
  destruct w as [|w'] eqn:Ew; [lia|].
  assert (Hhead : exists d rest, 0 <= d < 10
            /\ Ostream.fixed_digits (S w') c "" = String (Ostream.digit_char d) rest).
  { cbn [Ostream.fixed_digits]. apply fixed_digits_head.
    exists (c mod 10), ""%string. split; [apply Z.mod_pos_bound; lia|reflexivity]. }
  destruct Hhead as (d & rest & Hd & Hs).
  unfold Istream.decimal.
  rewrite Hs, sign_from_digit by exact Hd. rewrite <- Hs.
  rewrite digits_from_fixed by lia.
  cbn [Istream.digits_from].
  destruct (Z.eqb_spec (0 + Z.of_nat (S w') + 0) 0) as [Hz|_]; [lia|].
  rewrite Z.mul_0_l, Z.add_0_l. rewrite Z.sub_0_r. cbn [Z.opp Z.max Z.pow].
  change (Z.max 0 0) with 0. rewrite Z.pow_0_r, Z.mul_1_r. reflexivity.
Qed.

(** A small integer divided by one. *)
Lemma div_by_one (p : positive) :
  Zpos p < 2 ^ 24 ->
  F32.div (S754_finite false p 0) (S754_finite false 1 0) = F32.of_Z (Zpos p).
Proof.
  intros Hp.
  assert (Hc : 0 < Zpos p < 2 ^ 24) by lia.
  pose proof (Zdigits2_pos (Zpos p) ltac:(lia)) as Hd0.
  assert (Hd24 : Zdigits2 (Zpos p) <= 24) by (apply Zdigits2_le; lia).
  destruct (SFdiv_finite 24 128 prec32_pos false false p 1 0 0) as [H _].
  cbv zeta in H.
  set (d := Zdigits2 (Zpos p)) in *.
  change (Zdigits2 1) with 1 in H.
  replace (Z.min (fexp 24 128 (d + 0 - (1 + 0))) (0 - 0)) with (d - 25) in H
    by (unfold fexp; change (emin 24 128) with (-149); lia).
  replace (0 - 0 - (d - 25)) with (25 - d) in H by lia.
  rewrite Z.div_1_r in H.
  rewrite Zdigits2_mul_pow2 in H by lia. fold d in H.
  replace (fexp 24 128 (d + (25 - d) + (d - 25))) with (d - 24) in H
    by (unfold fexp; change (emin 24 128) with (-149); lia).
  replace (d - 24 - (d - 25)) with 1 in H by lia.
  replace (Zpos p * 2 ^ (25 - d)) with (Zpos p * 2 ^ (24 - d) * (1 * 2 ^ 1)) in H.
  2:{ replace (25 - d) with (24 - d + 1) by lia.
      rewrite Z.pow_add_r by lia. ring. }
  rewrite rne_exact in H by (cbn; lia).
  unfold F32.div, F32.prec, F32.emax. rewrite H. cbn [xorb].
  rewrite of_Z_pos by exact Hc.
  fold (int_m (Zpos p)). replace (d - 24) with (int_e (Zpos p)) by reflexivity.
  apply finish_normal; [apply int_m_bounds; exact Hc|].
  pose proof (int_e_bounds (Zpos p) Hc). lia.
Qed.

Lemma count_reads_back (c : Z) : 0 <= c < 1000000 -> reads_back (F32.of_Z c).
Proof.
  intros Hc. unfold reads_back. rewrite show_float_count by exact Hc.
  unfold Istream.parse_float. rewrite decimal_show_nat by exact Hc.
  destruct c as [|p|p]; [reflexivity| |lia].
  rewrite div_by_one by (change (2 ^ 24) with 16777216; lia). reflexivity.
Qed.

Lemma stream_histogram_counts (counts : list Z) :
  Forall (fun c => 0 <= c < 1000000) counts ->
  stream_histogram (map F32.of_Z counts)
  = fold_right (fun c text => Ostream.show_nat c ++ " " ++ text)%string ""%string counts.
Proof.
  induction 1 as [|c rest Hc _ IH]; [reflexivity|].
  cbn [map stream_histogram fold_right]. rewrite IH, show_float_count by exact Hc.
  reflexivity.
Qed.

(** C9 (amended).  For a histogram of fewer than 2 ^ 32 bins (the loop
    over the bins counts them in an [unsigned int]) that holds integer counts
    from 0 to 999999, [WriteHistogram] leaves in the file the counts in
    order, as plain decimal integers, each followed by one space and nothing
    else, and reading the file number by number recovers the histogram. *)
Theorem written_histogram_reads_back (can_open : string -> bool)
    (counts : list Z) (filename : string) (fs : files) :
  can_open filename = true ->
  Z.of_nat (length counts) < 2 ^ 32 ->
  Forall (fun c => 0 <= c < 1000000) counts ->
  let histogram := map F32.of_Z counts in
  let text := fold_right (fun c text => Ostream.show_nat c ++ " " ++ text)%string
                ""%string counts in
  WriteHistogram can_open histogram filename fs filename = Some text
  /\ Istream.words text = map Ostream.show_nat counts
  /\ Istream.ReadHistogram text = Some histogram.
Proof.
  intros Hopen _ Hcounts histogram text.
  assert (Htext : stream_histogram histogram = text)
    by (apply stream_histogram_counts; exact Hcounts).
  unfold WriteHistogram, write_file. rewrite Hopen, String.eqb_refl, Htext.
  split; [reflexivity|]. rewrite <- Htext. split.
  - rewrite words_stream. unfold histogram. rewrite map_map.
    clear Htext text histogram.
    induction Hcounts as [|c rest Hc _ IH]; [reflexivity|].
    cbn [map]. rewrite IH, show_float_count by exact Hc. reflexivity.
  - apply read_stream. unfold histogram. apply Forall_map.
    eapply Forall_impl; [|exact Hcounts].
    intros c Hc. apply count_reads_back. exact Hc.
Qed.

Lemma written_histogram_reads_back_witness :
  WriteHistogram (fun _ => true) (map F32.of_Z [3; 0; 7; 2]) "histogram.txt"%string
    (fun _ => None) "histogram.txt"%string
  = Some "3 0 7 2 "%string
  /\ Istream.words "3 0 7 2 " = ["3"; "0"; "7"; "2"]%string
  /\ Istream.ReadHistogram "3 0 7 2 " = Some (map F32.of_Z [3; 0; 7; 2]).
Proof.
  apply (written_histogram_reads_back (fun _ => true) [3; 0; 7; 2]
           "histogram.txt"%string (fun _ => None)).
  - reflexivity.
  - cbn. lia.
  - repeat constructor; lia.
Defined.

(** Counterexample to C9 as stated: the count 1234567 is printed with six
    significant digits and reads back as 1234570. *)
Lemma large_count_does_not_read_back :
  stream_histogram [F32.of_Z 1234567] = "1.23457e+06 "%string
  /\ Istream.ReadHistogram (stream_histogram [F32.of_Z 1234567])
     = Some [F32.of_Z 1234570]
  /\ F32.eqb (F32.of_Z 1234570) (F32.of_Z 1234567) = false.
Proof. vm_compute. repeat split; reflexivity. Qed.

(** * Further properties of the code *)

(** ** Shape of the result and first error *)

(** X1.  Whatever the sample type and the samples, a histogram returned by
    [ScalarHistogram] has exactly [numberOfBins] entries. *)
Theorem returned_histogram_has_numberOfBins_entries {TValue : Type} `{Sample TValue}
    (numberOfBins : Z) (rangeMin rangeMax : TValue) (values : list TValue)
    (bins : HistogramType) :
  ScalarHistogram numberOfBins rangeMin rangeMax values = Ok bins ->
  length bins = Z.to_nat numberOfBins.
Proof. apply ScalarHistogram_length. Qed.

Lemma returned_histogram_has_numberOfBins_entries_witness :
  length (map F32.of_Z [2; 1; 1; 2]) = Z.to_nat 4.
Proof.
  apply (returned_histogram_has_numberOfBins_entries 4 (0 : uchar) 255
           [0; 63; 64; 255; 128; 200]).
  vm_compute. reflexivity.
Defined.

(** The exception of an iteration is built from the sample and its index. *)
Lemma bin_sample_throw {TValue : Type} `{Sample TValue} (n : Z) (rmin rmax : TValue)
    (count i : nat) (v : TValue) (bins : HistogramType) (d : diagnostic) :
  bin_sample n rmin rmax count i v bins = Throw d ->
  d = diagnose n rmin rmax (diag_bin d) count i v
  /\ (diag_bin d < 0 \/ n <= diag_bin d).
Proof.
  unfold bin_sample. destruct (sample_eqb v rmax).
  { destruct (increment bins (length bins - 1)); discriminate. }
  destruct (F32.to_int _) as [bin|]; [|discriminate].
  destruct (Z.ltb_spec bin 0).
  { intros E. injection E as <-. cbn [diag_bin diagnose]. split; [reflexivity|lia]. }
  destruct (Z.geb_spec bin n).
  { intros E. injection E as <-. cbn [diag_bin diagnose]. split; [reflexivity|lia]. }
  destruct (increment bins (Z.to_nat bin)); discriminate.
Qed.

(** X2.  The first sample that is rejected ends the call: when the samples
    before [v] are binned and [v] is rejected, [ScalarHistogram] throws the
    exception of [v] whatever samples follow, no histogram is returned, and
    the exception carries the index of [v], its value, the number of samples
    and a bin index outside [0, numberOfBins).  (The index of [v] fits the
    [unsigned int] loop counter.) *)
Theorem first_rejected_sample_ends_call {TValue : Type} `{Sample TValue}
    (numberOfBins : Z) (rangeMin rangeMax : TValue)
    (before after : list TValue) (v : TValue)
    (bins : HistogramType) (d : diagnostic) :
  Z.of_nat (length before) < 2 ^ 32 ->
  degenerate (binWidth numberOfBins rangeMin rangeMax) = false ->
  bin_loop numberOfBins rangeMin rangeMax (length (before ++ v :: after)) 0 before
    (repeat F32.zero (Z.to_nat numberOfBins)) = Ok bins ->
  bin_sample numberOfBins rangeMin rangeMax (length (before ++ v :: after))
    (length before) v bins = Throw d ->
  ScalarHistogram numberOfBins rangeMin rangeMax (before ++ v :: after) = Throw d
  /\ diag_index d = length before
  /\ diag_value d = sample_float v
  /\ diag_count d = length (before ++ v :: after)
  /\ (diag_bin d < 0 \/ numberOfBins <= diag_bin d).
Proof.
  intros _ Hdeg Hbefore Hv.
  destruct (bin_sample_throw _ _ _ _ _ _ _ _ Hv) as [Hd Hbin].
  split.
  - unfold ScalarHistogram. rewrite Hdeg.
    rewrite bin_loop_app, Hbefore. cbn [bin_loop Nat.add].
    rewrite Hv. reflexivity.
  - rewrite Hd. cbn [diag_index diag_value diag_count diagnose].
    repeat split; try reflexivity. rewrite <- Hd. exact Hbin.
Qed.

Lemma first_rejected_sample_ends_call_witness :
  let d := diagnose 4 (100 : uchar) 200 (-3) 5 2 10 in
  ScalarHistogram 4 (100 : uchar) 200 ([120; 200] ++ 10 :: [150; 0]) = Throw d
  /\ diag_index d = length [120; 200]
  /\ diag_value d = F32.of_Z 10
  /\ diag_count d = length ([120; 200] ++ 10 :: [150; 0])
  /\ (diag_bin d < 0 \/ 4 <= diag_bin d).
Proof.
  intros d.
  refine (first_rejected_sample_ends_call 4 (100 : uchar) 200 [120; 200] [150; 0] 10
            (map F32.of_Z [1; 0; 0; 1]) d _ _ _ _); vm_compute; reflexivity.
Defined.

(** ** Bins are saturating counters *)

Lemma counter_incr (k : Z) (x : float) : counter k x -> counter (k + 1) (F32.incr x).
Proof.
  intros (c & Hc & Hk & ->).
  destruct (Z.eq_dec c (2 ^ 24)) as [->|Hne].
  - exists (2 ^ 24). split; [lia|]. split; [lia|]. reflexivity.
  - exists (c + 1). split; [lia|]. split; [lia|]. apply incr_of_Z. lia.
Qed.

Lemma counter_mono (k k' : Z) (x : float) : k <= k' -> counter k x -> counter k' x.
Proof. intros Hk (c & Hc & Hck & ->). exists c. repeat split; lia. Qed.

Lemma increment_counters (k : Z) (bins : HistogramType) :
  forall (i : nat) (bins' : HistogramType),
    Forall (counter k) bins -> increment bins i = Some bins' ->
    Forall (counter (k + 1)) bins'.
Proof.
  induction bins as [|b bs IH]; intros [|i] bins' Hall E; cbn [increment] in E;
    try discriminate; inversion Hall as [|? ? Hb Hbs]; subst.
  - injection E as <-. constructor; [apply counter_incr; exact Hb|].
    eapply Forall_impl; [|exact Hbs]. intros x. apply counter_mono. lia.
  - destruct (increment bs i) as [bs'|] eqn:I; [|discriminate].
    injection E as <-. constructor; [apply (counter_mono k); [lia|exact Hb]|].
    eapply IH; [exact Hbs|exact I].
Qed.

Section Counters.

Context {TValue : Type} `{Sample TValue}.
Variable numberOfBins : Z.
Variables rangeMin rangeMax : TValue.

Lemma bin_sample_counters (k : Z) (count i : nat) (v : TValue)
    (bins bins' : HistogramType) :
  Forall (counter k) bins ->
  bin_sample numberOfBins rangeMin rangeMax count i v bins = Ok bins' ->
  Forall (counter (k + 1)) bins'.
Proof.
  unfold bin_sample. intros Hall E.
  destruct (sample_eqb v rangeMax).
  - destruct (increment bins (length bins - 1)) eqn:I; [|discriminate].
    injection E as <-. eapply increment_counters; [exact Hall|exact I].
  - destruct (F32.to_int _) as [bin|]; [|discriminate].
    destruct (bin <? 0); [discriminate|].
    destruct (bin >=? numberOfBins); [discriminate|].
    destruct (increment bins (Z.to_nat bin)) eqn:I; [|discriminate].
    injection E as <-. eapply increment_counters; [exact Hall|exact I].
Qed.

Lemma bin_loop_counters (count : nat) (values : list TValue) :
  forall (k : Z) (i : nat) (bins bins' : HistogramType),
    Forall (counter k) bins ->
    bin_loop numberOfBins rangeMin rangeMax count i values bins = Ok bins' ->
    Forall (counter (k + Z.of_nat (length values))) bins'.
Proof.
  induction values as [|v rest IH]; intros k i bins bins' Hall E; cbn [bin_loop] in E.
  - injection E as <-. cbn [length]. rewrite Z.add_0_r. exact Hall.
  - destruct (bin_sample numberOfBins rangeMin rangeMax count i v bins) as [b| |] eqn:S;
      try discriminate.
    cbn [length]. rewrite Nat2Z.inj_succ.
    replace (k + Z.succ (Z.of_nat (length rest))) with (k + 1 + Z.of_nat (length rest)) by lia.
    eapply IH; [|exact E]. eapply bin_sample_counters; [exact Hall|exact S].
Qed.

(** X3.  Whatever the sample type and the samples, every bin of a returned
    histogram is a non-negative integer, at most the number of samples and
    never more than 2 ^ 24 = 16777216: a [float] bin that has reached
    2 ^ 24 is not changed by [++]. *)
Theorem bins_are_saturating_counters (values : list TValue) (bins : HistogramType) :
  ScalarHistogram numberOfBins rangeMin rangeMax values = Ok bins ->
  Forall (fun x => exists c : Z,
                     0 <= c <= 2 ^ 24 /\ c <= Z.of_nat (length values)
                     /\ x = F32.of_Z c /\ integer_value x = Some c) bins.
Proof.
  unfold ScalarHistogram. intros E.
  assert (Hzero : Forall (counter 0) (repeat F32.zero (Z.to_nat numberOfBins))).
  { apply Forall_forall. intros x Hx. apply repeat_spec in Hx. subst x.
    exists 0. repeat split; try lia. }
  assert (Hall : Forall (counter (Z.of_nat (length values))) bins).
  { destruct (degenerate (binWidth numberOfBins rangeMin rangeMax)).
    - injection E as <-. eapply Forall_impl; [|exact Hzero].
      intros x. apply counter_mono. lia.
    - apply (bin_loop_counters _ _ 0 _ _ _ Hzero E). }
  eapply Forall_impl; [|exact Hall].
  intros x (c & Hc & Hk & ->). exists c.
  repeat split; try lia. apply integer_value_of_Z. lia.
Qed.

End Counters.

Lemma bins_are_saturating_counters_witness :
  Forall (fun x => exists c : Z,
                     0 <= c <= 2 ^ 24
                     /\ c <= Z.of_nat (length [0; 63; 64; 255; 128; 200])
                     /\ x = F32.of_Z c /\ integer_value x = Some c)
    (map F32.of_Z [2; 1; 1; 2]).
Proof.
  apply (bins_are_saturating_counters 4 (0 : uchar) 255 [0; 63; 64; 255; 128; 200]).
  vm_compute. reflexivity.
Defined.

(** ** [float] samples that are not numbers *)

(** X4.  With [float] samples, a NaN sample is not rejected by an exception:
    it is not equal to [rangeMax], its quotient is NaN, and the conversion of
    NaN to [int] is undefined.  When the samples before it are binned and the
    bin width is not degenerate, the call has undefined behaviour whatever
    the range, the number of bins and the samples that follow. *)
Theorem nan_sample_is_undefined
    (numberOfBins : Z) (rangeMin rangeMax : float) (before after : list float)
    (bins : HistogramType) :
  Z.of_nat (length before) < 2 ^ 32 ->
  degenerate (binWidth numberOfBins rangeMin rangeMax) = false ->
  bin_loop numberOfBins rangeMin rangeMax (length (before ++ S754_nan :: after)) 0
    before (repeat F32.zero (Z.to_nat numberOfBins)) = Ok bins ->
  ScalarHistogram numberOfBins rangeMin rangeMax (before ++ S754_nan :: after)
  = Undefined.
Proof.
  intros _ Hdeg Hbefore. unfold ScalarHistogram.
  rewrite Hdeg, bin_loop_app, Hbefore. cbn [bin_loop]. unfold bin_sample.
  cbn [sample_eqb sample_diff Sample_float].
  replace (F32.eqb S754_nan rangeMax) with false by reflexivity.
  replace (F32.sub S754_nan rangeMin) with S754_nan by reflexivity.
  replace (F32.div S754_nan (binWidth numberOfBins rangeMin rangeMax)) with S754_nan
    by reflexivity.
  reflexivity.
Qed.

Lemma nan_sample_is_undefined_witness :
  ScalarHistogram 4 F32.zero F32.one ([F32.zero; F32.one] ++ S754_nan :: [F32.zero])
  = Undefined.
Proof.
  apply (nan_sample_is_undefined 4 F32.zero F32.one [F32.zero; F32.one] [F32.zero]
           [F32.one; F32.zero; F32.zero; F32.one]).
  - cbn. lia.
  - vm_compute. reflexivity.
  - vm_compute. reflexivity.
Defined.

(** ** The bin index of an [unsigned char] sample *)

(** The three roundings of [(v - rangeMin) / ((rangeMax - rangeMin) / n)],
    with [W = 2 ^ 24]: the computed quotient [G / H'] is within a factor
    [W (W + 1) / (W - 1) ^ 2] of the exact quotient [n k / d]. *)
Lemma rounding_bounds (P q b m C1 C2 A B E k d n : Z) :
  0 < P -> P <= q -> P <= b -> P <= m ->
  0 < C1 -> 0 < C2 -> 0 < A -> 0 < B -> 0 < E -> 0 < n -> 0 < k -> 0 < d ->
  2 * Z.abs (q * (b * C2) - k * A * (2 * P)) <= b * C2 ->
  2 * Z.abs (b * (m * C1) - d * B * (2 * P)) <= m * C1 ->
  2 * Z.abs (m * E - n * P) <= E ->
  (q * B * E * C2) * (d * ((2 * P - 1) * (2 * P - 1)))
  <= (n * A * C1 * P) * (k * ((2 * P) * (2 * P + 1)))
  /\ (n * A * C1 * P) * (k * ((2 * P) * (2 * P - 1)))
     <= (q * B * E * C2) * (d * ((2 * P + 1) * (2 * P + 1))).
Proof.
  intros HP Hq Hb Hm HC1 HC2 HA HB HE Hn Hk Hd H1 H2 H3.
  assert (Pb : 0 < b * C2) by (apply Z.mul_pos_pos; lia).
  assert (Pm : 0 < m * C1) by (apply Z.mul_pos_pos; lia).
  assert (PX : 0 < q * (b * C2)) by (apply Z.mul_pos_pos; lia).
  assert (PY : 0 < b * (m * C1)) by (apply Z.mul_pos_pos; lia).
  assert (PZ : 0 < m * E) by (apply Z.mul_pos_pos; lia).
  assert (PdB : 0 < d * B) by (apply Z.mul_pos_pos; lia).
  assert (PkA : 0 < k * A) by (apply Z.mul_pos_pos; lia).
  assert (PnP : 0 < n * P) by (apply Z.mul_pos_pos; lia).
  assert (Pbm : 0 < b * m) by (apply Z.mul_pos_pos; lia).
  set (W := 2 * P) in *.
  assert (HW : 2 <= W) by (unfold W; lia).
  assert (PWW : 0 < W * W) by (apply Z.mul_pos_pos; lia).
  assert (Pc : 0 < b * m * (W * W)) by (apply Z.mul_pos_pos; assumption).
  set (G := q * B * E * C2). set (H := n * A * C1 * P).
  split.
  - pose proof (round_up_bound P q (b * C2) (k * A * W) ltac:(lia) ltac:(lia)
                  ltac:(apply abs_le_upper; exact H1)) as S1.
    pose proof (round_down_bound P b (m * C1) (d * B * W) ltac:(lia) ltac:(lia)
                  ltac:(apply abs_le_lower; exact H2)) as S2.
    pose proof (round_up_bound P m E (n * P) ltac:(lia) ltac:(lia)
                  ltac:(apply abs_le_upper; exact H3)) as S3.
    fold W in S1, S2, S3.
    assert (M : q * (b * C2) * (W - 1) * (W * (d * B * W)) * (m * E * (W - 1))
                <= W * (k * A * W) * (b * (m * C1) * (W + 1)) * (W * (n * P))).
    { apply mul3_le.
      - split; [apply Z.mul_nonneg_nonneg; lia|exact S1].
      - split; [apply Z.mul_nonneg_nonneg; [lia|apply Z.mul_nonneg_nonneg; lia]|exact S2].
      - split; [apply Z.mul_nonneg_nonneg; lia|exact S3]. }
    apply (Z.mul_le_mono_pos_l _ _ (b * m * (W * W))); [exact Pc|].
    replace (b * m * (W * W) * (G * (d * ((W - 1) * (W - 1)))))
      with (q * (b * C2) * (W - 1) * (W * (d * B * W)) * (m * E * (W - 1)))
      by (unfold G; ring).
    replace (b * m * (W * W) * (H * (k * (W * (W + 1)))))
      with (W * (k * A * W) * (b * (m * C1) * (W + 1)) * (W * (n * P)))
      by (unfold H; ring).
    exact M.
  - pose proof (round_down_bound P q (b * C2) (k * A * W) ltac:(lia) ltac:(lia)
                  ltac:(apply abs_le_lower; exact H1)) as S1.
    pose proof (round_up_bound P b (m * C1) (d * B * W) ltac:(lia) ltac:(lia)
                  ltac:(apply abs_le_upper; exact H2)) as S2.
    pose proof (round_down_bound P m E (n * P) ltac:(lia) ltac:(lia)
                  ltac:(apply abs_le_lower; exact H3)) as S3.
    fold W in S1, S2, S3.
    assert (M : W * (k * A * W) * (b * (m * C1) * (W - 1)) * (W * (n * P))
                <= q * (b * C2) * (W + 1) * (W * (d * B * W)) * (m * E * (W + 1))).
    { apply mul3_le.
      - split; [apply Z.mul_nonneg_nonneg; [lia|apply Z.mul_nonneg_nonneg; lia]|exact S1].
      - split; [apply Z.mul_nonneg_nonneg; lia|exact S2].
      - split; [apply Z.mul_nonneg_nonneg; lia|exact S3]. }
    apply (Z.mul_le_mono_pos_l _ _ (b * m * (W * W))); [exact Pc|].
    replace (b * m * (W * W) * (H * (k * (W * (W - 1)))))
      with (W * (k * A * W) * (b * (m * C1) * (W - 1)) * (W * (n * P)))
      by (unfold H; ring).
    replace (b * m * (W * W) * (G * (d * ((W + 1) * (W + 1)))))
      with (q * (b * C2) * (W + 1) * (W * (d * B * W)) * (m * E * (W + 1)))
      by (unfold G; ring).
    exact M.
Qed.

(** The bin index computed for a sample above [rangeMin], as the integer
    part of a fraction [G / S] that is close to [n k / d]. *)
Lemma quotient_uchar (n : Z) (rmin rmax v : uchar) :
  is_uchar rmin -> is_uchar rmax -> is_uchar v -> 0 < n < 2 ^ 32 ->
  rmin < rmax -> rmin < v ->
  degenerate (binWidth n rmin rmax) = false ->
  exists T G S : Z,
    F32.to_int (F32.div (F32.of_Z (v - rmin)) (binWidth n rmin rmax)) = Some T
    /\ 0 < S /\ 0 <= T /\ T * S <= G < (T + 1) * S
    /\ G * ((rmax - rmin) * ((2 ^ 24 - 1) * (2 ^ 24 - 1)))
       <= (n * S) * ((v - rmin) * (2 ^ 24 * (2 ^ 24 + 1)))
    /\ (n * S) * ((v - rmin) * (2 ^ 24 * (2 ^ 24 - 1)))
       <= G * ((rmax - rmin) * ((2 ^ 24 + 1) * (2 ^ 24 + 1))).
Proof.
  unfold is_uchar. intros Hmin Hmax Hv Hn Hrange Hvmin Hdeg.
  destruct (binWidth_uchar n rmin rmax Hn ltac:(lia))
    as (mn & mb & en & c1 & On & Bmn & Ben & Ern & Hbw & Bmb & Hc1 & Erb).
  set (d := rmax - rmin) in *.
  assert (Hd24 : 0 < d < 2 ^ 24) by (change (2 ^ 24) with 16777216; lia).
  pose proof (int_m_bounds d Hd24) as Bmd.
  pose proof (int_e_bounds d Hd24) as Bed.
  set (eb := int_e d - en - 24 + c1) in *.
  rewrite Hbw in *.
  set (k := v - rmin).
  assert (Hk : 1 <= k <= 255) by (unfold k; lia).
  assert (Hk24 : 0 < k < 2 ^ 24) by (change (2 ^ 24) with 16777216; lia).
  pose proof (int_m_bounds k Hk24) as Bmk.
  pose proof (int_e_bounds k Hk24) as Bek.
  assert (Heb : -43 <= eb).
  { destruct (Z.lt_ge_cases eb (-43)) as [Hlt|]; [|assumption].
    rewrite (degenerate_small false mb eb Bmb) in Hdeg by lia. discriminate. }
  rewrite of_Z_pos by exact Hk24.
  pose proof (div_normal false false (Z.to_pos (int_m k)) mb (int_e k) eb) as Dv.
  rewrite Z2Pos.id in Dv by lia.
  specialize (Dv Bmk Bmb ltac:(lia)). cbv zeta in Dv.
  set (c2 := if int_m k <? Zpos mb then 0 else 1) in *.
  assert (Hc2 : 0 <= c2 <= 1) by (unfold c2; destruct (int_m k <? Zpos mb); lia).
  destruct Dv as [Dv Bq].
  set (q := rne (int_m k * 2 ^ 24) (Zpos mb * 2 ^ c2)) in *.
  assert (Erq : 2 * Z.abs (q * (Zpos mb * 2 ^ c2) - int_m k * 2 ^ 24) <= Zpos mb * 2 ^ c2).
  { apply rne_error. pose proof (pow2_pos c2 ltac:(lia)). nia. }
  rewrite Dv. cbn [xorb].
  set (eq := int_e k - eb - 24 + c2).
  set (A := 2 ^ (- int_e k)). set (B := 2 ^ (- int_e d)).
  set (C1 := 2 ^ c1) in *. set (C2 := 2 ^ c2) in *. set (E := 2 ^ (en + 23)) in *.
  assert (PA : 0 < A) by (apply pow2_pos; lia).
  assert (PB : 0 < B) by (apply pow2_pos; lia).
  assert (PC1 : 0 < C1) by (apply pow2_pos; lia).
  assert (PC2 : 0 < C2) by (apply pow2_pos; lia).
  assert (PE : 0 < E) by (apply pow2_pos; lia).
  rewrite (int_value k Hk24) in Erq. rewrite (int_value d Hd24) in Erb.
  fold A in Erq. fold B in Erb.
  change (2 ^ 24) with (2 * 2 ^ 23) in Erq, Erb.
  assert (P23 : 2 ^ 23 = 8388608) by reflexivity.
  assert (P24 : 2 ^ 24 = 16777216) by reflexivity.
  pose proof (rounding_bounds (2 ^ 23) q (Zpos mb) (Zpos mn) C1 C2 A B E k d n
                ltac:(lia) ltac:(lia) ltac:(lia) ltac:(lia)
                PC1 PC2 PA PB PE ltac:(lia) ltac:(lia) ltac:(lia)
                Erq Erb Ern) as [Up Lo].
  change (2 * 2 ^ 23) with (2 ^ 24) in Up, Lo.
  assert (Hpow : forall x y, 0 <= x -> 0 <= y ->
             x + (- int_e k + c1 + 23) = y + (- int_e d + (en + 23) + c2) ->
             2 ^ x * (A * C1 * 2 ^ 23) = 2 ^ y * (B * E * C2)).
  { intros x y Hx Hy Hxy. unfold A, B, C1, C2, E.
    rewrite <- !Z.pow_add_r by lia. f_equal. lia. }
  assert (PACP : 0 < A * C1 * 2 ^ 23).
  { apply Z.mul_pos_pos; [apply Z.mul_pos_pos; assumption|reflexivity]. }
  assert (PBEC : 0 < B * E * C2).
  { apply Z.mul_pos_pos; [apply Z.mul_pos_pos; assumption|assumption]. }
  unfold F32.to_int. rewrite trunc_finite. rewrite Z2Pos.id by lia. fold eq.
  set (T := if eq <? 0 then q / 2 ^ (- eq) else q * 2 ^ eq).
  set (S := A * C1 * 2 ^ 23) in *.
  set (G := q * B * E * C2) in *.
  assert (HT : 0 <= T /\ T * S <= G < (T + 1) * S /\ T < 2 ^ 31).
  { unfold T. destruct (Z.ltb_spec eq 0) as [Hneg|Hpos].
    - pose proof (pow2_pos (- eq) ltac:(lia)) as Pp.
      pose proof (Hpow 0 (- eq) ltac:(lia) ltac:(lia) ltac:(unfold eq, eb; lia)) as Hp.
      rewrite Z.pow_0_r, Z.mul_1_l in Hp. rewrite Hp.
      assert (Hq0 : 0 <= q / 2 ^ (- eq)) by (apply Z.div_pos; lia).
      pose proof (Z.div_mod q (2 ^ (- eq)) ltac:(lia)) as Dm.
      pose proof (Z.mod_pos_bound q (2 ^ (- eq)) Pp) as Bm.
      set (t := q / 2 ^ (- eq)) in *. set (p := 2 ^ (- eq)) in *.
      split; [exact Hq0|]. split; [split|].
      + replace (t * (p * (B * E * C2))) with ((t * p) * (B * E * C2)) by ring.
        replace G with (q * (B * E * C2)) by (unfold G; ring).
        apply Z.mul_le_mono_nonneg_r; lia.
      + replace ((t + 1) * (p * (B * E * C2))) with (((t + 1) * p) * (B * E * C2)) by ring.
        replace G with (q * (B * E * C2)) by (unfold G; ring).
        apply Z.mul_lt_mono_pos_r; [exact PBEC|lia].
      + assert (t <= q).
        { unfold t. apply Z.div_le_upper_bound; [lia|].
          assert (1 * q <= p * q) by (apply Z.mul_le_mono_nonneg_r; lia). lia. }
        rewrite P24 in Bq. change (2 ^ 31) with 2147483648. lia.
    - pose proof (pow2_pos eq ltac:(lia)) as Pp.
      pose proof (Hpow eq 0 ltac:(lia) ltac:(lia) ltac:(unfold eq, eb; lia)) as Hp.
      rewrite Z.pow_0_r, Z.mul_1_l in Hp.
      assert (Eg : q * 2 ^ eq * S = G).
      { replace (q * 2 ^ eq * S) with (q * (2 ^ eq * S)) by ring.
        rewrite Hp. unfold G. ring. }
      split; [apply Z.mul_nonneg_nonneg; lia|]. split; [split|].
      + lia.
      + rewrite Z.mul_add_distr_r, Eg. lia.
      + assert (Hdk : Zdigits2 k <= 8)
          by (apply Zdigits2_le; [lia|change (2 ^ 8) with 256; lia]).
        assert (Heq4 : eq <= 4) by (unfold eq, int_e; lia).
        pose proof (Z.pow_le_mono_r 2 eq 4 ltac:(lia) Heq4) as Hp4.
        change (2 ^ 4) with 16 in Hp4.
        rewrite P24 in Bq. change (2 ^ 31) with 2147483648.
        assert (q * 2 ^ eq <= 16777216 * 16); [|lia].
        apply Z.mul_le_mono_nonneg; lia. }
  destruct HT as (HT0 & HT1 & HT2).
  exists T, G, S.
  split.
  { destruct (Z.leb_spec (- 2 ^ 31) T) as [_|Hbad];
      [|change (2 ^ 31) with 2147483648 in Hbad; lia].
    destruct (Z.ltb_spec T (2 ^ 31)) as [_|Hbad]; [reflexivity|lia]. }
  split; [exact PACP|]. split; [exact HT0|]. split; [exact HT1|].
  fold k.
  replace (n * S) with (n * A * C1 * 2 ^ 23) by (unfold S; ring).
  split; [exact Up|exact Lo].
Qed.

(** ** Accepted and rejected [unsigned char] samples *)

Lemma increment_defined (bins : HistogramType) :
  forall i : nat, (i < length bins)%nat -> exists bins', increment bins i = Some bins'.
Proof.
  induction bins as [|b bs IH]; intros [|i] Hi; cbn [length] in Hi; try lia.
  - eexists. reflexivity.
  - destruct (IH i ltac:(lia)) as [bs' E]. exists (b :: bs'). cbn [increment].
    rewrite E. reflexivity.
Qed.

(** The bin width of a range that is not empty. *)
Lemma binWidth_finite (n : Z) (rmin rmax : uchar) :
  is_uchar rmin -> is_uchar rmax -> 0 < n < 2 ^ 32 -> rmin <> rmax ->
  exists (mb : positive) (eb : Z),
    binWidth n rmin rmax = S754_finite (rmax <? rmin) mb eb
    /\ 2 ^ 23 <= Zpos mb < 2 ^ 24 /\ -56 <= eb <= 0.
Proof.
  unfold is_uchar. intros Hmin Hmax Hn Hne.
  destruct (of_Z_uint n Hn) as (mn & en & On & Bmn & Ben & _).
  unfold binWidth. cbn [sample_diff Sample_uchar]. rewrite On.
  set (d := Z.abs (rmax - rmin)).
  assert (Hd24 : 0 < d < 2 ^ 24) by (unfold d; change (2 ^ 24) with 16777216; lia).
  pose proof (int_m_bounds d Hd24) as Bmd.
  pose proof (int_e_bounds d Hd24) as Bed.
  pose proof (div_normal (rmax <? rmin) false (Z.to_pos (int_m d)) mn (int_e d) en) as Dv.
  rewrite Z2Pos.id in Dv by lia.
  specialize (Dv Bmd Bmn ltac:(lia)). cbv zeta in Dv. destruct Dv as [Dv Bq].
  rewrite xorb_false_r in Dv.
  eexists. eexists. split; [|split].
  - destruct (Z.ltb_spec rmax rmin) as [Hlt|Hge].
    + replace (rmax - rmin) with (- d) by (unfold d; lia).
      rewrite of_Z_neg by exact Hd24. exact Dv.
    + replace (rmax - rmin) with d by (unfold d; lia).
      rewrite of_Z_pos by exact Hd24. exact Dv.
  - rewrite Z2Pos.id by lia. exact Bq.
  - destruct (int_m d <? Zpos mn); lia.
Qed.

(** The conversion of the quotient to [int] is defined for every
    [unsigned char] sample when the bin width is not degenerate. *)
Lemma quotient_defined (n : Z) (rmin rmax v : uchar) :
  is_uchar rmin -> is_uchar rmax -> is_uchar v -> 0 < n < 2 ^ 32 ->
  degenerate (binWidth n rmin rmax) = false ->
  exists T, F32.to_int (F32.div (F32.of_Z (v - rmin)) (binWidth n rmin rmax)) = Some T.
Proof.
  intros Hmin Hmax Hv Hn Hdeg.
  destruct (Z.eq_dec rmin rmax) as [->|Hne].
  { rewrite equal_range_degenerate in Hdeg by exact Hn. discriminate. }
  destruct (binWidth_finite n rmin rmax Hmin Hmax Hn Hne) as (mb & eb & Hbw & Bmb & Beb).
  rewrite Hbw in *.
  assert (Heb : -43 <= eb).
  { destruct (Z.lt_ge_cases eb (-43)) as [Hlt|]; [|assumption].
    rewrite (degenerate_small _ mb eb Bmb) in Hdeg by lia. discriminate. }
  unfold is_uchar in *.
  destruct (Z.eq_dec v rmin) as [->|Hvne].
  { exists 0. rewrite Z.sub_diag. reflexivity. }
  set (k := Z.abs (v - rmin)).
  assert (Hk : 1 <= k <= 255) by (unfold k; lia).
  assert (Hk24 : 0 < k < 2 ^ 24) by (change (2 ^ 24) with 16777216; lia).
  pose proof (int_m_bounds k Hk24) as Bmk.
  pose proof (int_e_bounds k Hk24) as Bek.
  assert (Ek : F32.of_Z (v - rmin)
               = S754_finite (v <? rmin) (Z.to_pos (int_m k)) (int_e k)).
  { destruct (Z.ltb_spec v rmin) as [Hl|Hg].
    - replace (v - rmin) with (- k) by (unfold k; lia). apply of_Z_neg. exact Hk24.
    - replace (v - rmin) with k by (unfold k; lia). apply of_Z_pos. exact Hk24. }
  rewrite Ek.
  assert (Hdk : Zdigits2 k <= 8)
    by (apply Zdigits2_le; [lia|change (2 ^ 8) with 256; lia]).
  assert (Hek : int_e k <= -16) by (unfold int_e; lia).
  pose proof (div_normal (v <? rmin) (rmax <? rmin) (Z.to_pos (int_m k)) mb (int_e k) eb) as Dv.
  rewrite Z2Pos.id in Dv by lia.
  specialize (Dv Bmk Bmb ltac:(lia)). cbv zeta in Dv.
  set (c2 := if int_m k <? Zpos mb then 0 else 1) in *.
  assert (Hc2 : 0 <= c2 <= 1) by (unfold c2; destruct (int_m k <? Zpos mb); lia).
  destruct Dv as [Dv Bq].
  set (q := rne (int_m k * 2 ^ 24) (Zpos mb * 2 ^ c2)) in *.
  rewrite Dv.
  set (eq := int_e k - eb - 24 + c2).
  assert (Heq4 : eq <= 4) by (unfold eq; lia).
  unfold F32.to_int. rewrite trunc_finite. rewrite Z2Pos.id by lia. fold eq.
  set (T := if eq <? 0 then q / 2 ^ (- eq) else q * 2 ^ eq).
  assert (HT : 0 <= T < 2 ^ 31).
  { unfold T. change (2 ^ 24) with 16777216 in Bq. change (2 ^ 31) with 2147483648.
    destruct (Z.ltb_spec eq 0) as [Hneg|Hpos].
    - pose proof (pow2_pos (- eq) ltac:(lia)) as Pp.
      assert (Hq0 : 0 <= q / 2 ^ (- eq)) by (apply Z.div_pos; lia).
      assert (q / 2 ^ (- eq) <= q).
      { apply Z.div_le_upper_bound; [lia|].
        assert (1 * q <= 2 ^ (- eq) * q) by (apply Z.mul_le_mono_nonneg_r; lia). lia. }
      lia.
    - pose proof (pow2_pos eq ltac:(lia)) as Pp.
      pose proof (Z.pow_le_mono_r 2 eq 4 ltac:(lia) Heq4) as Hp4.
      change (2 ^ 4) with 16 in Hp4.
      assert (q * 2 ^ eq <= 16777216 * 16) by (apply Z.mul_le_mono_nonneg; lia).
      split; [apply Z.mul_nonneg_nonneg; lia|lia]. }
  assert (P31 : 2 ^ 31 = 2147483648) by reflexivity.
  destruct (xorb (v <? rmin) (rmax <? rmin)).
  - exists (- T).
    destruct (Z.leb_spec (- 2 ^ 31) (- T)) as [_|Hbad]; [|lia].
    destruct (Z.ltb_spec (- T) (2 ^ 31)) as [_|Hbad]; [reflexivity|lia].
  - exists T.
    destruct (Z.leb_spec (- 2 ^ 31) T) as [_|Hbad]; [|lia].
    destruct (Z.ltb_spec T (2 ^ 31)) as [_|Hbad]; [reflexivity|lia].
Qed.

(** An iteration on an [unsigned char] sample returns or throws. *)
Lemma bin_sample_uchar_defined (n : Z) (rmin rmax v : uchar) (count i : nat)
    (bins : HistogramType) :
  is_uchar rmin -> is_uchar rmax -> is_uchar v -> 0 < n < 2 ^ 32 ->
  degenerate (binWidth n rmin rmax) = false ->
  length bins = Z.to_nat n ->
  (exists bins', bin_sample n rmin rmax count i v bins = Ok bins'
                 /\ length bins' = Z.to_nat n)
  \/ (exists d, bin_sample n rmin rmax count i v bins = Throw d).
Proof.
  intros Hmin Hmax Hv Hn Hdeg Hlen.
  unfold bin_sample. cbn [sample_eqb sample_diff Sample_uchar].
  destruct (v =? rmax).
  - destruct (increment_defined bins (length bins - 1) ltac:(lia)) as [bins' E].
    rewrite E. left. exists bins'. split; [reflexivity|].
    rewrite (increment_length _ _ _ E). exact Hlen.
  - destruct (quotient_defined n rmin rmax v Hmin Hmax Hv Hn Hdeg) as [T E].
    rewrite E.
    destruct (Z.ltb_spec T 0); [right; eexists; reflexivity|].
    destruct (Z.geb_spec T n); [right; eexists; reflexivity|].
    destruct (increment_defined bins (Z.to_nat T) ltac:(lia)) as [bins' I].
    rewrite I. left. exists bins'. split; [reflexivity|].
    rewrite (increment_length _ _ _ I). exact Hlen.
Qed.

Lemma bin_loop_uchar_defined (n : Z) (rmin rmax : uchar) (count : nat) :
  is_uchar rmin -> is_uchar rmax -> 0 < n < 2 ^ 32 ->
  degenerate (binWidth n rmin rmax) = false ->
  forall (values : list uchar) (i : nat) (bins : HistogramType),
    Forall is_uchar values -> length bins = Z.to_nat n ->
    bin_loop n rmin rmax count i values bins <> Undefined.
Proof.
  intros Hmin Hmax Hn Hdeg values.
  induction values as [|v rest IH]; intros i bins Hvs Hlen; cbn [bin_loop]; [discriminate|].
  inversion Hvs as [|? ? Hv Hrest]; subst.
  destruct (bin_sample_uchar_defined n rmin rmax v count i bins Hmin Hmax Hv Hn Hdeg Hlen)
    as [(bins' & E & L)|(d & E)]; rewrite E; [|discriminate].
  apply IH; assumption.
Qed.

(** X5.  For [unsigned char] samples and at least one bin, [ScalarHistogram]
    has no undefined behaviour, whatever the range and the samples: every bin
    index it writes to is within the histogram and the conversion of the
    quotient to [int] never overflows.  The call returns a histogram or
    throws. *)
Theorem scalar_histogram_uchar_defined
    (numberOfBins : Z) (rangeMin rangeMax : uchar) (values : list uchar) :
  is_uchar rangeMin -> is_uchar rangeMax -> Forall is_uchar values ->
  1 <= numberOfBins < 2 ^ 32 ->
  Z.of_nat (length values) < 2 ^ 32 ->
  ScalarHistogram numberOfBins rangeMin rangeMax values <> Undefined.
Proof.
  intros Hmin Hmax Hvs Hn _. unfold ScalarHistogram.
  destruct (degenerate (binWidth numberOfBins rangeMin rangeMax)) eqn:Hdeg; [discriminate|].
  apply bin_loop_uchar_defined; try assumption; [lia|apply repeat_length].
Qed.

Lemma scalar_histogram_uchar_defined_witness :
  ScalarHistogram 8 (200 : uchar) 20 [0; 255; 20; 200; 110] <> Undefined.
Proof.
  apply (scalar_histogram_uchar_defined 8 200 20 [0; 255; 20; 200; 110]).
  - unfold is_uchar. lia.
  - unfold is_uchar. lia.
  - repeat constructor; unfold is_uchar; lia.
  - lia.
  - cbn. lia.
Defined.

(** Samples within the range are binned, whatever their number. *)
Lemma bin_loop_in_range (n : Z) (rmin rmax : uchar) (count : nat) :
  is_uchar rmin -> is_uchar rmax -> 0 < n < 2 ^ 32 ->
  degenerate (binWidth n rmin rmax) = false ->
  forall (values : list uchar) (i : nat) (bins : HistogramType),
    Forall (fun v => rmin <= v <= rmax) values -> length bins = Z.to_nat n ->
    exists bins', bin_loop n rmin rmax count i values bins = Ok bins'.
Proof.
  intros Hmin Hmax Hn Hdeg values.
  induction values as [|v rest IH]; intros i bins Hvs Hlen; cbn [bin_loop].
  - exists bins. reflexivity.
  - inversion Hvs as [|? ? Hv Hrest]; subst.
    assert (Hstep : exists bins', bin_sample n rmin rmax count i v bins = Ok bins'
                                  /\ length bins' = Z.to_nat n).
    { unfold bin_sample. cbn [sample_eqb sample_diff Sample_uchar].
      destruct (Z.eqb_spec v rmax) as [Heq|Hne].
      - destruct (increment_defined bins (length bins - 1) ltac:(lia)) as [bins' E].
        rewrite E. exists bins'. split; [reflexivity|].
        rewrite (increment_length _ _ _ E). exact Hlen.
      - destruct (bin_index_in_range n rmin rmax v Hmin Hmax Hn ltac:(lia) Hdeg)
          as (bin & Hbin & Bbin).
        rewrite Hbin.
        destruct (Z.ltb_spec bin 0); [lia|].
        destruct (Z.geb_spec bin n); [lia|].
        destruct (increment_defined bins (Z.to_nat bin) ltac:(lia)) as [bins' I].
        rewrite I. exists bins'. split; [reflexivity|].
        rewrite (increment_length _ _ _ I). exact Hlen. }
    destruct Hstep as (bins' & E & L). rewrite E. apply IH; assumption.
Qed.

Lemma scalar_histogram_in_range (n : Z) (rmin rmax : uchar) (values : list uchar) :
  is_uchar rmin -> is_uchar rmax -> 1 <= n < 2 ^ 32 ->
  Forall (fun v => rmin <= v <= rmax) values ->
  exists bins, ScalarHistogram n rmin rmax values = Ok bins.
Proof.
  intros Hmin Hmax Hn Hin. unfold ScalarHistogram.
  destruct (degenerate (binWidth n rmin rmax)) eqn:Hdeg; [eexists; reflexivity|].
  apply bin_loop_in_range; try assumption; [lia|apply repeat_length].
Qed.

(** X6.  [unsigned char] samples within [[rangeMin, rangeMax]] are never
    rejected, however many they are (as far as the [unsigned int] loop counter
    goes): a histogram of [numberOfBins] entries is returned. *)
Theorem in_range_samples_are_accepted
    (numberOfBins : Z) (rangeMin rangeMax : uchar) (values : list uchar) :
  is_uchar rangeMin -> is_uchar rangeMax -> 1 <= numberOfBins < 2 ^ 32 ->
  Forall (fun v => rangeMin <= v <= rangeMax) values ->
  Z.of_nat (length values) < 2 ^ 32 ->
  exists bins,
    ScalarHistogram numberOfBins rangeMin rangeMax values = Ok bins
    /\ length bins = Z.to_nat numberOfBins.
Proof.
  intros Hmin Hmax Hn Hin _.
  destruct (scalar_histogram_in_range numberOfBins rangeMin rangeMax values
              Hmin Hmax Hn Hin) as [bins E].
  exists bins. split; [exact E|]. exact (ScalarHistogram_length _ _ _ _ _ E).
Qed.

Lemma in_range_samples_are_accepted_witness :
  exists bins,
    ScalarHistogram 4 (0 : uchar) 255 [0; 63; 64; 255; 128; 200] = Ok bins
    /\ length bins = Z.to_nat 4.
Proof.
  apply (in_range_samples_are_accepted 4 0 255 [0; 63; 64; 255; 128; 200]).
  - unfold is_uchar. lia.
  - unfold is_uchar. lia.
  - lia.
  - repeat constructor; lia.
  - cbn. lia.
Defined.

(** A sample above [rangeMax] gets a bin index of at least [numberOfBins]. *)
Lemma bin_index_above (n : Z) (rmin rmax v : uchar) :
  is_uchar rmin -> is_uchar rmax -> is_uchar v -> 0 < n < 2 ^ 32 ->
  rmin < rmax -> rmax < v ->
  degenerate (binWidth n rmin rmax) = false ->
  exists bin,
    F32.to_int (F32.div (F32.of_Z (v - rmin)) (binWidth n rmin rmax)) = Some bin
    /\ n <= bin.
Proof.
  intros Hmin Hmax Hv Hn Hrange Habove Hdeg.
  destruct (quotient_uchar n rmin rmax v Hmin Hmax Hv Hn Hrange ltac:(lia) Hdeg)
    as (T & G & S & E & PS & HT0 & [HT1 HT2] & _ & Lo).
  exists T. split; [exact E|].
  unfold is_uchar in *.
  set (d := rmax - rmin) in *. set (k := v - rmin) in *.
  change (2 ^ 24 * (2 ^ 24 - 1)) with 281474959933440 in Lo.
  change ((2 ^ 24 + 1) * (2 ^ 24 + 1)) with 281475010265089 in Lo.
  assert (Hdk : d * 281475010265089 <= k * 281474959933440) by (unfold d, k; lia).
  destruct (Z.lt_ge_cases G (n * S)) as [Hlt|Hge].
  - exfalso.
    assert (PnS : 0 < n * S) by (apply Z.mul_pos_pos; lia).
    assert (H1 : n * S * (d * 281475010265089) <= n * S * (k * 281474959933440))
      by (apply Z.mul_le_mono_nonneg_l; lia).
    assert (H2 : G * (d * 281475010265089) < n * S * (d * 281475010265089))
      by (apply Z.mul_lt_mono_pos_r; [unfold d; lia|exact Hlt]).
    lia.
  - assert (n * S < (T + 1) * S) by lia.
    apply Z.mul_lt_mono_pos_r in H; lia.
Qed.

(** X7.  With [rangeMin < rangeMax], an [unsigned char] sample above
    [rangeMax] is always rejected: when the samples before it are within the
    range, the call throws, and the exception names that sample (its index
    and its value) with a bin index of at least [numberOfBins]; no histogram
    is returned, whatever samples follow. *)
Theorem sample_above_range_rejected
    (numberOfBins : Z) (rangeMin rangeMax v : uchar) (before after : list uchar) :
  is_uchar rangeMin -> is_uchar rangeMax -> is_uchar v ->
  1 <= numberOfBins < 2 ^ 32 ->
  rangeMin < rangeMax ->
  degenerate (binWidth numberOfBins rangeMin rangeMax) = false ->
  Forall (fun u => rangeMin <= u <= rangeMax) before ->
  Z.of_nat (length before) < 2 ^ 32 ->
  rangeMax < v ->
  exists bin,
    numberOfBins <= bin
    /\ ScalarHistogram numberOfBins rangeMin rangeMax (before ++ v :: after)
       = Throw {| diag_bin := bin;
                  diag_count := length (before ++ v :: after);
                  diag_rangeMin := F32.of_Z rangeMin;
                  diag_rangeMax := F32.of_Z rangeMax;
                  diag_index := length before;
                  diag_value := F32.of_Z v;
                  diag_binWidth := binWidth numberOfBins rangeMin rangeMax |}.
Proof.
  intros Hmin Hmax Hv Hn Hrange Hdeg Hbefore _ Habove.
  destruct (bin_index_above numberOfBins rangeMin rangeMax v Hmin Hmax Hv
              ltac:(lia) Hrange Habove Hdeg) as (bin & Hbin & Bbin).
  destruct (bin_loop_in_range numberOfBins rangeMin rangeMax
              (length (before ++ v :: after)) Hmin Hmax ltac:(lia) Hdeg
              before 0%nat (repeat F32.zero (Z.to_nat numberOfBins)) Hbefore
              (repeat_length _ _)) as [bins Hloop].
  exists bin. split; [exact Bbin|].
  unfold ScalarHistogram. rewrite Hdeg, bin_loop_app, Hloop.
  cbn [bin_loop Nat.add]. unfold bin_sample.
  cbn [sample_eqb sample_diff Sample_uchar].
  destruct (Z.eqb_spec v rangeMax); [lia|].
  rewrite Hbin.
  destruct (Z.ltb_spec bin 0); [lia|].
  destruct (Z.geb_spec bin numberOfBins); [reflexivity|lia].
Qed.

Lemma sample_above_range_rejected_witness :
  exists bin,
    4 <= bin
    /\ ScalarHistogram 4 (100 : uchar) 200 ([120; 200] ++ 201 :: [150; 0])
       = Throw {| diag_bin := bin;
                  diag_count := length ([120; 200] ++ 201 :: [150; 0]);
                  diag_rangeMin := F32.of_Z 100;
                  diag_rangeMax := F32.of_Z 200;
                  diag_index := length [120; 200];
                  diag_value := F32.of_Z 201;
                  diag_binWidth := binWidth 4 (100 : uchar) 200 |}.
Proof.
  apply (sample_above_range_rejected 4 100 200 201 [120; 200] [150; 0]).
  - unfold is_uchar. lia.
  - unfold is_uchar. lia.
  - unfold is_uchar. lia.
  - lia.
  - lia.
  - vm_compute. reflexivity.
  - repeat constructor; lia.
  - cbn. lia.
  - lia.
Defined.

Lemma leb_finite_pos (m1 m2 : positive) (e1 e2 : Z) :
  F32.leb (S754_finite false m1 e1) (S754_finite false m2 e2) = true ->
  e1 < e2 \/ (e1 = e2 /\ Zpos m1 <= Zpos m2).
Proof.
  unfold F32.leb, SFleb, SFcompare.
  destruct (Z.compare_spec e1 e2) as [E|E|E]; try discriminate; [|lia].
  change (PosDef.Pos.compare_cont Eq m1 m2) with (m1 ?= m2)%positive.
  destruct (Pos.compare_spec m1 m2) as [C|C|C]; try discriminate; intros _; right; lia.
Qed.

(** A sample at least one bin width below [rangeMin] gets a negative bin
    index. *)
Lemma bin_index_far_below (n : Z) (rmin rmax v : uchar) :
  is_uchar rmin -> is_uchar rmax -> is_uchar v -> 0 < n < 2 ^ 32 ->
  rmin < rmax -> v < rmin ->
  degenerate (binWidth n rmin rmax) = false ->
  F32.leb (binWidth n rmin rmax) (F32.of_Z (rmin - v)) = true ->
  exists bin,
    F32.to_int (F32.div (F32.of_Z (v - rmin)) (binWidth n rmin rmax)) = Some bin
    /\ bin < 0.
Proof.
  intros Hmin Hmax Hv Hn Hrange Hlt Hdeg Hfar.
  destruct (binWidth_finite n rmin rmax Hmin Hmax Hn ltac:(lia)) as (mb & eb & Hbw & Bmb & Beb).
  unfold is_uchar in *.
  destruct (Z.ltb_spec rmax rmin) as [|_]; [lia|].
  rewrite Hbw in *.
  assert (Heb : -43 <= eb).
  { destruct (Z.lt_ge_cases eb (-43)) as [Hl|]; [|assumption].
    rewrite (degenerate_small _ mb eb Bmb) in Hdeg by lia. discriminate. }
  set (k := rmin - v) in *.
  assert (Hk24 : 0 < k < 2 ^ 24) by (unfold k; change (2 ^ 24) with 16777216; lia).
  pose proof (int_m_bounds k Hk24) as Bmk.
  pose proof (int_e_bounds k Hk24) as Bek.
  assert (Hdk : Zdigits2 k <= 8)
    by (apply Zdigits2_le; [lia|change (2 ^ 8) with 256; unfold k; lia]).
  assert (Hek : int_e k <= -16) by (unfold int_e; lia).
  replace (v - rmin) with (- k) by (unfold k; lia).
  rewrite of_Z_pos in Hfar by exact Hk24. rewrite of_Z_neg by exact Hk24.
  apply leb_finite_pos in Hfar. rewrite Z2Pos.id in Hfar by lia.
  pose proof (div_normal true false (Z.to_pos (int_m k)) mb (int_e k) eb) as Dv.
  rewrite Z2Pos.id in Dv by lia.
  specialize (Dv Bmk Bmb ltac:(lia)). cbv zeta in Dv.
  set (c2 := if int_m k <? Zpos mb then 0 else 1) in *.
  destruct Dv as [Dv Bq].
  set (q := rne (int_m k * 2 ^ 24) (Zpos mb * 2 ^ c2)) in *.
  rewrite Dv. cbn [xorb].
  set (e := int_e k - eb - 24 + c2).
  assert (He : -23 <= e <= 4).
  { unfold e, c2. destruct (Z.ltb_spec (int_m k) (Zpos mb)); lia. }
  unfold F32.to_int. rewrite trunc_finite. rewrite Z2Pos.id by lia. fold e.
  set (T := if e <? 0 then q / 2 ^ (- e) else q * 2 ^ e).
  assert (HT : 1 <= T < 2 ^ 31).
  { unfold T. change (2 ^ 24) with 16777216 in Bq. change (2 ^ 23) with 8388608 in Bq.
    change (2 ^ 31) with 2147483648.
    destruct (Z.ltb_spec e 0) as [Hneg|Hpos].
    - pose proof (pow2_pos (- e) ltac:(lia)) as Pp.
      pose proof (Z.pow_le_mono_r 2 (- e) 23 ltac:(lia) ltac:(lia)) as P23.
      change (2 ^ 23) with 8388608 in P23.
      split.
      + apply Z.div_le_lower_bound; lia.
      + assert (q / 2 ^ (- e) <= q); [|lia].
        apply Z.div_le_upper_bound; [lia|].
        assert (1 * q <= 2 ^ (- e) * q) by (apply Z.mul_le_mono_nonneg_r; lia). lia.
    - pose proof (pow2_pos e ltac:(lia)) as Pp.
      pose proof (Z.pow_le_mono_r 2 e 4 ltac:(lia) ltac:(lia)) as Hp4.
      change (2 ^ 4) with 16 in Hp4.
      assert (q * 2 ^ e <= 16777216 * 16) by (apply Z.mul_le_mono_nonneg; lia).
      assert (1 * 1 <= q * 2 ^ e) by (apply Z.mul_le_mono_nonneg; lia).
      lia. }
  assert (P31 : 2 ^ 31 = 2147483648) by reflexivity.
  exists (- T). split; [|lia].
  destruct (Z.leb_spec (- 2 ^ 31) (- T)) as [_|Hbad]; [|lia].
  destruct (Z.ltb_spec (- T) (2 ^ 31)) as [_|Hbad]; [reflexivity|lia].
Qed.

(** X8.  With [rangeMin < rangeMax], an [unsigned char] sample that is at
    least one bin width below [rangeMin] is rejected: when the samples before
    it are within the range, the call throws, and the exception names that
    sample with a negative bin index.  (A sample less than one bin width
    below [rangeMin] is counted in the first bin instead.) *)
Theorem sample_far_below_range_rejected
    (numberOfBins : Z) (rangeMin rangeMax v : uchar) (before after : list uchar) :
  is_uchar rangeMin -> is_uchar rangeMax -> is_uchar v ->
  1 <= numberOfBins < 2 ^ 32 ->
  rangeMin < rangeMax ->
  degenerate (binWidth numberOfBins rangeMin rangeMax) = false ->
  Forall (fun u => rangeMin <= u <= rangeMax) before ->
  Z.of_nat (length before) < 2 ^ 32 ->
  v < rangeMin ->
  F32.leb (binWidth numberOfBins rangeMin rangeMax) (F32.of_Z (rangeMin - v)) = true ->
  exists bin,
    bin < 0
    /\ ScalarHistogram numberOfBins rangeMin rangeMax (before ++ v :: after)
       = Throw {| diag_bin := bin;
                  diag_count := length (before ++ v :: after);
                  diag_rangeMin := F32.of_Z rangeMin;
                  diag_rangeMax := F32.of_Z rangeMax;
                  diag_index := length before;
                  diag_value := F32.of_Z v;
                  diag_binWidth := binWidth numberOfBins rangeMin rangeMax |}.
Proof.
  intros Hmin Hmax Hv Hn Hrange Hdeg Hbefore _ Hbelow Hfar.
  destruct (bin_index_far_below numberOfBins rangeMin rangeMax v Hmin Hmax Hv
              ltac:(lia) Hrange Hbelow Hdeg Hfar) as (bin & Hbin & Bbin).
  destruct (bin_loop_in_range numberOfBins rangeMin rangeMax
              (length (before ++ v :: after)) Hmin Hmax ltac:(lia) Hdeg
              before 0%nat (repeat F32.zero (Z.to_nat numberOfBins)) Hbefore
              (repeat_length _ _)) as [bins Hloop].
  exists bin. split; [exact Bbin|].
  unfold ScalarHistogram. rewrite Hdeg, bin_loop_app, Hloop.
  cbn [bin_loop Nat.add]. unfold bin_sample.
  cbn [sample_eqb sample_diff Sample_uchar].
  destruct (Z.eqb_spec v rangeMax); [lia|].
  rewrite Hbin.
  destruct (Z.ltb_spec bin 0); [reflexivity|lia].
Qed.

Lemma sample_far_below_range_rejected_witness :
  exists bin,
    bin < 0
    /\ ScalarHistogram 4 (100 : uchar) 200 ([120; 200] ++ 75 :: [150; 0])
       = Throw {| diag_bin := bin;
                  diag_count := length ([120; 200] ++ 75 :: [150; 0]);
                  diag_rangeMin := F32.of_Z 100;
                  diag_rangeMax := F32.of_Z 200;
                  diag_index := length [120; 200];
                  diag_value := F32.of_Z 75;
                  diag_binWidth := binWidth 4 (100 : uchar) 200 |}.
Proof.
  apply (sample_far_below_range_rejected 4 100 200 75 [120; 200] [150; 0]).
  - unfold is_uchar. lia.
  - unfold is_uchar. lia.
  - unfold is_uchar. lia.
  - lia.
  - lia.
  - vm_compute. reflexivity.
  - repeat constructor; lia.
  - cbn. lia.
  - lia.
  - vm_compute. reflexivity.
Defined.

(** X9.  [numberOfBins = 0] is not checked.  Without samples the empty
    histogram is returned; with samples no histogram is ever returned: the
    first sample writes to [bins[bins.size() - 1]] of an empty vector when it
    equals [rangeMax], converts NaN to [int] when [rangeMin = rangeMax]
    (both undefined), and otherwise throws for bin 0. *)
Theorem zero_bins_never_return_a_histogram
    (rangeMin rangeMax v : uchar) (rest : list uchar) :
  is_uchar rangeMin -> is_uchar rangeMax -> is_uchar v ->
  ScalarHistogram 0 rangeMin rangeMax [] = Ok []
  /\ ScalarHistogram 0 rangeMin rangeMax (v :: rest)
     = if (v =? rangeMax) || (rangeMin =? rangeMax) then Undefined
       else Throw {| diag_bin := 0;
                     diag_count := length (v :: rest);
                     diag_rangeMin := F32.of_Z rangeMin;
                     diag_rangeMax := F32.of_Z rangeMax;
                     diag_index := 0;
                     diag_value := F32.of_Z v;
                     diag_binWidth := binWidth 0 rangeMin rangeMax |}.
Proof.
  unfold is_uchar. intros Hmin Hmax Hv.
  assert (Hof : forall z, -255 <= z <= 255 -> z <> 0 ->
                  exists s m e, F32.of_Z z = S754_finite s m e).
  { intros z Hz Hz0. destruct (Z.lt_ge_cases z 0).
    - replace z with (- (- z)) by lia. rewrite of_Z_neg
        by (change (2 ^ 24) with 16777216; lia). eauto.
    - rewrite of_Z_pos by (change (2 ^ 24) with 16777216; lia). eauto. }
  assert (Hw : (rangeMin = rangeMax /\ binWidth 0 rangeMin rangeMax = S754_nan)
               \/ (rangeMin <> rangeMax
                   /\ exists s, binWidth 0 rangeMin rangeMax = S754_infinity s)).
  { unfold binWidth. cbn [sample_diff Sample_uchar].
    destruct (Z.eq_dec rangeMin rangeMax) as [->|Hne].
    - left. rewrite Z.sub_diag. split; reflexivity.
    - right. split; [exact Hne|].
      destruct (Hof (rangeMax - rangeMin) ltac:(lia) ltac:(lia)) as (s & m & e & ->).
      exists (xorb s false). reflexivity. }
  assert (Hdeg : degenerate (binWidth 0 rangeMin rangeMax) = false).
  { destruct Hw as [[_ ->]|[_ [s ->]]]; [reflexivity|destruct s; reflexivity]. }
  unfold ScalarHistogram. rewrite Hdeg. split; [reflexivity|].
  cbn [bin_loop Z.to_nat repeat]. unfold bin_sample.
  cbn [sample_eqb sample_diff Sample_uchar length Nat.sub increment].
  destruct (Z.eqb_spec v rangeMax) as [Hvmax|Hvmax]; [reflexivity|].
  cbn [orb].
  destruct Hw as [[Heq Hnan]|[Hne [s Hinf]]].
  - destruct (Z.eqb_spec rangeMin rangeMax); [|contradiction].
    rewrite Hnan.
    replace (F32.div (F32.of_Z (v - rangeMin)) S754_nan) with S754_nan; [reflexivity|].
    destruct (F32.of_Z (v - rangeMin)); reflexivity.
  - destruct (Z.eqb_spec rangeMin rangeMax); [contradiction|].
    assert (Hq : F32.to_int (F32.div (F32.of_Z (v - rangeMin))
                               (binWidth 0 rangeMin rangeMax)) = Some 0).
    { rewrite Hinf. destruct (Z.eq_dec v rangeMin) as [->|Hvne].
      - rewrite Z.sub_diag. reflexivity.
      - destruct (Hof (v - rangeMin) ltac:(lia) ltac:(lia)) as (s' & m & e & ->).
        reflexivity. }
    rewrite Hq. reflexivity.
Qed.

Lemma zero_bins_never_return_a_histogram_witness :
  ScalarHistogram 0 (0 : uchar) 255 [] = Ok []
  /\ ScalarHistogram 0 (0 : uchar) 255 (7 :: [255])
     = if (7 =? 255) || (0 =? 255) then Undefined
       else Throw {| diag_bin := 0;
                     diag_count := length (7 :: [255]);
                     diag_rangeMin := F32.of_Z 0;
                     diag_rangeMax := F32.of_Z 255;
                     diag_index := 0;
                     diag_value := F32.of_Z 7;
                     diag_binWidth := binWidth 0 (0 : uchar) 255 |}.
Proof.
  apply (zero_bins_never_return_a_histogram 0 255 7 [255]); unfold is_uchar; lia.
Defined.

(** A normal [float] of at least [2 ^ -19] is not degenerate as a bin
    width. *)
Lemma degenerate_large (s : bool) (m : positive) (e : Z) :
  2 ^ 23 <= Zpos m < 2 ^ 24 -> -42 <= e <= 0 ->
  degenerate (S754_finite s m e) = false.
Proof.
  intros Hm He. unfold degenerate, F32.sub, F32.abs, F32.zero.
  cbn [SFsub SFabs F64.of_float]. unfold F64.prec, F64.emax.
  pose proof (binary_round_correct 53 1024 eq_refl false m e (e - 29)) as R.
  cbv zeta in R. rewrite (digits24 _ Hm) in R.
  replace (fexp 53 1024 (24 + e)) with (e - 29) in R
    by (unfold fexp; change (emin 53 1024) with (-1074); lia).
  specialize (R ltac:(lia) ltac:(lia)).
  rewrite Z.sub_diag, Z.pow_0_r, rne_one in R.
  replace (e - (e - 29)) with 29 in R by lia.
  rewrite R. unfold finish.
  change (2 ^ 29) with 536870912. change (2 ^ 53) with 9007199254740992.
  change (2 ^ 23) with 8388608 in Hm. change (2 ^ 24) with 16777216 in Hm.
  destruct (Z.eqb_spec (Zpos m * 536870912) 0); [lia|].
  destruct (Z.eqb_spec (Zpos m * 536870912) 9007199254740992); [lia|].
  destruct (Z.leb_spec (e - 29) (1024 - 53)); [|lia].
  unfold F64.lit_1em6, SFltb, SFcompare.
  destruct (Z.compare_spec (e - 29) (-72)); try lia; reflexivity.
Qed.

Lemma binWidth_not_degenerate (n : Z) (rmin rmax : uchar) :
  is_uchar rmin -> is_uchar rmax -> 1 <= n <= 2 ^ 19 -> rmin <> rmax ->
  degenerate (binWidth n rmin rmax) = false.
Proof.
  unfold is_uchar. intros Hmin Hmax Hn Hne.
  change (2 ^ 19) with 524288 in Hn.
  assert (Hn24 : 0 < n < 2 ^ 24) by (change (2 ^ 24) with 16777216; lia).
  pose proof (int_m_bounds n Hn24) as Bmn.
  pose proof (int_e_bounds n Hn24) as Ben.
  unfold binWidth. cbn [sample_diff Sample_uchar]. rewrite (of_Z_pos n Hn24).
  set (d := Z.abs (rmax - rmin)).
  assert (Hd24 : 0 < d < 2 ^ 24) by (unfold d; change (2 ^ 24) with 16777216; lia).
  pose proof (int_m_bounds d Hd24) as Bmd.
  pose proof (int_e_bounds d Hd24) as Bed.
  assert (Ed : F32.of_Z (rmax - rmin)
               = S754_finite (rmax <? rmin) (Z.to_pos (int_m d)) (int_e d)).
  { destruct (Z.ltb_spec rmax rmin) as [Hl|Hg].
    - replace (rmax - rmin) with (- d) by (unfold d; lia). apply of_Z_neg. exact Hd24.
    - replace (rmax - rmin) with d by (unfold d; lia). apply of_Z_pos. exact Hd24. }
  rewrite Ed.
  pose proof (div_normal (rmax <? rmin) false (Z.to_pos (int_m d)) (Z.to_pos (int_m n))
                (int_e d) (int_e n)) as Dv.
  rewrite !Z2Pos.id in Dv by lia.
  specialize (Dv Bmd Bmn ltac:(lia)). cbv zeta in Dv. destruct Dv as [Dv Bq].
  rewrite Dv.
  apply degenerate_large; [rewrite Z2Pos.id by lia; exact Bq|].
  (* the exponent of the quotient *)
  pose proof (Zdigits2_pos n ltac:(lia)) as Pn.
  pose proof (Zdigits2_pos d ltac:(lia)) as Pd.
  assert (Dn : Zdigits2 n <= 20)
    by (apply Zdigits2_le; [lia|change (2 ^ 20) with 1048576; lia]).
  destruct (Z.ltb_spec (int_m d) (int_m n)) as [Hlt|Hge]; [|unfold int_e in *; lia].
  (* the significand of [d] is below that of [n]: one of them has spare digits *)
  destruct (Z.eq_dec (Zdigits2 n) 20) as [E20|N20]; [|unfold int_e in *; lia].
  destruct (Z.eq_dec (Zdigits2 d) 1) as [E1|N1]; [|unfold int_e in *; lia].
  exfalso.
  pose proof (Zdigits2_bounds n ltac:(lia)) as [Ln _]. rewrite E20 in Ln.
  change (2 ^ (20 - 1)) with 524288 in Ln.
  assert (n = 524288) by lia. subst n.
  pose proof (Zdigits2_bounds d ltac:(lia)) as [_ Ud]. rewrite E1 in Ud.
  change (2 ^ 1) with 2 in Ud. assert (d = 1) by lia.
  unfold int_m in Hlt. rewrite E20, E1 in Hlt.
  replace d with 1 in Hlt by lia. cbn in Hlt. lia.
Qed.

(** X10.  Up to 524288 bins, the bin width of an [unsigned char] range is
    degenerate exactly when the range is empty ([rangeMin = rangeMax]): the
    all-zero histogram is returned without looking at the samples in that
    case and in no other. *)
Theorem degenerate_only_for_empty_range
    (numberOfBins : Z) (rangeMin rangeMax : uchar) (values : list uchar) :
  is_uchar rangeMin -> is_uchar rangeMax -> 1 <= numberOfBins <= 2 ^ 19 ->
  (degenerate (binWidth numberOfBins rangeMin rangeMax) = true <-> rangeMin = rangeMax)
  /\ (rangeMin = rangeMax ->
      ScalarHistogram numberOfBins rangeMin rangeMax values
      = Ok (repeat F32.zero (Z.to_nat numberOfBins))).
Proof.
  intros Hmin Hmax Hn.
  assert (Hn32 : 0 < numberOfBins < 2 ^ 32)
    by (change (2 ^ 19) with 524288 in Hn; change (2 ^ 32) with 4294967296; lia).
  assert (Hiff : degenerate (binWidth numberOfBins rangeMin rangeMax) = true
                 <-> rangeMin = rangeMax).
  { split.
    - intros Hdeg. destruct (Z.eq_dec rangeMin rangeMax) as [|Hne]; [assumption|].
      rewrite binWidth_not_degenerate in Hdeg by assumption. discriminate.
    - intros ->. apply equal_range_degenerate. exact Hn32. }
  split; [exact Hiff|].
  intros Heq. unfold ScalarHistogram.
  rewrite (proj2 Hiff Heq). reflexivity.
Qed.

Lemma degenerate_only_for_empty_range_witness :
  (degenerate (binWidth 16 (9 : uchar) 9) = true <-> 9 = 9)
  /\ (9 = 9 ->
      ScalarHistogram 16 (9 : uchar) 9 [9; 0; 255]
      = Ok (repeat F32.zero (Z.to_nat 16))).
Proof.
  apply (degenerate_only_for_empty_range 16 9 9 [9; 0; 255]).
  - unfold is_uchar. lia.
  - unfold is_uchar. lia.
  - change (2 ^ 19) with 524288. lia.
Defined.

(** ** The bin of a sample, against exact arithmetic *)

(** The integer part [T] of a fraction within three roundings of [X / d]
    is the integer part of [X / d], or one less when [d] divides [X]. *)
Lemma floor_of_rounded (T d X : Z) :
  0 < d -> 0 <= T -> 0 <= X <= 4161536 ->
  (T * d) * 281474943156225 <= X * 281474993487872 ->
  X * 281474959933440 < ((T + 1) * d) * 281475010265089 ->
  T = X / d \/ (T = X / d - 1 /\ X mod d = 0).
Proof.
  intros Hd HT HX Up Lo.
  pose proof (Z.div_mod X d ltac:(lia)) as Dm.
  pose proof (Z.mod_pos_bound X d Hd) as Bm.
  set (j := X / d) in *. set (r := X mod d) in *.
  assert (H1 : T * d <= X) by lia.
  assert (H2 : X <= (T + 1) * d) by lia.
  assert (H3 : T < j + 1).
  { apply (Z.mul_lt_mono_pos_r d); [exact Hd|]. lia. }
  destruct (Z.eq_dec r 0) as [Hr|Hr].
  - assert (H4 : j <= T + 1).
    { apply (Z.mul_le_mono_pos_r _ _ d); [exact Hd|]. lia. }
    destruct (Z.eq_dec T j); [left; assumption|right; split; lia].
  - assert (H4 : j < T + 1).
    { apply (Z.mul_lt_mono_pos_r d); [exact Hd|]. lia. }
    left. lia.
Qed.

(** The bin index of an in-range sample below [rangeMax]. *)
Lemma bin_index_exact (n : Z) (rmin rmax v : uchar) :
  is_uchar rmin -> is_uchar rmax -> 1 <= n <= 2 ^ 14 ->
  rmin <= v < rmax ->
  degenerate (binWidth n rmin rmax) = false ->
  exists bin,
    F32.to_int (F32.div (F32.of_Z (v - rmin)) (binWidth n rmin rmax)) = Some bin
    /\ 0 <= bin < n
    /\ (bin = (v - rmin) * n / (rmax - rmin)
        \/ (bin = (v - rmin) * n / (rmax - rmin) - 1
            /\ ((v - rmin) * n) mod (rmax - rmin) = 0)).
Proof.
  intros Hmin Hmax Hn Hv Hdeg.
  assert (Hn32 : 0 < n < 2 ^ 32)
    by (change (2 ^ 14) with 16384 in Hn; change (2 ^ 32) with 4294967296; lia).
  destruct (bin_index_in_range n rmin rmax v Hmin Hmax Hn32 Hv Hdeg) as (bin & Hbin & Bbin).
  exists bin. split; [exact Hbin|]. split; [exact Bbin|].
  unfold is_uchar in *.
  destruct (Z.eq_dec v rmin) as [->|Hne].
  { rewrite Z.sub_diag in *. cbn [Z.mul]. rewrite Z.div_0_l by lia.
    left.
    destruct (binWidth_finite n rmin rmax ltac:(unfold is_uchar; lia)
                ltac:(unfold is_uchar; lia) Hn32 ltac:(lia)) as (mb & eb & Hbw & _).
    rewrite Hbw in Hbin. change (Some 0 = Some bin) in Hbin.
    injection Hbin as <-. reflexivity. }
  destruct (quotient_uchar n rmin rmax v Hmin Hmax ltac:(unfold is_uchar; lia) Hn32
              ltac:(lia) ltac:(lia) Hdeg)
    as (T & G & S & E & PS & HT0 & [HT1 HT2] & Up & Lo).
  rewrite Hbin in E. injection E as <-.
  set (d := rmax - rmin) in *. set (k := v - rmin) in *.
  change ((2 ^ 24 - 1) * (2 ^ 24 - 1)) with 281474943156225 in Up.
  change (2 ^ 24 * (2 ^ 24 + 1)) with 281474993487872 in Up.
  change (2 ^ 24 * (2 ^ 24 - 1)) with 281474959933440 in Lo.
  change ((2 ^ 24 + 1) * (2 ^ 24 + 1)) with 281475010265089 in Lo.
  assert (Hd : 0 < d <= 255) by (unfold d; lia).
  assert (Hk : 0 < k <= 254) by (unfold k; lia).
  assert (HX : 0 <= k * n <= 4161536).
  { change (2 ^ 14) with 16384 in Hn.
    split; [apply Z.mul_nonneg_nonneg; lia|].
    assert (k * n <= 254 * 16384) by (apply Z.mul_le_mono_nonneg; lia). lia. }
  apply floor_of_rounded; try lia.
  - apply (Z.mul_le_mono_pos_l _ _ S); [exact PS|].
    replace (S * (bin * d * 281474943156225))
      with ((bin * S) * (d * 281474943156225)) by ring.
    replace (S * (k * n * 281474993487872))
      with (n * S * (k * 281474993487872)) by ring.
    assert (bin * S * (d * 281474943156225) <= G * (d * 281474943156225))
      by (apply Z.mul_le_mono_nonneg_r; lia).
    lia.
  - apply (Z.mul_lt_mono_pos_l S); [exact PS|].
    replace (S * (k * n * 281474959933440))
      with (n * S * (k * 281474959933440)) by ring.
    replace (S * ((bin + 1) * d * 281475010265089))
      with (((bin + 1) * S) * (d * 281475010265089)) by ring.
    assert (G * (d * 281475010265089) < (bin + 1) * S * (d * 281475010265089))
      by (apply Z.mul_lt_mono_pos_r; lia).
    lia.
Qed.

(** X11.  Up to 16384 bins, an [unsigned char] sample [v] with
    [rangeMin <= v < rangeMax] is counted in the bin of exact arithmetic,
    [floor ((v - rangeMin) * numberOfBins / (rangeMax - rangeMin))], except
    that a sample that lies exactly on the boundary between two bins may be
    counted in the lower one: the three roundings never move a sample by
    more than that.  [bin] is the value of [int bin] in the source. *)
Theorem sample_counted_in_exact_bin
    (numberOfBins : Z) (rangeMin rangeMax v : uchar)
    (count i : nat) (bins : HistogramType) :
  is_uchar rangeMin -> is_uchar rangeMax -> 1 <= numberOfBins <= 2 ^ 14 ->
  rangeMin <= v < rangeMax ->
  length bins = Z.to_nat numberOfBins ->
  exists (bin : Z) (bins' : HistogramType),
    F32.to_int (F32.div (F32.of_Z (v - rangeMin))
                  (binWidth numberOfBins rangeMin rangeMax)) = Some bin
    /\ bin_sample numberOfBins rangeMin rangeMax count i v bins = Ok bins'
    /\ increment bins (Z.to_nat bin) = Some bins'
    /\ 0 <= bin < numberOfBins
    /\ (bin = (v - rangeMin) * numberOfBins / (rangeMax - rangeMin)
        \/ (bin = (v - rangeMin) * numberOfBins / (rangeMax - rangeMin) - 1
            /\ ((v - rangeMin) * numberOfBins) mod (rangeMax - rangeMin) = 0)).
Proof.
  intros Hmin Hmax Hn Hv Hlen.
  assert (Hdeg : degenerate (binWidth numberOfBins rangeMin rangeMax) = false).
  { apply binWidth_not_degenerate; try assumption; [|lia].
    change (2 ^ 14) with 16384 in Hn. change (2 ^ 19) with 524288. lia. }
  destruct (bin_index_exact numberOfBins rangeMin rangeMax v Hmin Hmax Hn Hv Hdeg)
    as (bin & Hbin & Bbin & Hideal).
  destruct (increment_defined bins (Z.to_nat bin) ltac:(lia)) as [bins' I].
  exists bin, bins'.
  split; [exact Hbin|].
  split; [|split; [exact I|split; [exact Bbin|exact Hideal]]].
  unfold bin_sample. cbn [sample_eqb sample_diff Sample_uchar].
  destruct (Z.eqb_spec v rangeMax); [lia|].
  rewrite Hbin.
  destruct (Z.ltb_spec bin 0); [lia|].
  destruct (Z.geb_spec bin numberOfBins); [lia|].
  rewrite I. reflexivity.
Qed.

Lemma sample_counted_in_exact_bin_witness :
  exists (bin : Z) (bins' : HistogramType),
    F32.to_int (F32.div (F32.of_Z (4 - 0)) (binWidth 30 (0 : uchar) 9)) = Some bin
    /\ bin_sample 30 (0 : uchar) 9 1 0 4 (repeat F32.zero 30) = Ok bins'
    /\ increment (repeat F32.zero 30) (Z.to_nat bin) = Some bins'
    /\ 0 <= bin < 30
    /\ (bin = (4 - 0) * 30 / (9 - 0)
        \/ (bin = (4 - 0) * 30 / (9 - 0) - 1 /\ ((4 - 0) * 30) mod (9 - 0) = 0)).
Proof.
  apply (sample_counted_in_exact_bin 30 0 9 4 1 0 (repeat F32.zero 30)).
  - unfold is_uchar. lia.
  - unfold is_uchar. lia.
  - change (2 ^ 14) with 16384. lia.
  - lia.
  - reflexivity.
Defined.

(** A sample on a bin boundary that is counted in the lower bin: with 14
    bins over [[0, 2]] the bin width 1/7 is rounded up, and the sample 1 is
    counted in bin 6 instead of bin 7. *)
Lemma boundary_sample_in_lower_bin :
  F32.to_int (F32.div (F32.of_Z (1 - 0)) (binWidth 14 (0 : uchar) 2)) = Some 6
  /\ (1 - 0) * 14 / (2 - 0) = 7
  /\ ScalarHistogram 14 (0 : uchar) 2 [1]
     = Ok (repeat F32.zero 6 ++ [F32.one] ++ repeat F32.zero 7).
Proof. repeat split; vm_compute; reflexivity. Qed.

(** ** Bins as counters *)

Lemma bin_sample_bumps (n : Z) (rmin rmax v : uchar) (count i : nat) (counts : list Z) :
  is_uchar rmin -> is_uchar rmax -> 0 < n < 2 ^ 32 ->
  degenerate (binWidth n rmin rmax) = false ->
  rmin <= v <= rmax ->
  length counts = Z.to_nat n ->
  Forall (fun c => 0 <= c < 2 ^ 24) counts ->
  (bin_index n rmin rmax v < length counts)%nat
  /\ bin_sample n rmin rmax count i v (map F32.of_Z counts)
     = Ok (map F32.of_Z (bump counts (bin_index n rmin rmax v))).
Proof.
  intros Hmin Hmax Hn Hdeg Hv Hlen Hsmall.
  unfold bin_sample, bin_index. cbn [sample_eqb sample_diff Sample_uchar].
  destruct (Z.eqb_spec v rmax) as [Heq|Hne].
  - split; [lia|].
    rewrite length_map, Hlen, increment_counts by (auto; lia). reflexivity.
  - destruct (bin_index_in_range n rmin rmax v Hmin Hmax Hn ltac:(lia) Hdeg)
      as (bin & Hbin & Bbin).
    rewrite Hbin. split; [lia|].
    destruct (Z.ltb_spec bin 0); [lia|].
    destruct (Z.geb_spec bin n); [lia|].
    rewrite increment_counts by (auto; lia). reflexivity.
Qed.

Lemma bin_loop_bumps (n : Z) (rmin rmax : uchar) (count : nat) :
  is_uchar rmin -> is_uchar rmax -> 0 < n < 2 ^ 32 ->
  degenerate (binWidth n rmin rmax) = false ->
  forall (values : list uchar) (i : nat) (counts : list Z),
    Forall (fun v => rmin <= v <= rmax) values ->
    length counts = Z.to_nat n ->
    Forall (fun c => 0 <= c) counts ->
    zsum counts + Z.of_nat (length values) <= 2 ^ 24 ->
    bin_loop n rmin rmax count i values (map F32.of_Z counts)
    = Ok (map F32.of_Z (fold_left bump (map (bin_index n rmin rmax) values) counts)).
Proof.
  intros Hmin Hmax Hn Hdeg values.
  induction values as [|v rest IH]; intros i counts Hin Hlen Hnn Hsum; [reflexivity|].
  inversion Hin as [|? ? Hv Hrest]; subst.
  cbn [length] in Hsum. rewrite Nat2Z.inj_succ in Hsum.
  destruct (nonneg_le_sum counts Hnn) as [Hs0 Hle].
  assert (Hsmall : Forall (fun c => 0 <= c < 2 ^ 24) counts).
  { rewrite Forall_forall in *. intros c Hc.
    specialize (Hnn c Hc). specialize (Hle c Hc). cbn in *. lia. }
  destruct (bin_sample_bumps n rmin rmax v count i counts Hmin Hmax Hn Hdeg Hv Hlen Hsmall)
    as [Hj Hstep].
  cbn [bin_loop map fold_left]. rewrite Hstep.
  apply IH; [exact Hrest| | |].
  - rewrite bump_length. exact Hlen.
  - apply bump_nonneg. exact Hnn.
  - rewrite bump_sum by exact Hj. lia.
Qed.

Lemma nth_bump (counts : list Z) :
  forall j i : nat,
    nth i (bump counts j) 0
    = nth i counts 0 + (if Nat.eq_dec j i then if (i <? length counts)%nat then 1 else 0 else 0).
Proof.
  induction counts as [|c rest IH]; intros j i.
  - destruct j, i; cbn [bump nth length]; destruct (Nat.eq_dec _ _); reflexivity.
  - destruct j as [|j], i as [|i]; cbn [bump nth length].
    + destruct (Nat.eq_dec 0 0); [|contradiction]. cbn. lia.
    + destruct (Nat.eq_dec 0 (S i)); [discriminate|]. lia.
    + destruct (Nat.eq_dec (S j) 0); [discriminate|]. lia.
    + rewrite IH. destruct (Nat.eq_dec j i), (Nat.eq_dec (S j) (S i)); try lia.
      change (S i <? S (length rest))%nat with (i <? length rest)%nat. reflexivity.
Qed.

Lemma fold_bump_spec (js : list nat) :
  forall counts : list Z,
    length (fold_left bump js counts) = length counts
    /\ forall i, (i < length counts)%nat ->
         nth i (fold_left bump js counts) 0
         = nth i counts 0 + Z.of_nat (count_occ Nat.eq_dec js i).
Proof.
  induction js as [|j rest IH]; intros counts; cbn [fold_left count_occ].
  - split; [reflexivity|]. intros. lia.
  - destruct (IH (bump counts j)) as [L N]. rewrite bump_length in L, N.
    split; [exact L|]. intros i Hi. rewrite (N i Hi), nth_bump.
    destruct (Nat.eq_dec j i) as [E|E].
    + destruct (Nat.ltb_spec i (length counts)); lia.
    + lia.
Qed.

Lemma nth_map_seq {A : Type} (f : nat -> A) (k i : nat) (d : A) :
  (i < k)%nat -> nth i (map f (seq 0 k)) d = f i.
Proof.
  intros Hi. rewrite (nth_indep _ d (f 0%nat)) by (rewrite length_map, length_seq; exact Hi).
  rewrite map_nth, seq_nth by exact Hi. reflexivity.
Qed.

Lemma fold_bump_zeros (js : list nat) (k : nat) :
  fold_left bump js (repeat 0 k)
  = map (fun j => Z.of_nat (count_occ Nat.eq_dec js j)) (seq 0 k).
Proof.
  destruct (fold_bump_spec js (repeat 0 k)) as [L N]. rewrite repeat_length in L, N.
  apply (nth_ext _ _ 0 0).
  - rewrite L, length_map, length_seq. reflexivity.
  - intros i Hi. rewrite L in Hi. rewrite (N i Hi), nth_repeat.
    rewrite nth_map_seq by exact Hi. reflexivity.
Qed.

Lemma scalar_histogram_counts (n : Z) (rmin rmax : uchar) (values : list uchar) :
  is_uchar rmin -> is_uchar rmax -> 1 <= n < 2 ^ 32 ->
  Forall (fun v => rmin <= v <= rmax) values ->
  degenerate (binWidth n rmin rmax) = false ->
  Z.of_nat (length values) <= 2 ^ 24 ->
  ScalarHistogram n rmin rmax values
  = Ok (map (fun j => F32.of_Z (samples_in_bin n rmin rmax values j))
          (seq 0 (Z.to_nat n))).
Proof.
  intros Hmin Hmax Hn Hin Hdeg Hlen.
  unfold ScalarHistogram. rewrite Hdeg, zeros_counts.
  rewrite (bin_loop_bumps n rmin rmax (length values) Hmin Hmax ltac:(lia) Hdeg).
  - rewrite fold_bump_zeros, map_map. reflexivity.
  - exact Hin.
  - apply repeat_length.
  - apply nonneg_repeat_zero.
  - rewrite zsum_repeat_zero. lia.
Qed.

(** X12.  The histogram of at most 2 ^ 24 in-range [unsigned char] samples
    holds, in bin [j], the number of samples whose bin index is [j], as a
    [float] that is exactly that integer. *)
Theorem bins_count_samples_by_index
    (numberOfBins : Z) (rangeMin rangeMax : uchar) (values : list uchar) :
  is_uchar rangeMin -> is_uchar rangeMax -> 1 <= numberOfBins < 2 ^ 32 ->
  Forall (fun v => rangeMin <= v <= rangeMax) values ->
  degenerate (binWidth numberOfBins rangeMin rangeMax) = false ->
  Z.of_nat (length values) <= 2 ^ 24 ->
  exists bins,
    ScalarHistogram numberOfBins rangeMin rangeMax values = Ok bins
    /\ length bins = Z.to_nat numberOfBins
    /\ forall j, (j < Z.to_nat numberOfBins)%nat ->
         nth j bins F32.zero
         = F32.of_Z (samples_in_bin numberOfBins rangeMin rangeMax values j)
         /\ integer_value (nth j bins F32.zero)
            = Some (samples_in_bin numberOfBins rangeMin rangeMax values j).
Proof.
  intros Hmin Hmax Hn Hin Hdeg Hlen.
  eexists. split; [apply scalar_histogram_counts; assumption|].
  split; [rewrite length_map, length_seq; reflexivity|].
  intros j Hj.
  rewrite nth_map_seq by exact Hj.
  split; [reflexivity|].
  apply integer_value_of_Z. unfold samples_in_bin.
  pose proof (count_occ_bound Nat.eq_dec j
                (map (bin_index numberOfBins rangeMin rangeMax) values)) as B.
  rewrite length_map in B. lia.
Qed.

Lemma bins_count_samples_by_index_witness :
  exists bins,
    ScalarHistogram 4 (0 : uchar) 255 [0; 63; 64; 255; 128; 200] = Ok bins
    /\ length bins = Z.to_nat 4
    /\ forall j, (j < Z.to_nat 4)%nat ->
         nth j bins F32.zero
         = F32.of_Z (samples_in_bin 4 (0 : uchar) 255 [0; 63; 64; 255; 128; 200] j)
         /\ integer_value (nth j bins F32.zero)
            = Some (samples_in_bin 4 (0 : uchar) 255 [0; 63; 64; 255; 128; 200] j).
Proof.
  apply (bins_count_samples_by_index 4 0 255 [0; 63; 64; 255; 128; 200]).
  - unfold is_uchar. lia.
  - unfold is_uchar. lia.
  - lia.
  - repeat constructor; lia.
  - vm_compute. reflexivity.
  - cbn. lia.
Defined.

(** X13.  The histogram does not depend on the order of the samples: two
    lists of at most 2 ^ 24 in-range [unsigned char] samples that are
    permutations of each other have the same histogram. *)
Theorem histogram_of_permuted_samples
    (numberOfBins : Z) (rangeMin rangeMax : uchar) (values values' : list uchar) :
  is_uchar rangeMin -> is_uchar rangeMax -> 1 <= numberOfBins < 2 ^ 32 ->
  Forall (fun v => rangeMin <= v <= rangeMax) values ->
  degenerate (binWidth numberOfBins rangeMin rangeMax) = false ->
  Z.of_nat (length values) <= 2 ^ 24 ->
  Permutation values values' ->
  ScalarHistogram numberOfBins rangeMin rangeMax values'
  = ScalarHistogram numberOfBins rangeMin rangeMax values
  /\ exists bins, ScalarHistogram numberOfBins rangeMin rangeMax values = Ok bins.
Proof.
  intros Hmin Hmax Hn Hin Hdeg Hlen Hperm.
  rewrite (scalar_histogram_counts numberOfBins rangeMin rangeMax values) by assumption.
  rewrite (scalar_histogram_counts numberOfBins rangeMin rangeMax values'); try assumption.
  - split; [|eexists; reflexivity].
    f_equal. apply map_ext. intros j. unfold samples_in_bin. f_equal. f_equal.
    apply Permutation_count_occ. apply Permutation_map. apply Permutation_sym. exact Hperm.
  - eapply Permutation_Forall; [exact Hperm|exact Hin].
  - rewrite <- (Permutation_length Hperm). exact Hlen.
Qed.

Lemma histogram_of_permuted_samples_witness :
  ScalarHistogram 4 (0 : uchar) 255 [255; 200; 0; 128; 64; 63]
  = ScalarHistogram 4 (0 : uchar) 255 [0; 63; 64; 255; 128; 200]
  /\ exists bins, ScalarHistogram 4 (0 : uchar) 255 [0; 63; 64; 255; 128; 200] = Ok bins.
Proof.
  apply (histogram_of_permuted_samples 4 0 255 [0; 63; 64; 255; 128; 200]
           [255; 200; 0; 128; 64; 63]).
  - unfold is_uchar. lia.
  - unfold is_uchar. lia.
  - lia.
  - repeat constructor; lia.
  - vm_compute. reflexivity.
  - cbn. lia.
  - apply (Permutation_count_occ Z.eq_dec). intros x.
    cbn [count_occ].
    repeat match goal with |- context [Z.eq_dec ?a x] => destruct (Z.eq_dec a x) end;
      reflexivity.
Defined.

(** ** Order of the bins *)

Lemma bin_index_accepted (n : Z) (rmin rmax v : uchar) (count i : nat)
    (bins : HistogramType) :
  is_uchar rmin -> is_uchar rmax -> 0 < n < 2 ^ 32 ->
  degenerate (binWidth n rmin rmax) = false ->
  rmin <= v <= rmax ->
  length bins = Z.to_nat n ->
  (bin_index n rmin rmax v < Z.to_nat n)%nat
  /\ exists bins',
       increment bins (bin_index n rmin rmax v) = Some bins'
       /\ bin_sample n rmin rmax count i v bins = Ok bins'.
Proof.
  intros Hmin Hmax Hn Hdeg Hv Hlen.
  unfold bin_sample, bin_index. cbn [sample_eqb sample_diff Sample_uchar].
  destruct (Z.eqb_spec v rmax) as [Heq|Hne].
  - split; [lia|]. rewrite Hlen.
    destruct (increment_defined bins (Z.to_nat n - 1) ltac:(lia)) as [bins' E].
    exists bins'. rewrite E. split; reflexivity.
  - destruct (bin_index_in_range n rmin rmax v Hmin Hmax Hn ltac:(lia) Hdeg)
      as (bin & Hbin & Bbin).
    rewrite Hbin. split; [lia|].
    destruct (Z.ltb_spec bin 0); [lia|].
    destruct (Z.geb_spec bin n); [lia|].
    destruct (increment_defined bins (Z.to_nat bin) ltac:(lia)) as [bins' E].
    exists bins'. rewrite E. split; reflexivity.
Qed.

(** X14.  Up to 16384 bins the bins are ordered like the samples: of two
    [unsigned char] samples within the range, the larger one is never counted
    in a lower bin than the smaller one.  ([bin_index] is the bin that the
    iteration on the sample increments.) *)
Theorem larger_sample_in_higher_bin
    (numberOfBins : Z) (rangeMin rangeMax v1 v2 : uchar) (count i : nat)
    (bins : HistogramType) :
  is_uchar rangeMin -> is_uchar rangeMax -> 1 <= numberOfBins <= 2 ^ 14 ->
  rangeMin <= v1 -> v1 <= v2 -> v2 <= rangeMax -> rangeMin < rangeMax ->
  length bins = Z.to_nat numberOfBins ->
  (bin_index numberOfBins rangeMin rangeMax v1
   <= bin_index numberOfBins rangeMin rangeMax v2 < Z.to_nat numberOfBins)%nat
  /\ exists bins1 bins2 : HistogramType,
       increment bins (bin_index numberOfBins rangeMin rangeMax v1) = Some bins1
       /\ bin_sample numberOfBins rangeMin rangeMax count i v1 bins = Ok bins1
       /\ increment bins (bin_index numberOfBins rangeMin rangeMax v2) = Some bins2
       /\ bin_sample numberOfBins rangeMin rangeMax count i v2 bins = Ok bins2.
Proof.
  intros Hmin Hmax Hn H1 H12 H2 Hrange Hlen.
  assert (Hn19 : 1 <= numberOfBins <= 2 ^ 19)
    by (change (2 ^ 14) with 16384 in Hn; change (2 ^ 19) with 524288; lia).
  assert (Hn32 : 0 < numberOfBins < 2 ^ 32)
    by (change (2 ^ 14) with 16384 in Hn; change (2 ^ 32) with 4294967296; lia).
  assert (Hdeg : degenerate (binWidth numberOfBins rangeMin rangeMax) = false)
    by (apply binWidth_not_degenerate; try assumption; lia).
  destruct (bin_index_accepted numberOfBins rangeMin rangeMax v1 count i bins
              Hmin Hmax Hn32 Hdeg ltac:(lia) Hlen) as (B1 & bins1 & I1 & S1).
  destruct (bin_index_accepted numberOfBins rangeMin rangeMax v2 count i bins
              Hmin Hmax Hn32 Hdeg ltac:(lia) Hlen) as (B2 & bins2 & I2 & S2).
  split; [|exists bins1, bins2; repeat split; assumption].
  split; [|exact B2].
  destruct (Z.eq_dec v1 v2) as [->|Hne]; [lia|].
  revert B1 B2. unfold bin_index. cbn [sample_eqb sample_diff Sample_uchar].
  destruct (Z.eqb_spec v2 rangeMax) as [E2|N2].
  { destruct (Z.eqb_spec v1 rangeMax); lia. }
  destruct (Z.eqb_spec v1 rangeMax) as [E1|N1]; [lia|].
  destruct (bin_index_exact numberOfBins rangeMin rangeMax v1 Hmin Hmax Hn
              ltac:(lia) Hdeg) as (b1 & Hb1 & Bb1 & Ideal1).
  destruct (bin_index_exact numberOfBins rangeMin rangeMax v2 Hmin Hmax Hn
              ltac:(lia) Hdeg) as (b2 & Hb2 & Bb2 & Ideal2).
  rewrite Hb1, Hb2. intros _ _.
  set (d := rangeMax - rangeMin) in *.
  assert (Hd : 0 < d) by (unfold d; lia).
  set (X1 := (v1 - rangeMin) * numberOfBins) in *.
  set (X2 := (v2 - rangeMin) * numberOfBins) in *.
  assert (HX : X1 < X2).
  { unfold X1, X2. apply Z.mul_lt_mono_pos_r; lia. }
  assert (Hj : X1 / d <= X2 / d) by (apply Z.div_le_mono; lia).
  enough (b1 <= b2) by lia.
  destruct Ideal1 as [->|[-> _]]; destruct Ideal2 as [->|[-> M2]]; try lia.
  pose proof (Z.div_mod X2 d ltac:(lia)) as Dm. rewrite M2 in Dm.
  assert (X1 / d < X2 / d); [|lia].
  apply Z.div_lt_upper_bound; [exact Hd|]. lia.
Qed.

Lemma larger_sample_in_higher_bin_witness :
  (bin_index 14 (0 : uchar) (2 : Z) (0 : Z) <= bin_index 14 (0 : uchar) (2 : Z) (1 : Z) < Z.to_nat 14)%nat
  /\ exists bins1 bins2 : HistogramType,
       increment (repeat F32.zero 14) (bin_index 14 (0 : uchar) 2 0) = Some bins1
       /\ bin_sample 14 (0 : uchar) 2 2 0 0 (repeat F32.zero 14) = Ok bins1
       /\ increment (repeat F32.zero 14) (bin_index 14 (0 : uchar) 2 1) = Some bins2
       /\ bin_sample 14 (0 : uchar) 2 2 0 1 (repeat F32.zero 14) = Ok bins2.
Proof.
  apply (larger_sample_in_higher_bin 14 0 2 0 1 2 0 (repeat F32.zero 14)).
  - unfold is_uchar. lia.
  - unfold is_uchar. lia.
  - change (2 ^ 14) with 16384. lia.
  - lia.
  - lia.
  - lia.
  - lia.
  - reflexivity.
Defined.

(** ** Sums and comparisons of counts *)

(** Sums of counts up to 2 ^ 24 are exact. *)
Lemma add_of_Z (a b : Z) :
  0 <= a -> 0 <= b -> a + b <= 2 ^ 24 ->
  F32.add (F32.of_Z a) (F32.of_Z b) = F32.of_Z (a + b).
Proof.
  intros Ha Hb Hab.
  assert (Hz : forall c, 0 <= c <= 2 ^ 24 ->
                 F32.add (F32.of_Z 0) (F32.of_Z c) = F32.of_Z c
                 /\ F32.add (F32.of_Z c) (F32.of_Z 0) = F32.of_Z c).
  { intros c Hc.
    destruct (Z.eq_dec c 0) as [->|Hc0]; [split; reflexivity|].
    destruct (Z.eq_dec c (2 ^ 24)) as [->|Hc24]; [split; reflexivity|].
    rewrite (of_Z_pos c) by lia. split; reflexivity. }
  destruct (Z.eq_dec a 0) as [->|Ha0]; [rewrite Z.add_0_l; apply Hz; lia|].
  destruct (Z.eq_dec b 0) as [->|Hb0]; [rewrite Z.add_0_r; apply Hz; lia|].
  assert (Ha24 : 0 < a < 2 ^ 24) by lia.
  assert (Hb24 : 0 < b < 2 ^ 24) by lia.
  rewrite (of_Z_pos a Ha24), (of_Z_pos b Hb24).
  pose proof (int_m_bounds a Ha24) as Bma. pose proof (int_e_bounds a Ha24) as Bea.
  pose proof (int_m_bounds b Hb24) as Bmb. pose proof (int_e_bounds b Hb24) as Beb.
  pose proof (int_value a Ha24) as Hva. pose proof (int_value b Hb24) as Hvb.
  unfold F32.add, F32.prec, F32.emax. rewrite SFadd_pos.
  set (z := Z.min (int_e a) (int_e b)).
  unfold F32.of_Z, binary_normalize, F32.prec, F32.emax.
  destruct (a + b) as [|q|q] eqn:Eq; try lia.
  apply binary_round_ext with (z := z); try (unfold z; lia).
  rewrite Z.sub_diag, Z.pow_0_r, Z.mul_1_r.
  pose proof (pow2_pos (int_e a - z) ltac:(unfold z; lia)) as Pa.
  pose proof (pow2_pos (int_e b - z) ltac:(unfold z; lia)) as Pb.
  assert (PA : 0 < int_m a * 2 ^ (int_e a - z)) by (apply Z.mul_pos_pos; lia).
  assert (PB : 0 < int_m b * 2 ^ (int_e b - z)) by (apply Z.mul_pos_pos; lia).
  rewrite (Z2Pos.id (int_m a)), (Z2Pos.id (int_m b)) by lia.
  rewrite Z2Pos.id by lia.
  rewrite <- Eq, Hva, Hvb, <- !Z.mul_assoc, <- !Z.pow_add_r by (unfold z; lia).
  replace (- int_e a + (int_e a - z)) with (0 - z) by lia.
  replace (- int_e b + (int_e b - z)) with (0 - z) by lia.
  ring.
Qed.

(** [<] on counts is [<] on integers. *)
Lemma ltb_of_Z (a b : Z) :
  0 <= a < 2 ^ 24 -> 0 <= b < 2 ^ 24 ->
  F32.ltb (F32.of_Z b) (F32.of_Z a) = (b <? a).
Proof.
  intros Ha Hb.
  destruct (Z.eq_dec a 0) as [->|Ha0]; destruct (Z.eq_dec b 0) as [->|Hb0].
  - reflexivity.
  - rewrite (of_Z_pos b) by lia. destruct (Z.ltb_spec b 0); [lia|reflexivity].
  - rewrite (of_Z_pos a) by lia. destruct (Z.ltb_spec 0 a); [reflexivity|lia].
  - assert (Ha24 : 0 < a < 2 ^ 24) by lia.
    assert (Hb24 : 0 < b < 2 ^ 24) by lia.
    rewrite (of_Z_pos a Ha24), (of_Z_pos b Hb24).
    pose proof (int_m_bounds a Ha24) as Bma. pose proof (int_m_bounds b Hb24) as Bmb.
    pose proof (Zdigits2_bounds a ltac:(lia)) as [La Ua].
    pose proof (Zdigits2_bounds b ltac:(lia)) as [Lb Ub].
    pose proof (Zdigits2_pos a ltac:(lia)) as Pa.
    pose proof (Zdigits2_pos b ltac:(lia)) as Pb.
    assert (Da : Zdigits2 a <= 24) by (apply Zdigits2_le; lia).
    assert (Db : Zdigits2 b <= 24) by (apply Zdigits2_le; lia).
    unfold F32.ltb, SFltb, SFcompare, int_e.
    destruct (Z.compare_spec (Zdigits2 b - 24) (Zdigits2 a - 24)) as [E|E|E].
    + change (PosDef.Pos.compare_cont Eq (Z.to_pos (int_m b)) (Z.to_pos (int_m a)))
        with (Z.to_pos (int_m b) ?= Z.to_pos (int_m a))%positive.
      rewrite <- Z2Pos.inj_compare by lia.
      unfold int_m. replace (Zdigits2 b) with (Zdigits2 a) by lia.
      pose proof (pow2_pos (24 - Zdigits2 a) ltac:(lia)) as Pp.
      destruct (Z.compare_spec (b * 2 ^ (24 - Zdigits2 a)) (a * 2 ^ (24 - Zdigits2 a)))
        as [C|C|C]; destruct (Z.ltb_spec b a) as [L|L]; try reflexivity; exfalso.
      * apply Z.mul_reg_r in C; lia.
      * apply Z.mul_lt_mono_pos_r in C; lia.
      * apply Z.mul_lt_mono_pos_r in C; lia.
    + destruct (Z.ltb_spec b a) as [L|L]; [reflexivity|exfalso].
      pose proof (Z.pow_le_mono_r 2 (Zdigits2 b) (Zdigits2 a - 1) ltac:(lia) ltac:(lia)).
      lia.
    + destruct (Z.ltb_spec b a) as [L|L]; [exfalso|reflexivity].
      pose proof (Z.pow_le_mono_r 2 (Zdigits2 a) (Zdigits2 b - 1) ltac:(lia) ltac:(lia)).
      lia.
Qed.

Lemma std_min_of_Z (a b : Z) :
  0 <= a < 2 ^ 24 -> 0 <= b < 2 ^ 24 ->
  std_min (F32.of_Z a) (F32.of_Z b) = F32.of_Z (Z.min a b).
Proof.
  intros Ha Hb. unfold std_min. rewrite ltb_of_Z by assumption.
  destruct (Z.ltb_spec b a); f_equal; lia.
Qed.

(** ** Histograms of appended samples *)

Lemma combine_map_seq {A B : Type} (f : nat -> A) (g : nat -> B) (l : list nat) :
  combine (map f l) (map g l) = map (fun j => (f j, g j)) l.
Proof. induction l as [|j l IH]; cbn; [reflexivity|]. rewrite IH. reflexivity. Qed.

(** X15.  Histograms can be merged: for in-range [unsigned char] samples, at
    most 2 ^ 24 in all, the histogram of two lists of samples put together is
    the bin by bin [float] sum of their histograms. *)
Theorem histogram_of_appended_samples
    (numberOfBins : Z) (rangeMin rangeMax : uchar) (values1 values2 : list uchar) :
  is_uchar rangeMin -> is_uchar rangeMax -> 1 <= numberOfBins < 2 ^ 32 ->
  Forall (fun v => rangeMin <= v <= rangeMax) values1 ->
  Forall (fun v => rangeMin <= v <= rangeMax) values2 ->
  degenerate (binWidth numberOfBins rangeMin rangeMax) = false ->
  Z.of_nat (length (values1 ++ values2)) <= 2 ^ 24 ->
  exists bins1 bins2 : HistogramType,
    ScalarHistogram numberOfBins rangeMin rangeMax values1 = Ok bins1
    /\ ScalarHistogram numberOfBins rangeMin rangeMax values2 = Ok bins2
    /\ ScalarHistogram numberOfBins rangeMin rangeMax (values1 ++ values2)
       = Ok (map (fun p => F32.add (fst p) (snd p)) (combine bins1 bins2)).
Proof.
  intros Hmin Hmax Hn H1 H2 Hdeg Hlen.
  rewrite length_app, Nat2Z.inj_add in Hlen.
  eexists. eexists. split; [|split].
  - apply scalar_histogram_counts; try assumption. lia.
  - apply scalar_histogram_counts; try assumption. lia.
  - rewrite scalar_histogram_counts; try assumption.
    + f_equal. rewrite combine_map_seq, map_map. apply map_ext. intros j.
      cbn [fst snd]. unfold samples_in_bin.
      pose proof (count_occ_bound Nat.eq_dec j
                    (map (bin_index numberOfBins rangeMin rangeMax) values1)) as B1.
      pose proof (count_occ_bound Nat.eq_dec j
                    (map (bin_index numberOfBins rangeMin rangeMax) values2)) as B2.
      rewrite length_map in B1, B2.
      rewrite add_of_Z by lia.
      rewrite map_app, count_occ_app, Nat2Z.inj_add. reflexivity.
    + apply Forall_app. split; assumption.
    + rewrite length_app, Nat2Z.inj_add. exact Hlen.
Qed.

Lemma histogram_of_appended_samples_witness :
  exists bins1 bins2 : HistogramType,
    ScalarHistogram 4 (0 : uchar) 255 [0; 63; 64] = Ok bins1
    /\ ScalarHistogram 4 (0 : uchar) 255 [255; 128; 200] = Ok bins2
    /\ ScalarHistogram 4 (0 : uchar) 255 ([0; 63; 64] ++ [255; 128; 200])
       = Ok (map (fun p => F32.add (fst p) (snd p)) (combine bins1 bins2)).
Proof.
  apply (histogram_of_appended_samples 4 0 255 [0; 63; 64] [255; 128; 200]).
  - unfold is_uchar. lia.
  - unfold is_uchar. lia.
  - lia.
  - repeat constructor; lia.
  - repeat constructor; lia.
  - vm_compute. reflexivity.
  - cbn. lia.
Defined.

(** ** Errors in the concatenated histogram *)

Section MultiChannelErrors.

Context {TValue : Type} `{Sample TValue}.
Variables Image ScalarImage Region : Type.
Variable GetNumberOfComponentsPerPixel : Image -> nat.
Variable ExtractChannel : Image -> nat -> ScalarImage.
Variable GetPixelValuesInRegion : ScalarImage -> Region -> list TValue.
Variable image : Image.
Variable region : Region.
Variable numberOfBinsPerDimensions : Z.
Variables rangeMin rangeMax : TValue.

Local Abbreviation histogram_of :=
  (channel_histogram Image ScalarImage Region ExtractChannel GetPixelValuesInRegion
     image region numberOfBinsPerDimensions rangeMin rangeMax).

Local Abbreviation loop :=
  (channel_loop Image ScalarImage Region ExtractChannel GetPixelValuesInRegion
     image region numberOfBinsPerDimensions rangeMin rangeMax).



End MultiChannelErrors.


(** ** The concatenated histogram of an 8-bit image *)

Section MultiChannelInRange.

Variables Image ScalarImage Region : Type.
Variable GetNumberOfComponentsPerPixel : Image -> nat.
Variable ExtractChannel : Image -> nat -> ScalarImage.
Variable GetPixelValuesInRegion : ScalarImage -> Region -> list uchar.
Variable image : Image.
Variable region : Region.
Variable numberOfBinsPerDimensions : Z.
Variables rangeMin rangeMax : uchar.

(** X17.  For an image of [unsigned char] components whose values in the
    region all lie in [[rangeMin, rangeMax]], the concatenated histogram is
    always returned (no channel throws), with
    [numberOfComponents * numberOfBinsPerDimensions] entries. *)
Theorem concatenated_histogram_of_in_range_image :
  is_uchar rangeMin -> is_uchar rangeMax ->
  1 <= numberOfBinsPerDimensions < 2 ^ 32 ->
  (forall channel, (channel < GetNumberOfComponentsPerPixel image)%nat ->
     Forall (fun v => rangeMin <= v <= rangeMax)
       (GetPixelValuesInRegion (ExtractChannel image channel) region)
     /\ Z.of_nat (length (GetPixelValuesInRegion (ExtractChannel image channel) region))
        < 2 ^ 32) ->
  exists histogram,
    Compute1DConcatenatedHistogramOfMultiChannelImage
      Image ScalarImage Region GetNumberOfComponentsPerPixel ExtractChannel
      GetPixelValuesInRegion image region numberOfBinsPerDimensions
      rangeMin rangeMax = Ok histogram
    /\ length histogram
       = (GetNumberOfComponentsPerPixel image * Z.to_nat numberOfBinsPerDimensions)%nat.
Proof.
  intros Hmin Hmax Hn Hin.
  destruct (channel_loop_concat Image ScalarImage Region ExtractChannel
              GetPixelValuesInRegion image region numberOfBinsPerDimensions
              rangeMin rangeMax (GetNumberOfComponentsPerPixel image) 0 [])
    as (hs & L & Len & Lens & _).
  { intros j Hj. unfold channel_histogram.
    apply scalar_histogram_in_range; try assumption. apply (Hin j). lia. }
  exists (concat hs). unfold Compute1DConcatenatedHistogramOfMultiChannelImage.
  rewrite L. split; [reflexivity|].
  destruct (concat_segment _ hs Lens) as [CL _]. rewrite CL, Len. reflexivity.
Qed.

End MultiChannelInRange.

Lemma concatenated_histogram_of_in_range_image_witness :
  let image : list (list uchar) := [[0; 255; 128]; [10; 20; 30]; [255; 255; 0]] in
  let extract := fun (img : list (list uchar)) (c : nat) => nth c img [] in
  let pixels := fun (ch : list uchar) (_ : unit) => ch in
  exists histogram,
    Compute1DConcatenatedHistogramOfMultiChannelImage
      (list (list uchar)) (list uchar) unit (@length (list uchar)) extract pixels
      image tt 2 0 255 = Ok histogram
    /\ length histogram = (length image * Z.to_nat 2)%nat.
Proof.
  intros image extract pixels.
  apply (concatenated_histogram_of_in_range_image (list (list uchar)) (list uchar) unit
           (@length (list uchar)) extract pixels image tt 2 0 255).
  - unfold is_uchar. lia.
  - unfold is_uchar. lia.
  - lia.
  - intros channel Hc.
    destruct channel as [|[|[|channel]]]; [| | |cbn in Hc; lia];
      (split; [cbn; repeat constructor; lia|cbn; lia]).
Defined.

(** ** Special cases of the intersection *)

Lemma fold_add_zero (h : HistogramType) :
  Forall (fun x => exists s, x = S754_zero s) h ->
  fold_left F32.add h F32.zero = F32.zero.
Proof.
  induction 1 as [|x rest [s ->] _ IH]; [reflexivity|].
  cbn [fold_left].
  replace (F32.add F32.zero (S754_zero s)) with F32.zero by (destruct s; reflexivity).
  exact IH.
Qed.

(** X18.  The division by the total of the first histogram is not guarded:
    when every bin of the first histogram is zero (in particular when both
    histograms are empty) and the second has the same length and no negative
    bin, the result is NaN and nothing is reported. *)
Theorem intersection_of_zero_histogram_is_nan (histogram1 histogram2 : HistogramType) :
  length histogram1 = length histogram2 ->
  Z.of_nat (length histogram1) < 2 ^ 32 ->
  Forall (fun x => x = F32.zero) histogram1 ->
  Forall (fun y => F32.ltb y F32.zero = false) histogram2 ->
  HistogramIntersection histogram1 histogram2
  = {| cerr := ""; returned := S754_nan |}
  /\ F32.is_nan (returned (HistogramIntersection histogram1 histogram2)) = true.
Proof.
  intros Hlen _ H1 H2.
  assert (E : HistogramIntersection histogram1 histogram2
              = {| cerr := ""; returned := S754_nan |}).
  { unfold HistogramIntersection. rewrite Hlen, Nat.eqb_refl. cbn [negb].
    rewrite intersection_loop_minima.
    assert (Hmin : Forall (fun x => exists s, x = S754_zero s) (minima histogram1 histogram2)).
    { clear Hlen. revert histogram2 H2.
      induction H1 as [|x rest1 -> _ IH]; intros [|y rest2] H2; try constructor.
      - inversion H2 as [|? ? Hy Hrest]; subst.
        unfold std_min. cbn [fst snd]. rewrite Hy. exists false. reflexivity.
      - inversion H2; subst. apply IH. assumption. }
    rewrite (fold_add_zero _ Hmin).
    unfold accumulate. rewrite fold_add_zero; [reflexivity|].
    eapply Forall_impl; [|exact H1]. intros x ->. exists false. reflexivity. }
  rewrite E. split; reflexivity.
Qed.

Lemma intersection_of_zero_histogram_is_nan_witness :
  HistogramIntersection (map F32.of_Z [0; 0; 0]) (map F32.of_Z [4; 0; 1])
  = {| cerr := ""; returned := S754_nan |}
  /\ F32.is_nan (returned (HistogramIntersection (map F32.of_Z [0; 0; 0])
                             (map F32.of_Z [4; 0; 1]))) = true.
Proof.
  apply (intersection_of_zero_histogram_is_nan (map F32.of_Z [0; 0; 0])
           (map F32.of_Z [4; 0; 1])).
  - reflexivity.
  - cbn. lia.
  - repeat constructor.
  - repeat constructor.
Defined.

(** [<=] excludes [>]. *)
Lemma leb_not_gt (x y : float) : F32.leb x y = true -> F32.ltb y x = false.
Proof.
  unfold F32.leb, F32.ltb, SFleb, SFltb.
  destruct x as [sx|sx| |sx mx ex], y as [sy|sy| |sy my ey]; cbn [SFcompare];
    try discriminate; try reflexivity;
    try (destruct sx; try discriminate; reflexivity);
    try (destruct sy; try discriminate; reflexivity);
    try (destruct sx, sy; try discriminate; reflexivity).
  rewrite (Z.compare_antisym ex ey).
  destruct sx, sy; try discriminate; try reflexivity;
    destruct (ex ?= ey) eqn:C; cbn [CompOpp]; try discriminate; try reflexivity;
    change (PosDef.Pos.compare_cont Eq my mx) with (Pos.compare_cont Eq my mx);
    change (PosDef.Pos.compare_cont Eq mx my) with (Pos.compare_cont Eq mx my);
    rewrite (ZC4 my mx);
    destruct (Pos.compare_cont Eq mx my); cbn [CompOpp]; try discriminate; reflexivity.
Qed.

Lemma minima_below (h1 : HistogramType) :
  forall h2, Forall2 (fun x y => F32.leb x y = true) h1 h2 -> minima h1 h2 = h1.
Proof.
  induction h1 as [|x rest IH]; intros h2 H; inversion H as [|? y ? rest2 Hxy Hrest]; subst;
    [reflexivity|].
  unfold minima in *. cbn [combine map fst snd]. rewrite (IH _ Hrest).
  unfold std_min. rewrite (leb_not_gt _ _ Hxy). reflexivity.
Qed.

(** X19.  A histogram that is bin by bin at most another one has intersection
    exactly 1.0 with it, when its total is finite and strictly positive: the
    score is normalised by the first histogram only. *)
Theorem intersection_with_larger_histogram (histogram1 histogram2 : HistogramType) :
  Forall2 (fun x y => F32.leb x y = true) histogram1 histogram2 ->
  Z.of_nat (length histogram1) < 2 ^ 32 ->
  F32.is_finite (accumulate histogram1) = true ->
  F32.ltb F32.zero (accumulate histogram1) = true ->
  HistogramIntersection histogram1 histogram2
  = {| cerr := ""; returned := F32.one |}.
Proof.
  intros Hle _ Hfin Hpos. unfold HistogramIntersection.
  rewrite (Forall2_length Hle), Nat.eqb_refl. cbn [negb].
  rewrite intersection_loop_minima, (minima_below _ _ Hle). fold (accumulate histogram1).
  destruct (finite_positive _ Hfin Hpos) as (m & e & E). rewrite E.
  rewrite div_self. reflexivity.
Qed.

Lemma intersection_with_larger_histogram_witness :
  HistogramIntersection (map F32.of_Z [3; 0; 7; 2]) (map F32.of_Z [5; 0; 7; 40])
  = {| cerr := ""; returned := F32.one |}.
Proof.
  apply (intersection_with_larger_histogram (map F32.of_Z [3; 0; 7; 2])
           (map F32.of_Z [5; 0; 7; 40])).
  - repeat constructor.
  - cbn. lia.
  - vm_compute. reflexivity.
  - vm_compute. reflexivity.
Defined.

(** The minimum of a zero and a non-negative number is a zero. *)
Lemma std_min_disjoint (x y : float) :
  F32.leb F32.zero x = true -> F32.leb F32.zero y = true ->
  F32.eqb x F32.zero = true \/ F32.eqb y F32.zero = true ->
  exists s, std_min x y = S754_zero s.
Proof.
  intros Hx Hy Hz. unfold std_min.
  destruct x as [sx|sx| |sx mx ex]; try discriminate;
    destruct y as [sy|sy| |sy my ey]; try discriminate;
    try (destruct Hz as [Hz|Hz]; destruct sx; discriminate);
    try (destruct Hz as [Hz|Hz]; destruct sy; discriminate);
    try (destruct sx; discriminate); try (destruct sy; discriminate);
    try (exists sx; reflexivity);
    try (destruct sy; try discriminate; exists sx; reflexivity);
    try (destruct sx; try discriminate; exists sy; reflexivity).
  all: destruct Hz as [Hz|Hz]; destruct sx, sy; discriminate.
Qed.

(** X20.  Histograms with disjoint supports (no bin is non-zero in both) and
    non-negative bins have intersection exactly 0, when the total of the
    first one is strictly positive. *)
Theorem intersection_of_disjoint_histograms (histogram1 histogram2 : HistogramType) :
  length histogram1 = length histogram2 ->
  Z.of_nat (length histogram1) < 2 ^ 32 ->
  Forall (fun p => F32.leb F32.zero (fst p) = true /\ F32.leb F32.zero (snd p) = true
                   /\ (F32.eqb (fst p) F32.zero = true \/ F32.eqb (snd p) F32.zero = true))
    (combine histogram1 histogram2) ->
  F32.ltb F32.zero (accumulate histogram1) = true ->
  HistogramIntersection histogram1 histogram2
  = {| cerr := ""; returned := F32.zero |}.
Proof.
  intros Hlen _ Hdis Hpos. unfold HistogramIntersection.
  rewrite Hlen, Nat.eqb_refl. cbn [negb].
  rewrite intersection_loop_minima.
  assert (Hmin : Forall (fun x => exists s, x = S754_zero s) (minima histogram1 histogram2)).
  { unfold minima. induction Hdis as [|[x y] rest (Hx & Hy & Hz) _ IH]; cbn [map];
      constructor; [|exact IH].
    cbn [fst snd] in *. apply std_min_disjoint; assumption. }
  rewrite (fold_add_zero _ Hmin).
  fold (accumulate histogram1).
  destruct (accumulate histogram1) as [s|s| |s m e]; try discriminate;
    destruct s; try discriminate; reflexivity.
Qed.

Lemma intersection_of_disjoint_histograms_witness :
  HistogramIntersection (map F32.of_Z [3; 0; 7; 0]) (map F32.of_Z [0; 5; 0; 0])
  = {| cerr := ""; returned := F32.zero |}.
Proof.
  apply (intersection_of_disjoint_histograms (map F32.of_Z [3; 0; 7; 0])
           (map F32.of_Z [0; 5; 0; 0])).
  - reflexivity.
  - cbn. lia.
  - cbn [map combine].
    repeat apply Forall_cons; try apply Forall_nil;
      (split; [reflexivity|split; [reflexivity|]]);
      ((left; reflexivity) || (right; reflexivity)).
  - vm_compute. reflexivity.
Defined.

(** ** Intersection of histograms of counts *)

Lemma zsum_le_entries (counts : list Z) (bound : Z) :
  Forall (fun c => 0 <= c) counts -> zsum counts < bound ->
  Forall (fun c => 0 <= c < bound) counts.
Proof.
  intros Hnn Hs. destruct (nonneg_le_sum counts Hnn) as [_ Hle].
  rewrite Forall_forall in *. intros c Hc.
  specialize (Hnn c Hc). specialize (Hle c Hc). cbn in *. lia.
Qed.

Lemma accumulate_counts (counts : list Z) :
  forall acc : Z,
    0 <= acc -> Forall (fun c => 0 <= c) counts -> acc + zsum counts <= 2 ^ 24 ->
    fold_left F32.add (map F32.of_Z counts) (F32.of_Z acc) = F32.of_Z (acc + zsum counts).
Proof.
  induction counts as [|c rest IH]; intros acc Hacc Hnn Hs; cbn [map fold_left zsum].
  - rewrite Z.add_0_r. reflexivity.
  - inversion Hnn as [|? ? Hc Hrest]; subst. cbn [zsum] in Hs.
    destruct (nonneg_le_sum rest Hrest) as [Hs0 _].
    rewrite add_of_Z by lia. rewrite IH by (auto; lia). f_equal. lia.
Qed.

Lemma common_count_bounds (counts1 : list Z) :
  forall counts2 : list Z,
    Forall (fun c => 0 <= c) counts1 -> Forall (fun c => 0 <= c) counts2 ->
    0 <= common_count counts1 counts2 <= zsum counts1
    /\ common_count counts1 counts2 <= zsum counts2.
Proof.
  unfold common_count.
  induction counts1 as [|a rest1 IH]; intros [|b rest2] H1 H2;
    cbn [combine map zsum fst snd].
  - lia.
  - destruct (nonneg_le_sum _ H2). cbn [zsum] in *. lia.
  - destruct (nonneg_le_sum _ H1). cbn [zsum] in *. lia.
  - inversion H1; inversion H2; subst. destruct (IH rest2); auto. lia.
Qed.

Lemma common_count_comm (counts1 : list Z) :
  forall counts2 : list Z, common_count counts1 counts2 = common_count counts2 counts1.
Proof.
  unfold common_count.
  induction counts1 as [|a rest1 IH]; intros [|b rest2]; cbn [combine map zsum fst snd];
    try reflexivity.
  rewrite IH, Z.min_comm. reflexivity.
Qed.

Lemma intersection_loop_counts (counts1 : list Z) :
  forall (counts2 : list Z) (acc : Z),
    length counts1 = length counts2 ->
    Forall (fun c => 0 <= c < 2 ^ 24) counts1 ->
    Forall (fun c => 0 <= c < 2 ^ 24) counts2 ->
    0 <= acc -> acc + zsum counts1 <= 2 ^ 24 ->
    intersection_loop (map F32.of_Z counts1) (map F32.of_Z counts2) (F32.of_Z acc)
    = F32.of_Z (acc + common_count counts1 counts2).
Proof.
  unfold common_count.
  induction counts1 as [|a rest1 IH]; intros [|b rest2] acc Hlen H1 H2 Hacc Hs;
    try discriminate; cbn [map intersection_loop combine zsum fst snd].
  - rewrite Z.add_0_r. reflexivity.
  - inversion H1 as [|? ? Ha Hr1]; inversion H2 as [|? ? Hb Hr2]; subst.
    cbn [zsum] in Hs.
    assert (Hs0 : 0 <= zsum rest1).
    { apply nonneg_le_sum. eapply Forall_impl; [|exact Hr1]. cbn. intros; lia. }
    rewrite std_min_of_Z by assumption.
    rewrite add_of_Z by lia.
    rewrite IH; [f_equal; lia| | | | |].
    + cbn [length] in Hlen. lia.
    + exact Hr1.
    + exact Hr2.
    + lia.
    + lia.
Qed.

Lemma intersection_counts (counts1 counts2 : list Z) :
  length counts1 = length counts2 ->
  Forall (fun c => 0 <= c) counts1 -> Forall (fun c => 0 <= c) counts2 ->
  zsum counts1 < 2 ^ 24 -> zsum counts2 < 2 ^ 24 ->
  HistogramIntersection (map F32.of_Z counts1) (map F32.of_Z counts2)
  = {| cerr := "";
       returned := F32.div (F32.of_Z (common_count counts1 counts2))
                     (F32.of_Z (zsum counts1)) |}.
Proof.
  intros Hlen H1 H2 S1 S2.
  unfold HistogramIntersection. rewrite !length_map, Hlen, Nat.eqb_refl. cbn [negb].
  change F32.zero with (F32.of_Z 0).
  rewrite intersection_loop_counts; try assumption; try lia;
    try (apply zsum_le_entries; assumption).
  unfold accumulate. change F32.zero with (F32.of_Z 0).
  rewrite accumulate_counts by (auto; lia).
  rewrite !Z.add_0_l. reflexivity.
Qed.

(** X21.  For two histograms of integer counts with fewer than 2 ^ 24 samples
    each, the sums are exact and the score is the exact ratio of the number
    of common samples (the sum of the per-bin minima) to the number of
    samples of the first histogram, rounded once to [float]. *)
Theorem intersection_of_count_histograms (counts1 counts2 : list Z) :
  length counts1 = length counts2 ->
  Z.of_nat (length counts1) < 2 ^ 32 ->
  Forall (fun c => 0 <= c) counts1 -> Forall (fun c => 0 <= c) counts2 ->
  zsum counts1 < 2 ^ 24 -> zsum counts2 < 2 ^ 24 ->
  HistogramIntersection (map F32.of_Z counts1) (map F32.of_Z counts2)
  = {| cerr := "";
       returned := F32.div (F32.of_Z (common_count counts1 counts2))
                     (F32.of_Z (zsum counts1)) |}
  /\ 0 <= common_count counts1 counts2 <= zsum counts1.
Proof.
  intros Hlen _ H1 H2 S1 S2. split.
  - apply intersection_counts; assumption.
  - apply common_count_bounds; assumption.
Qed.

Lemma intersection_of_count_histograms_witness :
  HistogramIntersection (map F32.of_Z [3; 0; 7; 2]) (map F32.of_Z [1; 5; 7; 0])
  = {| cerr := "";
       returned := F32.div (F32.of_Z (common_count [3; 0; 7; 2] [1; 5; 7; 0]))
                     (F32.of_Z (zsum [3; 0; 7; 2])) |}
  /\ 0 <= common_count [3; 0; 7; 2] [1; 5; 7; 0] <= zsum [3; 0; 7; 2].
Proof.
  apply (intersection_of_count_histograms [3; 0; 7; 2] [1; 5; 7; 0]).
  - reflexivity.
  - cbn. lia.
  - repeat constructor; lia.
  - repeat constructor; lia.
  - cbn. lia.
  - cbn. lia.
Defined.

(** X22.  The score is normalised by the first histogram only, but for two
    histograms of integer counts with the same number of samples (fewer than
    2 ^ 24) it does not depend on the order of the arguments. *)
Theorem intersection_symmetric_for_equal_totals (counts1 counts2 : list Z) :
  length counts1 = length counts2 ->
  Z.of_nat (length counts1) < 2 ^ 32 ->
  Forall (fun c => 0 <= c) counts1 -> Forall (fun c => 0 <= c) counts2 ->
  zsum counts1 < 2 ^ 24 ->
  zsum counts1 = zsum counts2 ->
  HistogramIntersection (map F32.of_Z counts1) (map F32.of_Z counts2)
  = HistogramIntersection (map F32.of_Z counts2) (map F32.of_Z counts1).
Proof.
  intros Hlen _ H1 H2 S1 Heq.
  rewrite (intersection_counts counts1 counts2) by (auto; lia).
  rewrite (intersection_counts counts2 counts1) by (auto; lia).
  rewrite common_count_comm, Heq. reflexivity.
Qed.

Lemma intersection_symmetric_for_equal_totals_witness :
  HistogramIntersection (map F32.of_Z [3; 0; 7; 2]) (map F32.of_Z [1; 5; 6; 0])
  = HistogramIntersection (map F32.of_Z [1; 5; 6; 0]) (map F32.of_Z [3; 0; 7; 2]).
Proof.
  apply (intersection_symmetric_for_equal_totals [3; 0; 7; 2] [1; 5; 6; 0]).
  - reflexivity.
  - cbn. lia.
  - repeat constructor; lia.
  - repeat constructor; lia.
  - cbn. lia.
  - reflexivity.
Defined.

(** ** Intersection of computed histograms *)

Lemma fold_bump_sum (js : list nat) :
  forall counts : list Z,
    Forall (fun j => (j < length counts)%nat) js ->
    zsum (fold_left bump js counts) = zsum counts + Z.of_nat (length js).
Proof.
  induction js as [|j rest IH]; intros counts Hjs; cbn [fold_left length].
  - lia.
  - inversion Hjs as [|? ? Hj Hrest]; subst.
    rewrite IH by (rewrite bump_length; exact Hrest).
    rewrite bump_sum by exact Hj. lia.
Qed.

Lemma fold_bump_nonneg (js : list nat) :
  forall counts : list Z,
    Forall (fun c => 0 <= c) counts -> Forall (fun c => 0 <= c) (fold_left bump js counts).
Proof.
  induction js as [|j rest IH]; intros counts H; cbn [fold_left]; [exact H|].
  apply IH, bump_nonneg, H.
Qed.

(** The histogram of in-range samples, as a list of counts. *)
Lemma scalar_histogram_as_counts (n : Z) (rmin rmax : uchar) (values : list uchar) :
  is_uchar rmin -> is_uchar rmax -> 1 <= n < 2 ^ 32 ->
  Forall (fun v => rmin <= v <= rmax) values ->
  degenerate (binWidth n rmin rmax) = false ->
  Z.of_nat (length values) <= 2 ^ 24 ->
  exists counts : list Z,
    ScalarHistogram n rmin rmax values = Ok (map F32.of_Z counts)
    /\ length counts = Z.to_nat n
    /\ Forall (fun c => 0 <= c) counts
    /\ zsum counts = Z.of_nat (length values).
Proof.
  intros Hmin Hmax Hn Hin Hdeg Hlen.
  exists (fold_left bump (map (bin_index n rmin rmax) values) (repeat 0 (Z.to_nat n))).
  split; [|split; [|split]].
  - unfold ScalarHistogram. rewrite Hdeg, zeros_counts.
    apply bin_loop_bumps; try assumption; try lia.
    + apply repeat_length.
    + apply nonneg_repeat_zero.
    + rewrite zsum_repeat_zero. lia.
  - destruct (fold_bump_spec (map (bin_index n rmin rmax) values) (repeat 0 (Z.to_nat n)))
      as [L _].
    rewrite L. apply repeat_length.
  - apply fold_bump_nonneg, nonneg_repeat_zero.
  - rewrite fold_bump_sum.
    + rewrite zsum_repeat_zero, length_map. lia.
    + rewrite repeat_length. apply Forall_map.
      eapply Forall_impl; [|exact Hin]. intros v Hv.
      destruct (bin_sample_bumps n rmin rmax v 0 0 (repeat 0 (Z.to_nat n))
                  Hmin Hmax ltac:(lia) Hdeg Hv (repeat_length _ _)) as [Hj _].
      * apply Forall_forall. intros c Hc. apply repeat_spec in Hc. subst c.
        change (2 ^ 24) with 16777216. lia.
      * rewrite repeat_length in Hj. exact Hj.
Qed.

(** X23.  The score of two computed histograms: for two lists of in-range
    [unsigned char] samples (fewer than 2 ^ 24 each, same bins and range),
    [HistogramIntersection] of their histograms reports nothing and returns
    the number of common samples divided by the number of samples of the
    first list, rounded once; when the two lists have the same number of
    samples the score does not depend on the order of the two histograms. *)
Theorem intersection_of_computed_histograms
    (numberOfBins : Z) (rangeMin rangeMax : uchar) (values1 values2 : list uchar) :
  is_uchar rangeMin -> is_uchar rangeMax -> 1 <= numberOfBins < 2 ^ 32 ->
  Forall (fun v => rangeMin <= v <= rangeMax) values1 ->
  Forall (fun v => rangeMin <= v <= rangeMax) values2 ->
  degenerate (binWidth numberOfBins rangeMin rangeMax) = false ->
  Z.of_nat (length values1) < 2 ^ 24 ->
  Z.of_nat (length values2) < 2 ^ 24 ->
  exists counts1 counts2 : list Z,
    ScalarHistogram numberOfBins rangeMin rangeMax values1 = Ok (map F32.of_Z counts1)
    /\ ScalarHistogram numberOfBins rangeMin rangeMax values2 = Ok (map F32.of_Z counts2)
    /\ HistogramIntersection (map F32.of_Z counts1) (map F32.of_Z counts2)
       = {| cerr := "";
            returned := F32.div (F32.of_Z (common_count counts1 counts2))
                          (F32.of_Z (Z.of_nat (length values1))) |}
    /\ 0 <= common_count counts1 counts2 <= Z.of_nat (length values1)
    /\ (length values1 = length values2 ->
        HistogramIntersection (map F32.of_Z counts1) (map F32.of_Z counts2)
        = HistogramIntersection (map F32.of_Z counts2) (map F32.of_Z counts1)).
Proof.
  intros Hmin Hmax Hn H1 H2 Hdeg L1 L2.
  destruct (scalar_histogram_as_counts numberOfBins rangeMin rangeMax values1
              Hmin Hmax Hn H1 Hdeg ltac:(lia)) as (c1 & E1 & Len1 & N1 & S1).
  destruct (scalar_histogram_as_counts numberOfBins rangeMin rangeMax values2
              Hmin Hmax Hn H2 Hdeg ltac:(lia)) as (c2 & E2 & Len2 & N2 & S2).
  exists c1, c2. split; [exact E1|]. split; [exact E2|].
  assert (Hlen : length c1 = length c2) by lia.
  split; [|split].
  - rewrite <- S1. apply intersection_counts; try assumption; lia.
  - rewrite <- S1. apply common_count_bounds; assumption.
  - intros Heq.
    rewrite (intersection_counts c1 c2) by (auto; lia).
    rewrite (intersection_counts c2 c1) by (auto; lia).
    rewrite common_count_comm, S1, S2, Heq. reflexivity.
Qed.

Lemma intersection_of_computed_histograms_witness :
  exists counts1 counts2 : list Z,
    ScalarHistogram 4 (0 : uchar) 255 [0; 63; 64; 255] = Ok (map F32.of_Z counts1)
    /\ ScalarHistogram 4 (0 : uchar) 255 [128; 200; 7; 8] = Ok (map F32.of_Z counts2)
    /\ HistogramIntersection (map F32.of_Z counts1) (map F32.of_Z counts2)
       = {| cerr := "";
            returned := F32.div (F32.of_Z (common_count counts1 counts2))
                          (F32.of_Z (Z.of_nat (length [0; 63; 64; 255]))) |}
    /\ 0 <= common_count counts1 counts2 <= Z.of_nat (length [0; 63; 64; 255])
    /\ (length [0; 63; 64; 255] = length [128; 200; 7; 8] ->
        HistogramIntersection (map F32.of_Z counts1) (map F32.of_Z counts2)
        = HistogramIntersection (map F32.of_Z counts2) (map F32.of_Z counts1)).
Proof.
  apply (intersection_of_computed_histograms 4 0 255 [0; 63; 64; 255] [128; 200; 7; 8]).
  - unfold is_uchar. lia.
  - unfold is_uchar. lia.
  - lia.
  - repeat constructor; lia.
  - repeat constructor; lia.
  - vm_compute. reflexivity.
  - cbn. lia.
  - cbn. lia.
Defined.

(** ** Printing histograms *)

Lemma string_app_assoc (a b c : string) : ((a ++ b) ++ c = a ++ (b ++ c))%string.
Proof. induction a as [|x a IH]; cbn; [reflexivity|]. rewrite IH. reflexivity. Qed.

Lemma stream_histogram_app (h1 h2 : HistogramType) :
  stream_histogram (h1 ++ h2) = (stream_histogram h1 ++ stream_histogram h2)%string.
Proof.
  induction h1 as [|x rest IH]; [reflexivity|].
  cbn [app stream_histogram]. rewrite IH, !string_app_assoc. reflexivity.
Qed.

(** X24.  Printing a concatenated histogram is printing its parts one after
    the other, and what [WriteHistogram] leaves in the file is letter for
    letter what [OutputHistogram] adds to the standard output. *)
Theorem output_of_concatenated_histograms (can_open : string -> bool)
    (histogram1 histogram2 : HistogramType) (cout filename : string) (fs : files) :
  Z.of_nat (length (histogram1 ++ histogram2)) < 2 ^ 32 ->
  can_open filename = true ->
  OutputHistogram (histogram1 ++ histogram2) cout
  = OutputHistogram histogram2 (OutputHistogram histogram1 cout)
  /\ WriteHistogram can_open (histogram1 ++ histogram2) filename fs filename
     = Some (OutputHistogram histogram2 (OutputHistogram histogram1 "")).
Proof.
  intros _ Hopen. split.
  - unfold OutputHistogram. rewrite stream_histogram_app, string_app_assoc. reflexivity.
  - unfold OutputHistogram, WriteHistogram, write_file.
    rewrite Hopen, String.eqb_refl, stream_histogram_app. reflexivity.
Qed.

Lemma output_of_concatenated_histograms_witness :
  OutputHistogram (map F32.of_Z [3; 0] ++ map F32.of_Z [7; 2]) "bins: "
  = OutputHistogram (map F32.of_Z [7; 2]) (OutputHistogram (map F32.of_Z [3; 0]) "bins: ")
  /\ WriteHistogram (fun _ => true) (map F32.of_Z [3; 0] ++ map F32.of_Z [7; 2])
       "histogram.txt"%string (fun _ => None) "histogram.txt"%string
     = Some (OutputHistogram (map F32.of_Z [7; 2])
               (OutputHistogram (map F32.of_Z [3; 0]) "")).
Proof.
  apply (output_of_concatenated_histograms (fun _ => true) (map F32.of_Z [3; 0])
           (map F32.of_Z [7; 2]) "bins: "%string "histogram.txt"%string (fun _ => None)).
  - cbn. lia.
  - reflexivity.
Defined.

(** ** Integer counts in the written text *)

(** X25.  Integer counts below 1000000 are written as plain decimal
    integers, without a decimal point or an exponent: the text written to the
    file, and printed by [OutputHistogram], is each count in decimal followed
    by one space. *)
Theorem counts_written_as_integers (can_open : string -> bool) (counts : list Z)
    (filename cout : string) (fs : files) :
  can_open filename = true ->
  Forall (fun c => 0 <= c < 1000000) counts ->
  Z.of_nat (length counts) < 2 ^ 32 ->
  let text := fold_right (fun c text => Ostream.show_nat c ++ " " ++ text)%string
                ""%string counts in
  WriteHistogram can_open (map F32.of_Z counts) filename fs filename = Some text
  /\ OutputHistogram (map F32.of_Z counts) cout = (cout ++ text)%string.
Proof.
  intros Hopen Hcounts _ text. unfold WriteHistogram, OutputHistogram, write_file.
  rewrite Hopen, String.eqb_refl, stream_histogram_counts by exact Hcounts.
  split; reflexivity.
Qed.

Lemma counts_written_as_integers_witness :
  WriteHistogram (fun _ => true) (map F32.of_Z [120; 0; 999999; 7])
    "histogram.txt"%string (fun _ => None) "histogram.txt"%string
  = Some "120 0 999999 7 "%string
  /\ OutputHistogram (map F32.of_Z [120; 0; 999999; 7]) "bins: "
     = "bins: 120 0 999999 7 "%string.
Proof.
  apply (counts_written_as_integers (fun _ => true) [120; 0; 999999; 7]
           "histogram.txt"%string "bins: "%string (fun _ => None)).
  - reflexivity.
  - repeat constructor; lia.
  - cbn. lia.
Defined.

(** X26.  A histogram computed by [ScalarHistogram] from fewer than 1000000
    in-range [unsigned char] samples survives the round trip: written by
    [WriteHistogram] and read back number by number, it is recovered
    exactly. *)
Theorem computed_histogram_reads_back (can_open : string -> bool)
    (numberOfBins : Z) (rangeMin rangeMax : uchar) (values : list uchar)
    (filename : string) (fs : files) :
  is_uchar rangeMin -> is_uchar rangeMax -> 1 <= numberOfBins < 2 ^ 32 ->
  Forall (fun v => rangeMin <= v <= rangeMax) values ->
  degenerate (binWidth numberOfBins rangeMin rangeMax) = false ->
  Z.of_nat (length values) < 1000000 ->
  can_open filename = true ->
  exists (bins : HistogramType) (text : string),
    ScalarHistogram numberOfBins rangeMin rangeMax values = Ok bins
    /\ WriteHistogram can_open bins filename fs filename = Some text
    /\ Istream.ReadHistogram text = Some bins.
Proof.
  intros Hmin Hmax Hn Hin Hdeg Hlen Hopen.
  eexists. eexists. split; [|split].
  - apply scalar_histogram_counts; try assumption.
    change (2 ^ 24) with 16777216. lia.
  - unfold WriteHistogram, write_file. rewrite Hopen, String.eqb_refl. reflexivity.
  - apply read_stream. apply Forall_map, Forall_forall. intros j _.
    apply count_reads_back. unfold samples_in_bin.
    pose proof (count_occ_bound Nat.eq_dec j
                  (map (bin_index numberOfBins rangeMin rangeMax) values)) as B.
    rewrite length_map in B. lia.
Qed.

Lemma computed_histogram_reads_back_witness :
  exists (bins : HistogramType) (text : string),
    ScalarHistogram 4 (0 : uchar) 255 [0; 63; 64; 255; 128; 200] = Ok bins
    /\ WriteHistogram (fun _ => true) bins "histogram.txt"%string (fun _ => None)
         "histogram.txt"%string = Some text
    /\ Istream.ReadHistogram text = Some bins.
Proof.
  apply (computed_histogram_reads_back (fun _ => true) 4 0 255
           [0; 63; 64; 255; 128; 200] "histogram.txt"%string (fun _ => None)).
  - unfold is_uchar. lia.
  - unfold is_uchar. lia.
  - lia.
  - repeat constructor; lia.
  - vm_compute. reflexivity.
  - cbn. lia.
  - reflexivity.
Defined.

(** ** The text of the exception *)

(** X27.  For [unsigned char] samples the text of the exception shows the
    bounds of the range and the rejected sample as plain decimal integers
    (they are converted to [float] before they are printed, not written as
    characters), after the bin index and the number of samples. *)
Theorem exception_text_names_sample
    (numberOfBins : Z) (rangeMin rangeMax v : uchar) (bin : Z) (count i : nat) :
  is_uchar rangeMin -> is_uchar rangeMax -> is_uchar v ->
  diagnostic_text (diagnose numberOfBins rangeMin rangeMax bin count i v)
  = ("Can't write to bin " ++ Ostream.show_int bin ++ "!" ++ endl ++
     "There are " ++ Ostream.show_nat (Z.of_nat count) ++ " values." ++ endl ++
     "Range min " ++ Ostream.show_nat rangeMin ++ endl ++
     "Range max " ++ Ostream.show_nat rangeMax ++ endl ++
     "values[i] (i = " ++ Ostream.show_nat (Z.of_nat i) ++ ") = " ++
     Ostream.show_nat v ++ endl ++
     "binWidth " ++ Ostream.show_float (binWidth numberOfBins rangeMin rangeMax) ++
     endl)%string.
Proof.
  unfold is_uchar. intros Hmin Hmax Hv.
  unfold diagnostic_text, diagnose.
  cbn [diag_bin diag_count diag_rangeMin diag_rangeMax diag_index diag_value
       diag_binWidth sample_float Sample_uchar].
  rewrite !show_float_count by lia. reflexivity.
Qed.

Lemma exception_text_names_sample_witness :
  diagnostic_text (diagnose 4 (100 : uchar) 200 (-3) 5 2 10)
  = ("Can't write to bin -3!" ++ endl ++
     "There are 5 values." ++ endl ++
     "Range min 100" ++ endl ++
     "Range max 200" ++ endl ++
     "values[i] (i = 2) = 10" ++ endl ++
     "binWidth 25" ++ endl)%string.
Proof.
  apply (exception_text_names_sample 4 100 200 10 (-3) 5 2); unfold is_uchar; lia.
Defined.
